(** * classroomgen: session lifecycle, submission lineage and chat threads

    A shallow embedding of the route handlers of the classroom image
    generator (Next.js handlers over a Prisma/SQLite store) and the
    properties its specification states about them.

    The persistent store is a record of tables (lists of rows in
    insertion order) following [prisma/migrations]; every handler is a
    function from the request (cookies, JSON body), the answers of the
    outside world (clock, generated ids, random bytes, remote calls) and
    the store to a response and a new store.  Handlers run one request
    at a time: the interleaving of two in-flight requests is outside
    this model. *)

From Stdlib Require Import Ascii ZArith Lia.
From Stdlib.Strings Require Import Byte.
From stdpp Require Import base option list strings gmap pretty sorting.

Set Warnings "-register-all".

Local Open Scope string_scope.
Local Open Scope Z_scope.
Local Open Scope nat_scope.
Local Open Scope list_scope.

(** ** Rows of the relational schema *)

Definition Id := string.
Definition DateTime := Z.

Inductive SubmissionStatus := PENDING | SUCCESS | ERROR.

Inductive Sender := STUDENT | AI.

#[global] Instance SubmissionStatus_eq_dec : EqDecision SubmissionStatus.
Proof. solve_decision. Defined.

#[global] Instance Sender_eq_dec : EqDecision Sender.
Proof. solve_decision. Defined.

Module Session.
Record t := mk {
  id : Id;
  passwordHash : string;
  isActive : bool;
  createdAt : DateTime;
  endedAt : option DateTime }.
End Session.

Module Student.
Record t := mk {
  id : Id;
  username : string;
  passwordHash : string;
  createdAt : DateTime;
  sessionId : Id }.
End Student.

Module PromptSubmission.
Record t := mk {
  id : Id;
  sessionId : Id;
  prompt : string;
  role : string;
  createdAt : DateTime;
  studentId : option Id;
  rootSubmissionId : option Id;
  parentSubmissionId : option Id;
  revisionIndex : nat;
  status : SubmissionStatus;
  imageData : option string;
  imageMimeType : option string;
  errorMessage : option string;
  isShared : bool }.
End PromptSubmission.

Module ChatThread.
Record t := mk {
  id : Id;
  title : string;
  createdAt : DateTime;
  updatedAt : DateTime;
  sessionId : Id;
  studentId : Id }.
End ChatThread.

Module ChatMessage.
Record t := mk {
  id : Id;
  content : string;
  sender : Sender;
  createdAt : DateTime;
  threadId : Id;
  studentId : option Id }.
End ChatMessage.

Record Store := mkStore {
  sessions : list Session.t;
  students : list Student.t;
  promptSubmissions : list PromptSubmission.t;
  chatThreads : list ChatThread.t;
  chatMessages : list ChatMessage.t }.

Definition emptyStore : Store := mkStore [] [] [] [] [].

(** ** Requests, responses and thrown values *)

(** The three cookies read by [getSessionFromCookies]; a cookie that is
    not set is [None]. *)
Record Cookies := mkCookies {
  sessionId : option string;
  role : option string;
  studentId : option string }.

Definition getSessionFromCookies (c : Cookies) : option string * option string * option string :=
  (sessionId c, role c, studentId c).

(** JavaScript truthiness of an optional string: [undefined], [null] and
    the empty string are falsy. *)
Definition truthy (v : option string) : bool :=
  match v with
  | Some s => bool_decide (s <> "")
  | None => false
  end.

(** A parsed JSON value, as far as the body schemas look into it. *)
Inductive Json :=
| JNull
| JBool (b : bool)
| JInt (n : Z)
| JFloat
| JString (s : string)
| JArray
| JObject (fields : list (string * Json)).

(** [body.name] of a parsed object; [JSON.parse] keeps the last of
    several equal keys. *)
Definition field (name : string) (body : Json) : option Json :=
  match body with
  | JObject fields =>
      snd <$> List.find (fun kv => bool_decide (fst kv = name)) (rev fields)
  | _ => None
  end.

Inductive Thrown :=
| ZodError (message : string)
| PrismaError (code : string)
| JsError (message : string)
| SyntaxError
| NonError.

(** What the libraries the handlers call compute: bcrypt, zod's cuid
    test and the texts of library-made errors. *)
Class Libraries := {
  bcrypt_hash : string -> string -> string;
  bcrypt_compare : string -> string -> bool;
  zod_cuid : string -> bool;
  zod_issue_message : string -> string;
  zod_error_text : string -> string;
  prisma_error_message : string -> string;
  syntax_error_message : string }.

(** [error instanceof Error ? error.message : fallback] *)
Definition messageOf `{Libraries} (e : Thrown) (fallback : string) : string :=
  match e with
  | ZodError m => zod_error_text m
  | PrismaError code => prisma_error_message code
  | JsError m => m
  | SyntaxError => syntax_error_message
  | NonError => fallback
  end.

Inductive NextResponse (A : Type) :=
| Json200 (body : A)
| JsonError (status : nat) (message : string)
| Unhandled (e : Thrown).
Arguments Json200 {A} body.
Arguments JsonError {A} status message.
Arguments Unhandled {A} e.

Definition statusOf {A} (r : NextResponse A) : nat :=
  match r with
  | Json200 _ => 200
  | JsonError status _ => status
  | Unhandled _ => 500
  end.

(** ** Asynchronous code over the store

    An [await]ed computation either returns or throws; what it wrote to
    the store before throwing stays written. *)

Definition Async (A : Type) : Type := Store -> (Thrown + A) * Store.

Definition ret {A} (a : A) : Async A := fun st => (inr a, st).

Definition throw {A} (e : Thrown) : Async A := fun st => (inl e, st).

Definition bind {A B} (c : Async A) (k : A -> Async B) : Async B :=
  fun st =>
    match c st with
    | (inr a, st') => k a st'
    | (inl e, st') => (inl e, st')
    end.

Definition tryCatch {A} (body : Async A) (handler : Thrown -> Async A) : Async A :=
  fun st =>
    match body st with
    | (inr a, st') => (inr a, st')
    | (inl e, st') => handler e st'
    end.

Definition getStore : Async Store := fun st => (inr st, st).

Notation "'let*' x ':=' c 'in' k" := (bind c (fun x => k))
  (at level 10, x pattern, c at level 100, k at level 200).

(** A handler's run: the response and the store it leaves.  An exception
    that escapes the handler is the framework's bare 500. *)
Definition runHandler {A} (h : Async (NextResponse A)) (st : Store) : NextResponse A * Store :=
  match h st with
  | (inr r, st') => (r, st')
  | (inl e, st') => (Unhandled e, st')
  end.

(** ** The Prisma client *)

Definition hasId {A} (key : A -> Id) (i : Id) (table : list A) : bool :=
  bool_decide (i ∈ key <$> table).

Definition findUnique {A} (key : A -> Id) (i : Id) (table : list A) : option A :=
  List.find (fun r => bool_decide (key r = i)) table.

(** The row of greatest [createdAt] (the earliest inserted among equals),
    as [orderBy: { createdAt: 'desc' }] with [findFirst] picks it. *)
Fixpoint latestBy {A} (time : A -> DateTime) (table : list A) : option A :=
  match table with
  | [] => None
  | r :: rest =>
      match latestBy time rest with
      | Some r' => if bool_decide (time r < time r')%Z then Some r' else Some r
      | None => Some r
      end
  end.

(** A foreign key that may be NULL. *)
Definition refOk {A} (key : A -> Id) (ref : option Id) (table : list A) : bool :=
  match ref with
  | Some i => hasId key i table
  | None => true
  end.

Module prismaSession.

(** [findFirst] without and with [orderBy: { createdAt: 'desc' }]. *)
Definition findFirst (where_ : Session.t -> bool) (st : Store) : option Session.t :=
  List.find where_ (sessions st).

Definition findFirstLatest (where_ : Session.t -> bool) (st : Store) : option Session.t :=
  latestBy Session.createdAt (List.filter where_ (sessions st)).

(** [findUnique] with a [where] on the id and further columns. *)
Definition findUnique (where_ : Session.t -> bool) (st : Store) : option Session.t :=
  List.find where_ (sessions st).

Definition updateMany (where_ : Session.t -> bool) (data : Session.t -> Session.t) : Async unit :=
  fun st =>
    (inr tt,
     mkStore (List.map (fun s => if where_ s then data s else s) (sessions st))
             (students st) (promptSubmissions st) (chatThreads st) (chatMessages st)).

Definition create (row : Session.t) : Async Session.t :=
  fun st =>
    if hasId Session.id (Session.id row) (sessions st) then (inl (PrismaError "P2002"), st)
    else (inr row,
          mkStore (sessions st ++ [row])
                  (students st) (promptSubmissions st) (chatThreads st) (chatMessages st)).

End prismaSession.

(** ** lib/auth and lib/session *)

Definition hashPassword `{Libraries} (password salt : string) : string :=
  bcrypt_hash password salt.

Definition verifyPassword `{Libraries} (password hash : string) : bool :=
  bcrypt_compare password hash.

Definition getActiveSession (st : Store) : option Session.t :=
  prismaSession.findFirstLatest Session.isActive st.

Definition endSessionData (now : DateTime) (s : Session.t) : Session.t :=
  Session.mk (Session.id s) (Session.passwordHash s) false (Session.createdAt s) (Some now).

Definition endExistingSessions (now : DateTime) : Async unit :=
  prismaSession.updateMany Session.isActive (endSessionData now).

(** Strings.  A string holds the UTF-8 bytes of the JavaScript string
    it stands for (text without lone surrogates).  Equality,
    concatenation, prefix and substring tests on the bytes are then
    those of JavaScript; the length and the white space are read off the
    bytes. *)

(** [s.length]: the number of UTF-16 code units, one for each character
    and two for a character outside the basic plane (four bytes).  A
    continuation byte adds nothing to the count of its lead byte. *)
Definition codeUnits (a : ascii) : nat :=
  let n := nat_of_ascii a in
  if bool_decide (n < 128) then 1
  else if bool_decide (n < 192) then 0
  else if bool_decide (n < 240) then 1
  else 2.

Fixpoint jsLength (s : string) : nat :=
  match s with
  | EmptyString => 0
  | String a rest => codeUnits a + jsLength rest
  end.

(** The white space [String.prototype.trim] strips (WhiteSpace and
    LineTerminator of ECMAScript), by its UTF-8 bytes: U+0009 to U+000D
    and U+0020 (one byte); U+00A0 (two bytes); U+1680, U+2000 to U+200A,
    U+2028, U+2029, U+202F, U+205F, U+3000 and U+FEFF (three bytes). *)
Definition isSpace (a : ascii) : bool :=
  let n := nat_of_ascii a in
  bool_decide (n = 32) || (bool_decide (9 <= n) && bool_decide (n <= 13)).

Definition isSpace2 (a b : ascii) : bool :=
  bool_decide (nat_of_ascii a = 194) && bool_decide (nat_of_ascii b = 160).

Definition isSpace3 (a b c : ascii) : bool :=
  let '(x, y, z) := (nat_of_ascii a, nat_of_ascii b, nat_of_ascii c) in
  (bool_decide (x = 225) && bool_decide (y = 154) && bool_decide (z = 128))
  || (bool_decide (x = 226) && bool_decide (y = 128)
      && ((bool_decide (128 <= z) && bool_decide (z <= 138))
          || bool_decide (z = 168) || bool_decide (z = 169) || bool_decide (z = 175)))
  || (bool_decide (x = 226) && bool_decide (y = 129) && bool_decide (z = 159))
  || (bool_decide (x = 227) && bool_decide (y = 128) && bool_decide (z = 128))
  || (bool_decide (x = 239) && bool_decide (y = 187) && bool_decide (z = 191)).

(** [skipSpaces one two three l] drops from the front of [l] the white
    space characters of one, two and three bytes that the three tests
    recognise. *)
Fixpoint skipSpaces (one : ascii -> bool) (two : ascii -> ascii -> bool)
    (three : ascii -> ascii -> ascii -> bool) (l : list ascii) : list ascii :=
  match l with
  | [] => []
  | a :: r1 =>
      if one a then skipSpaces one two three r1
      else
        match r1 with
        | b :: r2 =>
            if two a b then skipSpaces one two three r2
            else
              match r2 with
              | c :: r3 => if three a b c then skipSpaces one two three r3 else l
              | [] => l
              end
        | [] => l
        end
  end.

Definition trimStart (s : string) : string :=
  String.string_of_list_ascii
    (skipSpaces isSpace isSpace2 isSpace3 (String.list_ascii_of_string s)).

(** From the end the bytes of a character are met last byte first. *)
Definition trimEnd (s : string) : string :=
  String.string_of_list_ascii
    (rev (skipSpaces isSpace (fun b a => isSpace2 a b) (fun c b a => isSpace3 a b c)
            (rev (String.list_ascii_of_string s)))).

(** [String.prototype.trim] *)
Definition trim (s : string) : string := trimEnd (trimStart s).

(** [await request.json()]: a body that is not JSON rejects. *)
Definition requestJson (body : option Json) : Async Json :=
  match body with
  | Some json => ret json
  | None => throw SyntaxError
  end.

(** [schema.parse(json)] returns the parsed value or throws a ZodError. *)
Definition parse {A} (result : Thrown + A) : Async A :=
  match result with
  | inr a => ret a
  | inl e => throw e
  end.

(** A remote call ends in a value or in a thrown [Error(message)]. *)
Definition awaitRemote {A} (outcome : string + A) : Async A :=
  match outcome with
  | inr a => ret a
  | inl message => throw (JsError message)
  end.

(** ** POST /api/session/start *)

Module SessionStart.

Definition bodySchema `{Libraries} (json : Json) : Thrown + string :=
  match json with
  | JObject _ =>
      match field "password" json with
      | Some (JString password) =>
          if bool_decide (4 <= jsLength password) then inr password
          else inl (ZodError "Password must be at least 4 characters")
      | _ => inl (ZodError (zod_issue_message "invalid_type"))
      end
  | _ => inl (ZodError (zod_issue_message "invalid_type"))
  end.

Record Reply := mkReply { sessionId : Id; createdAt : DateTime }.

(** [salt] is what [bcrypt.genSalt] drew, [newId] and [created] the id
    and timestamp the database gives the new row, [now] is [new Date()]. *)
Definition POST `{Libraries} (body : option Json)
    (salt : string) (newId : Id) (now created : DateTime) : Async (NextResponse Reply) :=
  tryCatch
    (let* json := requestJson body in
     let* password := parse (bodySchema json) in
     let* _ := endExistingSessions now in
     let passwordHash := hashPassword password salt in
     let* session := prismaSession.create (Session.mk newId passwordHash true created None) in
     ret (Json200 (mkReply (Session.id session) (Session.createdAt session))))
    (fun error =>
       match error with
       | ZodError message => ret (JsonError 400 message)
       | _ => ret (JsonError 500 "Unable to start session")
       end).

End SessionStart.

(** ** POST /api/session/join *)

Module SessionJoin.

Record Body := mkBody { password : string; role : string; teacherKey : option string }.

(** [z.enum(['student', 'teacher']).default('student')] *)
Definition roleSchema `{Libraries} (value : option Json) : Thrown + string :=
  match value with
  | None => inr "student"
  | Some (JString r) =>
      if bool_decide (r = "student") || bool_decide (r = "teacher") then inr r
      else inl (ZodError (zod_issue_message "invalid_enum_value"))
  | Some _ => inl (ZodError (zod_issue_message "invalid_type"))
  end.

Definition bodySchema `{Libraries} (json : Json) : Thrown + Body :=
  match json with
  | JObject _ =>
      match field "password" json with
      | Some (JString password) =>
          if bool_decide (1 <= jsLength password) then
            match roleSchema (field "role" json) with
            | inr role =>
                match field "teacherKey" json with
                | None => inr (mkBody password role None)
                | Some (JString k) => inr (mkBody password role (Some k))
                | Some _ => inl (ZodError (zod_issue_message "invalid_type"))
                end
            | inl e => inl e
            end
          else inl (ZodError "Password is required")
      | _ => inl (ZodError (zod_issue_message "invalid_type"))
      end
  | _ => inl (ZodError (zod_issue_message "invalid_type"))
  end.

Record Reply := mkReply { sessionId : Id; replyRole : string; createdAt : DateTime }.

(** [teacherDashboardKey] is [process.env.TEACHER_DASHBOARD_KEY]. *)
Definition POST `{Libraries} (body : option Json)
    (teacherDashboardKey : option string) : Async (NextResponse Reply) :=
  tryCatch
    (let* json := requestJson body in
     let* parsed := parse (bodySchema json) in
     let* st := getStore in
     match getActiveSession st with
     | None => ret (JsonError 404 "No active session. Please ask the teacher to start one.")
     | Some activeSession =>
         if negb (verifyPassword (password parsed) (Session.passwordHash activeSession)) then
           ret (JsonError 401 "Incorrect password. Try again.")
         else
           let requiredKey := trim <$> teacherDashboardKey in
           if bool_decide (role parsed = "teacher") && truthy requiredKey
              && (negb (truthy (teacherKey parsed))
                  || negb (bool_decide (teacherKey parsed = requiredKey)))
           then ret (JsonError 403 "Teacher dashboard key is invalid.")
           else ret (Json200 (mkReply (Session.id activeSession) (role parsed)
                                      (Session.createdAt activeSession)))
     end)
    (fun error =>
       match error with
       | ZodError message => ret (JsonError 400 message)
       | _ => ret (JsonError 500 "Unable to join session")
       end).

End SessionJoin.

(** ** POST /api/session/end *)

Module SessionEnd.

Definition POST (cookies : Cookies) (now : DateTime) : Async (NextResponse unit) :=
  let '(sessionId, role, _) := getSessionFromCookies cookies in
  if negb (truthy sessionId) || negb (bool_decide (role = Some "teacher")) then
    ret (JsonError 403 "Teacher access only.")
  else
    let* _ := prismaSession.updateMany
                (fun s => bool_decide (Some (Session.id s) = sessionId))
                (endSessionData now) in
    ret (Json200 tt).

End SessionEnd.

(** ** Prisma: students, submissions, threads and messages

    [create] enforces what the migrations declare: the primary key, the
    foreign keys and the unique index on (sessionId, username). *)

(** [orderBy: { createdAt: 'desc' }] *)
Definition newerFirst {A} (time : A -> DateTime) : relation A :=
  fun a b => (time b <= time a)%Z.

#[global] Instance newerFirst_dec {A} (time : A -> DateTime) : RelDecision (newerFirst time).
Proof. intros a b. unfold newerFirst. apply _. Defined.

Definition orderByCreatedAtDesc {A} (time : A -> DateTime) (rows : list A) : list A :=
  merge_sort (newerFirst time) rows.

Module prismaStudent.

Definition findMany (where_ : Student.t -> bool) (st : Store) : list Student.t :=
  List.filter where_ (students st).

Definition findUnique (i : Id) (st : Store) : option Student.t :=
  findUnique Student.id i (students st).

Definition create (row : Student.t) : Async Student.t :=
  fun st =>
    if hasId Student.id (Student.id row) (students st) then (inl (PrismaError "P2002"), st)
    else if negb (hasId Session.id (Student.sessionId row) (sessions st)) then
      (inl (PrismaError "P2003"), st)
    else if existsb (fun s => bool_decide (Student.sessionId s = Student.sessionId row)
                              && bool_decide (Student.username s = Student.username row))
                    (students st)
    then (inl (PrismaError "P2002"), st)
    else (inr row,
          mkStore (sessions st) (students st ++ [row])
                  (promptSubmissions st) (chatThreads st) (chatMessages st)).

End prismaStudent.

Module prismaPromptSubmission.

Definition findUnique (i : Id) (st : Store) : option PromptSubmission.t :=
  findUnique PromptSubmission.id i (promptSubmissions st).

Definition count (where_ : PromptSubmission.t -> bool) (st : Store) : nat :=
  length (List.filter where_ (promptSubmissions st)).

Definition findMany (where_ : PromptSubmission.t -> bool) (st : Store) : list PromptSubmission.t :=
  orderByCreatedAtDesc PromptSubmission.createdAt (List.filter where_ (promptSubmissions st)).

Definition create (row : PromptSubmission.t) : Async PromptSubmission.t :=
  fun st =>
    if hasId PromptSubmission.id (PromptSubmission.id row) (promptSubmissions st) then
      (inl (PrismaError "P2002"), st)
    else if negb (hasId Session.id (PromptSubmission.sessionId row) (sessions st)
                  && refOk Student.id (PromptSubmission.studentId row) (students st)
                  && refOk PromptSubmission.id (PromptSubmission.rootSubmissionId row)
                       (promptSubmissions st)
                  && refOk PromptSubmission.id (PromptSubmission.parentSubmissionId row)
                       (promptSubmissions st))
    then (inl (PrismaError "P2003"), st)
    else (inr row,
          mkStore (sessions st) (students st) (promptSubmissions st ++ [row])
                  (chatThreads st) (chatMessages st)).

Definition update (i : Id) (data : PromptSubmission.t -> PromptSubmission.t) :
    Async PromptSubmission.t :=
  fun st =>
    match findUnique i st with
    | None => (inl (PrismaError "P2025"), st)
    | Some row =>
        (inr (data row),
         mkStore (sessions st) (students st)
                 (List.map (fun r => if bool_decide (PromptSubmission.id r = i) then data r else r)
                           (promptSubmissions st))
                 (chatThreads st) (chatMessages st))
    end.

End prismaPromptSubmission.

Module prismaChatThread.

Definition findUnique (i : Id) (st : Store) : option ChatThread.t :=
  findUnique ChatThread.id i (chatThreads st).

Definition count (where_ : ChatThread.t -> bool) (st : Store) : nat :=
  length (List.filter where_ (chatThreads st)).

Definition create (row : ChatThread.t) : Async ChatThread.t :=
  fun st =>
    if hasId ChatThread.id (ChatThread.id row) (chatThreads st) then
      (inl (PrismaError "P2002"), st)
    else if negb (hasId Session.id (ChatThread.sessionId row) (sessions st)
                  && hasId Student.id (ChatThread.studentId row) (students st))
    then (inl (PrismaError "P2003"), st)
    else (inr row,
          mkStore (sessions st) (students st) (promptSubmissions st)
                  (chatThreads st ++ [row]) (chatMessages st)).

Definition update (i : Id) (data : ChatThread.t -> ChatThread.t) : Async ChatThread.t :=
  fun st =>
    match findUnique i st with
    | None => (inl (PrismaError "P2025"), st)
    | Some row =>
        (inr (data row),
         mkStore (sessions st) (students st) (promptSubmissions st)
                 (List.map (fun r => if bool_decide (ChatThread.id r = i) then data r else r)
                           (chatThreads st))
                 (chatMessages st))
    end.

End prismaChatThread.

Module prismaChatMessage.

Definition findMany (where_ : ChatMessage.t -> bool) (take : nat) (st : Store) :
    list ChatMessage.t :=
  List.firstn take (orderByCreatedAtDesc ChatMessage.createdAt
                      (List.filter where_ (chatMessages st))).

Definition create (row : ChatMessage.t) : Async ChatMessage.t :=
  fun st =>
    if hasId ChatMessage.id (ChatMessage.id row) (chatMessages st) then
      (inl (PrismaError "P2002"), st)
    else if negb (hasId ChatThread.id (ChatMessage.threadId row) (chatThreads st)
                  && refOk Student.id (ChatMessage.studentId row) (students st))
    then (inl (PrismaError "P2003"), st)
    else (inr row,
          mkStore (sessions st) (students st) (promptSubmissions st)
                  (chatThreads st) (chatMessages st ++ [row])).

End prismaChatMessage.

(** ** lib/session: the remaining edits of one submission *)

Definition getSubmissionWithRemainingEdits (submissionId : Id) (st : Store) :
    option (PromptSubmission.t * Z) :=
  match prismaPromptSubmission.findUnique submissionId st with
  | None => None
  | Some submission =>
      let rootId :=
        default (PromptSubmission.id submission) (PromptSubmission.rootSubmissionId submission) in
      let chainCount :=
        prismaPromptSubmission.count
          (fun s => (bool_decide (PromptSubmission.id s = rootId)
                     || bool_decide (PromptSubmission.rootSubmissionId s = Some rootId))
                    && bool_decide (PromptSubmission.status s = SUCCESS)) st in
      let remaining := Z.max 0 (3 - Z.of_nat chainCount) in
      Some (submission, remaining)
  end.

(** ** POST /api/images/generate *)

Module ImagesGenerate.

Record Body := mkBody { prompt : string; parentSubmissionId : option string }.

Definition bodySchema `{Libraries} (json : Json) : Thrown + Body :=
  match json with
  | JObject _ =>
      match field "prompt" json with
      | Some (JString prompt) =>
          if bool_decide (5 <= jsLength prompt) then
            match field "parentSubmissionId" json with
            | None => inr (mkBody prompt None)
            | Some (JString parent) => inr (mkBody prompt (Some parent))
            | Some _ => inl (ZodError (zod_issue_message "invalid_type"))
            end
          else inl (ZodError "Please write a longer prompt to help the AI.")
      | _ => inl (ZodError (zod_issue_message "invalid_type"))
      end
  | _ => inl (ZodError (zod_issue_message "invalid_type"))
  end.

Record Reply := mkReply {
  id : Id;
  replyPrompt : string;
  createdAt : DateTime;
  imageData : option string;
  imageMimeType : option string;
  revisionIndex : nat;
  replyParentSubmissionId : option Id;
  rootSubmissionId : Id;
  isShared : bool }.

(** What the block guarded by [if (parentSubmissionId)] leaves in
    [rootSubmissionId], [revisionIndex] and [baseImageDataUrl]. *)
Record Lineage := mkLineage {
  lineageRoot : option Id;
  lineageIndex : nat;
  baseImageDataUrl : option string }.

Definition inChain (sessionId rootId : Id) (s : PromptSubmission.t) : bool :=
  bool_decide (PromptSubmission.sessionId s = sessionId)
  && (bool_decide (PromptSubmission.id s = rootId)
      || bool_decide (PromptSubmission.rootSubmissionId s = Some rootId))
  && (bool_decide (PromptSubmission.status s = PENDING)
      || bool_decide (PromptSubmission.status s = SUCCESS)).

(** [`data:${parent.imageMimeType ?? 'image/png'};base64,${parent.imageData}`] *)
Definition dataUrl (parent : PromptSubmission.t) : string :=
  "data:" +:+ default "image/png" (PromptSubmission.imageMimeType parent)
  +:+ ";base64," +:+ default "" (PromptSubmission.imageData parent).

Definition lineage (sessionId studentId parentSubmissionId : Id) (st : Store) :
    NextResponse Reply + Lineage :=
  match prismaPromptSubmission.findUnique parentSubmissionId st with
  | None => inl (JsonError 404 "Original image not found for this session.")
  | Some parent =>
      if negb (bool_decide (PromptSubmission.sessionId parent = sessionId)) then
        inl (JsonError 404 "Original image not found for this session.")
      else if negb (bool_decide (PromptSubmission.studentId parent = Some studentId)) then
        inl (JsonError 403 "You can only refine images you created.")
      else if negb (truthy (PromptSubmission.imageData parent)) then
        inl (JsonError 422 "Original image data is unavailable for refinement.")
      else
        let rootId := default (PromptSubmission.id parent) (PromptSubmission.rootSubmissionId parent) in
        let chainCount := prismaPromptSubmission.count (inChain sessionId rootId) st in
        if bool_decide (3 <= chainCount) then
          inl (JsonError 400 "This image has no refinements remaining.")
        else
          inr (mkLineage (Some rootId) chainCount (Some (dataUrl parent)))
  end.

Definition markSuccess (imageData mimeType : string) (s : PromptSubmission.t) : PromptSubmission.t :=
  PromptSubmission.mk (PromptSubmission.id s) (PromptSubmission.sessionId s)
    (PromptSubmission.prompt s) (PromptSubmission.role s) (PromptSubmission.createdAt s)
    (PromptSubmission.studentId s) (PromptSubmission.rootSubmissionId s)
    (PromptSubmission.parentSubmissionId s) (PromptSubmission.revisionIndex s)
    SUCCESS (Some imageData) (Some mimeType)
    (PromptSubmission.errorMessage s) (PromptSubmission.isShared s).

Definition markError (message : string) (s : PromptSubmission.t) : PromptSubmission.t :=
  PromptSubmission.mk (PromptSubmission.id s) (PromptSubmission.sessionId s)
    (PromptSubmission.prompt s) (PromptSubmission.role s) (PromptSubmission.createdAt s)
    (PromptSubmission.studentId s) (PromptSubmission.rootSubmissionId s)
    (PromptSubmission.parentSubmissionId s) (PromptSubmission.revisionIndex s)
    ERROR (PromptSubmission.imageData s) (PromptSubmission.imageMimeType s)
    (Some message) (PromptSubmission.isShared s).

Definition replyOf (s : PromptSubmission.t) : Reply :=
  mkReply (PromptSubmission.id s) (PromptSubmission.prompt s) (PromptSubmission.createdAt s)
    (PromptSubmission.imageData s) (PromptSubmission.imageMimeType s)
    (PromptSubmission.revisionIndex s) (PromptSubmission.parentSubmissionId s)
    (default (PromptSubmission.id s) (PromptSubmission.rootSubmissionId s))
    (PromptSubmission.isShared s).

(** [callOpenRouter] is the remote generation call: given the prompt and
    the base image it returns the image data and mime type ([inr]) or
    throws an [Error] with a message ([inl]).
    [newId] and [created] are the id and timestamp of the inserted row. *)
Definition POST `{Libraries} (cookies : Cookies) (body : option Json)
    (callOpenRouter : string -> option string -> string + (string * string))
    (newId : Id) (created : DateTime) : Async (NextResponse Reply) :=
  let '(sessionId, role, studentId) := getSessionFromCookies cookies in
  if negb (truthy sessionId) || negb (truthy role) then
    ret (JsonError 401 "Join the classroom session before generating images.")
  else if negb (bool_decide (role = Some "student")) || negb (truthy studentId) then
    ret (JsonError 403 "Only students can generate images in this view.")
  else
    let sessionId := default "" sessionId in
    let studentId := default "" studentId in
    let* json := requestJson body in
    tryCatch
      (let* parsed := parse (bodySchema json) in
       let* st := getStore in
       match prismaSession.findFirst
               (fun s => bool_decide (Session.id s = sessionId) && Session.isActive s) st with
       | None => ret (JsonError 403 "Session expired. Please ask the teacher to restart.")
       | Some _ =>
           match
             (if truthy (parentSubmissionId parsed)
              then lineage sessionId studentId (default "" (parentSubmissionId parsed)) st
              else inr (mkLineage None 0 None))
           with
           | inl response => ret response
           | inr chain =>
               let* submission :=
                 prismaPromptSubmission.create
                   (PromptSubmission.mk newId sessionId (prompt parsed) "STUDENT" created
                      (Some studentId) (lineageRoot chain) (parentSubmissionId parsed)
                      (lineageIndex chain) PENDING None None None false) in
               tryCatch
                 (let* generated :=
                    awaitRemote (callOpenRouter (prompt parsed) (baseImageDataUrl chain)) in
                  let* updated :=
                    prismaPromptSubmission.update (PromptSubmission.id submission)
                      (markSuccess (fst generated) (snd generated)) in
                  ret (Json200 (replyOf updated)))
                 (fun generationError =>
                    let message := messageOf generationError "Image generation failed" in
                    let* _ :=
                      prismaPromptSubmission.update (PromptSubmission.id submission)
                        (markError message) in
                    ret (JsonError 502 message))
           end
       end)
      (fun error =>
         match error with
         | ZodError message => ret (JsonError 400 message)
         | _ => ret (JsonError 500 "Unable to generate image")
         end).

End ImagesGenerate.

(** ** POST /api/images/share *)

Module ImagesShare.

Record Body := mkBody { submissionId : string; share : bool }.

Definition bodySchema `{Libraries} (json : Json) : Thrown + Body :=
  match json with
  | JObject _ =>
      match field "submissionId" json with
      | Some (JString submissionId) =>
          if zod_cuid submissionId then
            match field "share" json with
            | Some (JBool share) => inr (mkBody submissionId share)
            | _ => inl (ZodError (zod_issue_message "invalid_type"))
            end
          else inl (ZodError (zod_issue_message "invalid_string"))
      | _ => inl (ZodError (zod_issue_message "invalid_type"))
      end
  | _ => inl (ZodError (zod_issue_message "invalid_type"))
  end.

Record Reply := mkReply { replySubmissionId : Id; isShared : bool }.

Definition setIsShared (share : bool) (s : PromptSubmission.t) : PromptSubmission.t :=
  PromptSubmission.mk (PromptSubmission.id s) (PromptSubmission.sessionId s)
    (PromptSubmission.prompt s) (PromptSubmission.role s) (PromptSubmission.createdAt s)
    (PromptSubmission.studentId s) (PromptSubmission.rootSubmissionId s)
    (PromptSubmission.parentSubmissionId s) (PromptSubmission.revisionIndex s)
    (PromptSubmission.status s) (PromptSubmission.imageData s)
    (PromptSubmission.imageMimeType s) (PromptSubmission.errorMessage s) share.

Definition POST `{Libraries} (cookies : Cookies) (body : option Json) :
    Async (NextResponse Reply) :=
  tryCatch
    (let '(sessionId, role, studentId) := getSessionFromCookies cookies in
     if negb (truthy sessionId) || negb (bool_decide (role = Some "student"))
        || negb (truthy studentId)
     then ret (JsonError 403 "Student access required.")
     else
       let* json := requestJson body in
       let* parsed := parse (bodySchema json) in
       let* st := getStore in
       match prismaPromptSubmission.findUnique (submissionId parsed) st with
       | None => ret (JsonError 403 "You can only manage sharing for your own images.")
       | Some submission =>
           if negb (bool_decide (Some (PromptSubmission.sessionId submission) = sessionId))
              || negb (bool_decide (PromptSubmission.studentId submission = studentId))
           then ret (JsonError 403 "You can only manage sharing for your own images.")
           else if negb (bool_decide (PromptSubmission.status submission = SUCCESS)) then
             ret (JsonError 400 "Only completed images can be shared.")
           else
             let* updated :=
               prismaPromptSubmission.update (PromptSubmission.id submission)
                 (setIsShared (share parsed)) in
             ret (Json200 (mkReply (PromptSubmission.id updated)
                                   (PromptSubmission.isShared updated)))
       end)
    (fun error =>
       match error with
       | ZodError message => ret (JsonError 400 message)
       | _ => ret (JsonError 500 "Unable to update sharing state")
       end).

End ImagesShare.

(** ** GET /api/images *)

Module Images.

Record Enriched := mkEnriched {
  submission : PromptSubmission.t;
  rootId : Id;
  remainingEdits : Z;
  ownedByCurrentUser : bool;
  studentUsername : option string }.

Record Reply := mkReply { submissions : list Enriched; replyRole : option string }.

(** The [where] clause: the session's submissions, for every caller but
    the teacher narrowed to completed ones that are shared or the
    caller's own. *)
Definition visible (sessionId : Id) (role studentId : option string)
    (s : PromptSubmission.t) : bool :=
  bool_decide (PromptSubmission.sessionId s = sessionId)
  && (bool_decide (role = Some "teacher")
      || (bool_decide (PromptSubmission.status s = SUCCESS)
          && (PromptSubmission.isShared s
              || (truthy studentId
                  && bool_decide (PromptSubmission.studentId s = studentId))))).

Definition rootOf (s : PromptSubmission.t) : Id :=
  default (PromptSubmission.id s) (PromptSubmission.rootSubmissionId s).

(** One turn of the loop filling the [successCounts] map. *)
Definition countSuccess (successCounts : gmap string nat) (s : PromptSubmission.t) :
    gmap string nat :=
  if negb (bool_decide (PromptSubmission.status s = SUCCESS)) then successCounts
  else <[rootOf s := default 0 (successCounts !! rootOf s) + 1]> successCounts.

Definition enrich (successCounts : gmap string nat) (studentId : option string)
    (st : Store) (s : PromptSubmission.t) : Enriched :=
  let successCount :=
    default (if bool_decide (PromptSubmission.status s = SUCCESS) then 1 else 0)
            (successCounts !! rootOf s) in
  mkEnriched s (rootOf s) (Z.max 0 (3 - Z.of_nat successCount))
    (if truthy studentId then bool_decide (PromptSubmission.studentId s = studentId) else false)
    (match PromptSubmission.studentId s with
     | Some i => Student.username <$> prismaStudent.findUnique i st
     | None => None
     end).

Definition GET (cookies : Cookies) : Async (NextResponse Reply) :=
  let '(sessionId, role, studentId) := getSessionFromCookies cookies in
  if negb (truthy sessionId) then ret (Json200 (mkReply [] None))
  else
    let sessionId := default "" sessionId in
    let* st := getStore in
    match prismaSession.findUnique
            (fun s => bool_decide (Session.id s = sessionId) && Session.isActive s) st with
    | None => ret (Json200 (mkReply [] None))
    | Some _ =>
        let submissions :=
          prismaPromptSubmission.findMany (visible sessionId role studentId) st in
        let successCounts := foldl countSuccess ∅ submissions in
        ret (Json200 (mkReply (enrich successCounts studentId st <$> submissions) role))
    end.

End Images.

(** ** POST /api/chat/threads *)

Module ChatThreads.

Definition MAX_THREADS_PER_STUDENT : nat := 5.

Definition createSchema `{Libraries} (json : Json) : Thrown + option string :=
  match json with
  | JObject _ =>
      match field "title" json with
      | None => inr None
      | Some (JString title) =>
          if bool_decide (jsLength (trim title) <= 80) then inr (Some (trim title))
          else inl (ZodError (zod_issue_message "too_big"))
      | Some _ => inl (ZodError (zod_issue_message "invalid_type"))
      end
  | _ => inl (ZodError (zod_issue_message "invalid_type"))
  end.

Record Reply := mkReply {
  id : Id;
  replyTitle : string;
  createdAt : DateTime;
  updatedAt : DateTime;
  latestMessage : option string;
  messageCount : nat;
  limit : nat }.

Definition POST `{Libraries} (cookies : Cookies) (body : option Json)
    (newId : Id) (created : DateTime) : Async (NextResponse Reply) :=
  tryCatch
    (let '(sessionId, role, studentId) := getSessionFromCookies cookies in
     if negb (truthy sessionId) || negb (bool_decide (role = Some "student"))
        || negb (truthy studentId)
     then ret (JsonError 403 "Student access required.")
     else
       let sessionId := default "" sessionId in
       let studentId := default "" studentId in
       let json := default (JObject []) body in
       let* title := parse (createSchema json) in
       let* st := getStore in
       let threadCount :=
         prismaChatThread.count
           (fun t => bool_decide (ChatThread.sessionId t = sessionId)
                     && bool_decide (ChatThread.studentId t = studentId)) st in
       if bool_decide (MAX_THREADS_PER_STUDENT <= threadCount) then
         ret (JsonError 400 "You have reached the chat limit for this session.")
       else
         let threadTitle :=
           if truthy title then default "" title
           else "Conversation " +:+ pretty (threadCount + 1) in
         let* thread :=
           prismaChatThread.create
             (ChatThread.mk newId threadTitle created created sessionId studentId) in
         ret (Json200 (mkReply (ChatThread.id thread) (ChatThread.title thread)
                         (ChatThread.createdAt thread) (ChatThread.updatedAt thread)
                         None 0 MAX_THREADS_PER_STUDENT)))
    (fun error =>
       match error with
       | ZodError message => ret (JsonError 400 message)
       | _ => ret (JsonError 500 "Unable to create chat thread")
       end).

End ChatThreads.

(** ** POST /api/chat/threads/[threadId]/messages *)

Module ChatMessages.

Definition MAX_HISTORY_MESSAGES : nat := 20.

Definition messageSchema `{Libraries} (json : Json) : Thrown + string :=
  match json with
  | JObject _ =>
      match field "content" json with
      | Some (JString content) =>
          if negb (bool_decide (1 <= jsLength (trim content))) then
            inl (ZodError "Message cannot be empty")
          else if negb (bool_decide (jsLength (trim content) <= 4000)) then
            inl (ZodError "Message is too long")
          else inr (trim content)
      | _ => inl (ZodError (zod_issue_message "invalid_type"))
      end
  | _ => inl (ZodError (zod_issue_message "invalid_type"))
  end.

Record Sent := mkSent {
  id : Id;
  sentContent : string;
  sentSender : Sender;
  createdAt : DateTime }.

Definition sentOf (m : ChatMessage.t) : Sent :=
  mkSent (ChatMessage.id m) (ChatMessage.content m) (ChatMessage.sender m)
         (ChatMessage.createdAt m).

Definition touch (now : DateTime) (t : ChatThread.t) : ChatThread.t :=
  ChatThread.mk (ChatThread.id t) (ChatThread.title t) (ChatThread.createdAt t) now
                (ChatThread.sessionId t) (ChatThread.studentId t).

(** [callChatCompletion] is the remote chat call on the ordered history,
    returning the reply ([inr]) or throwing an [Error] ([inl] message);
    the two messages get [studentMsgId]/[studentMsgAt] and
    [aiMsgId]/[aiMsgAt] from the database. *)
Definition POST `{Libraries} (cookies : Cookies) (threadId : Id) (body : option Json)
    (callChatCompletion : list (Sender * string) -> string + string)
    (studentMsgId : Id) (studentMsgAt : DateTime)
    (aiMsgId : Id) (aiMsgAt : DateTime) (now : DateTime) : Async (NextResponse (list Sent)) :=
  tryCatch
    (let '(sessionId, role, studentId) := getSessionFromCookies cookies in
     if negb (truthy sessionId) || negb (bool_decide (role = Some "student"))
        || negb (truthy studentId)
     then ret (JsonError 403 "Student access required.")
     else
       let* st := getStore in
       match prismaChatThread.findUnique threadId st with
       | None => ret (JsonError 404 "Chat not found.")
       | Some thread =>
           if negb (bool_decide (Some (ChatThread.sessionId thread) = sessionId))
              || negb (bool_decide (Some (ChatThread.studentId thread) = studentId))
           then ret (JsonError 404 "Chat not found.")
           else
             let* json := requestJson body in
             let* content := parse (messageSchema json) in
             let* studentMessage :=
               prismaChatMessage.create
                 (ChatMessage.mk studentMsgId content STUDENT studentMsgAt threadId studentId) in
             let* st := getStore in
             let history :=
               prismaChatMessage.findMany
                 (fun m => bool_decide (ChatMessage.threadId m = threadId))
                 MAX_HISTORY_MESSAGES st in
             let orderedHistory := rev history in
             let* aiResponseText :=
               awaitRemote (callChatCompletion
                              ((fun m => (ChatMessage.sender m, ChatMessage.content m))
                                 <$> orderedHistory)) in
             let* aiMessage :=
               prismaChatMessage.create
                 (ChatMessage.mk aiMsgId aiResponseText AI aiMsgAt threadId None) in
             let* _ := prismaChatThread.update threadId (touch now) in
             ret (Json200 (sentOf <$> [studentMessage; aiMessage]))
       end)
    (fun error =>
       match error with
       | ZodError message => ret (JsonError 400 message)
       | _ => ret (JsonError 500 (messageOf error "Unable to send message"))
       end).

End ChatMessages.

(** ** POST /api/teacher/students/generate *)

Module TeacherStudentsGenerate.

Definition bodySchema `{Libraries} (json : Json) : Thrown + nat :=
  match json with
  | JObject _ =>
      match field "count" json with
      | Some (JInt count) =>
          if bool_decide (count < 1)%Z then inl (ZodError (zod_issue_message "too_small"))
          else if bool_decide (50 < count)%Z then inl (ZodError (zod_issue_message "too_big"))
          else inr (Z.to_nat count)
      | _ => inl (ZodError (zod_issue_message "invalid_type"))
      end
  | _ => inl (ZodError (zod_issue_message "invalid_type"))
  end.

(** The alphabet is ASCII: its length and the character at an index are
    those of its bytes. *)
Definition chars : string := "ABCDEFGHJKLMNPQRSTUVWXYZabcdefghijkmnopqrstuvwxyz23456789".

Definition charAt (s : string) (i : nat) : string :=
  match String.get i s with
  | Some a => String a EmptyString
  | None => "undefined"
  end.

(** [bytes] is the buffer [crypto.randomBytes(length)] returned, one byte
    for each character of the code. *)
Definition randomCode (bytes : list Byte.byte) : string :=
  foldl (fun result b => result +:+ charAt chars (Byte.to_nat b mod String.length chars))
        "" bytes.

Definition lowerAscii (a : ascii) : ascii :=
  let n := nat_of_ascii a in
  if bool_decide (65 <= n) && bool_decide (n <= 90) then ascii_of_nat (n + 32) else a.

Fixpoint toLowerCase (s : string) : string :=
  match s with
  | EmptyString => EmptyString
  | String a rest => String (lowerAscii a) (toLowerCase rest)
  end.

(** The random source: the buffers the successive [crypto.randomBytes]
    calls return.  A run that needs more buffers than the tape holds has
    no result ([None]). *)
Definition Tape := list (list Byte.byte).

(** [let username = randomCode();
     while (usedUsernames.has(username.toLowerCase())) username = randomCode();] *)
Fixpoint drawUsername (usedUsernames : gset string) (tape : Tape) : option (string * Tape) :=
  match tape with
  | [] => None
  | bytes :: tape' =>
      let username := randomCode bytes in
      if bool_decide (toLowerCase username ∈ usedUsernames) then drawUsername usedUsernames tape'
      else Some (username, tape')
  end.

Record Credential := mkCredential { username : string; password : string }.

(** The body of the [for] loop, [n] turns from index [i] on; [salts],
    [ids] and [created] give the bcrypt salt and the id and timestamp of
    the row made in each turn. *)
Fixpoint createStudents `{Libraries} (sessionId : Id) (n i : nat)
    (usedUsernames : gset string) (tape : Tape)
    (salts : nat -> string) (ids : nat -> Id) (created : nat -> DateTime)
    (credentials : list Credential) (st : Store) :
    option ((Thrown + list Credential) * Store) :=
  match n with
  | 0 => Some (inr credentials, st)
  | S n' =>
      match drawUsername usedUsernames tape with
      | None => None
      | Some (username, tape1) =>
          let usedUsernames' := {[toLowerCase username]} ∪ usedUsernames in
          match tape1 with
          | [] => None
          | bytes :: tape2 =>
              let password := randomCode bytes in
              let passwordHash := hashPassword password (salts i) in
              match prismaStudent.create
                      (Student.mk (ids i) username passwordHash (created i) sessionId) st with
              | (inl e, st') => Some (inl e, st')
              | (inr _, st') =>
                  createStudents sessionId n' (S i) usedUsernames' tape2 salts ids created
                    (credentials ++ [mkCredential username password]) st'
              end
          end
      end
  end.

(** [prisma.$transaction]: what the callback wrote is kept only if it
    returns. *)
Definition transaction {A} (callback : Store -> option ((Thrown + A) * Store)) (st : Store) :
    option ((Thrown + A) * Store) :=
  match callback st with
  | Some (inl e, _) => Some (inl e, st)
  | result => result
  end.

Definition POST `{Libraries} (cookies : Cookies) (body : option Json) (tape : Tape)
    (salts : nat -> string) (ids : nat -> Id) (created : nat -> DateTime) (st : Store) :
    option (NextResponse (list Credential) * Store) :=
  let '(sessionId, role, _) := getSessionFromCookies cookies in
  if negb (truthy sessionId) || negb (bool_decide (role = Some "teacher")) then
    Some (JsonError 403 "Teacher access only.", st)
  else
    let sessionId := default "" sessionId in
    match body with
    | None => Some (JsonError 500 "Unable to generate student credentials", st)
    | Some json =>
        match bodySchema json with
        | inl (ZodError message) => Some (JsonError 400 message, st)
        | inl _ => Some (JsonError 500 "Unable to generate student credentials", st)
        | inr count =>
            let existing :=
              prismaStudent.findMany (fun s => bool_decide (Student.sessionId s = sessionId)) st in
            let usedUsernames : gset string :=
              list_to_set ((fun entry => toLowerCase (Student.username entry)) <$> existing) in
            match transaction
                    (createStudents sessionId count 0 usedUsernames tape salts ids created []) st
            with
            | None => None
            | Some (inr credentials, st') => Some (Json200 credentials, st')
            | Some (inl _, st') =>
                Some (JsonError 500 "Unable to generate student credentials", st')
            end
        end
    end.

End TeacherStudentsGenerate.

(** ** The server as a transition system

    One step is one request handled to its end.  The handlers that only
    read the store and are not named by a property below (login, session
    lookup, chat and teacher listings, export) take no step. *)

Inductive step `{Libraries} : Store -> Store -> Prop :=
| step_session_start body salt newId now created st r st' :
    runHandler (SessionStart.POST body salt newId now created) st = (r, st') ->
    step st st'
| step_session_join body key st r st' :
    runHandler (SessionJoin.POST body key) st = (r, st') ->
    step st st'
| step_session_end cookies now st r st' :
    runHandler (SessionEnd.POST cookies now) st = (r, st') ->
    step st st'
| step_students_generate cookies body tape salts ids created st r st' :
    TeacherStudentsGenerate.POST cookies body tape salts ids created st = Some (r, st') ->
    step st st'
| step_images_generate cookies body remote newId created st r st' :
    runHandler (ImagesGenerate.POST cookies body remote newId created) st = (r, st') ->
    step st st'
| step_images_share cookies body st r st' :
    runHandler (ImagesShare.POST cookies body) st = (r, st') ->
    step st st'
| step_images_list cookies st r st' :
    runHandler (Images.GET cookies) st = (r, st') ->
    step st st'
| step_chat_thread cookies body newId created st r st' :
    runHandler (ChatThreads.POST cookies body newId created) st = (r, st') ->
    step st st'
| step_chat_message cookies threadId body remote i1 t1 i2 t2 now st r st' :
    runHandler (ChatMessages.POST cookies threadId body remote i1 t1 i2 t2 now) st = (r, st') ->
    step st st'.

Definition reachable `{Libraries} (st : Store) : Prop := rtc step emptyStore st.

(** ** Invariants of the store *)

Definition activeSessions (st : Store) : list Session.t :=
  List.filter Session.isActive (sessions st).

(** At most one session row has [isActive = true]. *)
Definition atMostOneActive (st : Store) : Prop := length (activeSessions st) <= 1.

(** Within a session no two usernames agree up to letter case. *)
Definition usernamesDistinct (st : Store) : Prop :=
  NoDup ((fun s => (Student.sessionId s, TeacherStudentsGenerate.toLowerCase (Student.username s)))
           <$> students st).

(** Submission ids are unique, and a submission that names a root agrees
    with the row of that id: the row is itself an original (it names no
    root) and has the same session and the same owner. *)
Definition isRootOf (r : Id) (s p : PromptSubmission.t) : Prop :=
  PromptSubmission.id p = r
  /\ PromptSubmission.sessionId p = PromptSubmission.sessionId s
  /\ PromptSubmission.studentId p = PromptSubmission.studentId s
  /\ PromptSubmission.rootSubmissionId p = None.

#[global] Instance isRootOf_dec r s p : Decision (isRootOf r s p).
Proof. unfold isRootOf. apply _. Defined.

Definition rootAgrees (rows : list PromptSubmission.t) (s : PromptSubmission.t) : Prop :=
  match PromptSubmission.rootSubmissionId s with
  | Some r => Exists (isRootOf r s) rows
  | None => True
  end.

#[global] Instance rootAgrees_dec rows s : Decision (rootAgrees rows s).
Proof. unfold rootAgrees. destruct (PromptSubmission.rootSubmissionId s); apply _. Defined.

Definition chainsConsistent (st : Store) : Prop :=
  NoDup (PromptSubmission.id <$> promptSubmissions st)
  /\ Forall (rootAgrees (promptSubmissions st)) (promptSubmissions st).

#[global] Instance chainsConsistent_dec st : Decision (chainsConsistent st).
Proof. unfold chainsConsistent. apply _. Defined.

(** ** The chain of a submission, in the specification's words

    A chain is the set of submissions sharing a root id (the root's own
    id if it has none), wherever they are stored. *)

Definition specChain (rootId : Id) (st : Store) : list PromptSubmission.t :=
  List.filter (fun s => bool_decide (PromptSubmission.id s = rootId)
                        || bool_decide (PromptSubmission.rootSubmissionId s = Some rootId))
              (promptSubmissions st).

(** Members that are PENDING or SUCCESS. *)
Definition specChainCount (rootId : Id) (st : Store) : nat :=
  length (List.filter (fun s => bool_decide (PromptSubmission.status s = PENDING)
                                || bool_decide (PromptSubmission.status s = SUCCESS))
                      (specChain rootId st)).

(** Members that are SUCCESS. *)
Definition specSuccessCount (rootId : Id) (st : Store) : nat :=
  length (List.filter (fun s => bool_decide (PromptSubmission.status s = SUCCESS))
                      (specChain rootId st)).

(** ** Auxiliary notions for the proofs *)

(** The tables a handler leaves alone. *)
Record sameBut (sessions' students' submissions' threads' messages' : bool)
    (st st' : Store) : Prop := mkSameBut {
  same_sessions : sessions' = false -> sessions st' = sessions st;
  same_students : students' = false -> students st' = students st;
  same_submissions : submissions' = false -> promptSubmissions st' = promptSubmissions st;
  same_threads : threads' = false -> chatThreads st' = chatThreads st;
  same_messages : messages' = false -> chatMessages st' = chatMessages st }.

Definition endActive (now : DateTime) (s : Session.t) : Session.t :=
  if Session.isActive s then endSessionData now s else s.

(** [used] holds the lower-cased usernames of the session. *)
Definition covers (sid : Id) (used : gset string) (st : Store) : Prop :=
  forall s, s ∈ students st -> Student.sessionId s = sid ->
            TeacherStudentsGenerate.toLowerCase (Student.username s) ∈ used.

Definition chainsOk (rows : list PromptSubmission.t) : Prop :=
  NoDup (PromptSubmission.id <$> rows) /\ Forall (rootAgrees rows) rows.

Definition storeOk (st : Store) : Prop :=
  atMostOneActive st /\ usernamesDistinct st /\ chainsConsistent st.

(** The store with one more submission row. *)
Definition appended (st : Store) (row : PromptSubmission.t) : Store :=
  mkStore (sessions st) (students st) (promptSubmissions st ++ [row])
          (chatThreads st) (chatMessages st).

(** The row [prisma.promptSubmission.create] is asked to insert. *)
Definition pendingRow (newId sid prompt : string) (created : DateTime) (stu : Id)
    (parentOpt : option string) (chain : ImagesGenerate.Lineage) : PromptSubmission.t :=
  PromptSubmission.mk newId sid prompt "STUDENT" created (Some stu)
    (ImagesGenerate.lineageRoot chain) parentOpt (ImagesGenerate.lineageIndex chain)
    PENDING None None None false.

(** The threads of one student in one session, and stores with one more
    thread or message. *)
Definition threadsOf (sid stu : Id) (st : Store) : nat :=
  prismaChatThread.count
    (fun t => bool_decide (ChatThread.sessionId t = sid)
              && bool_decide (ChatThread.studentId t = stu)) st.

Definition withThread (st : Store) (thread : ChatThread.t) : Store :=
  mkStore (sessions st) (students st) (promptSubmissions st)
          (chatThreads st ++ [thread]) (chatMessages st).

Definition withMessage (st : Store) (message : ChatMessage.t) : Store :=
  mkStore (sessions st) (students st) (promptSubmissions st)
          (chatThreads st) (chatMessages st ++ [message]).

(** One turn of the loop as the random source drives it: the buffers the
    [while] loop rejects, the buffer it accepts as username and the
    buffer of the password. *)
Record Turn := mkTurn {
  rejected : TeacherStudentsGenerate.Tape;
  accepted : list Byte.byte;
  passwordBytes : list Byte.byte }.

Definition tapeOf (plan : list Turn) : TeacherStudentsGenerate.Tape :=
  List.flat_map (fun t => rejected t ++ [accepted t; passwordBytes t]) plan.

(** The plan fits the set of used names: rejected codes are used ones,
    accepted codes are new. *)
Fixpoint planOk (used : gset string) (plan : list Turn) : Prop :=
  match plan with
  | [] => True
  | t :: rest =>
      let name := TeacherStudentsGenerate.toLowerCase
                    (TeacherStudentsGenerate.randomCode (accepted t)) in
      (Forall (fun b => TeacherStudentsGenerate.toLowerCase
                          (TeacherStudentsGenerate.randomCode b) ∈ used) (rejected t)
       /\ (name ∉ used)
       /\ planOk ({[name]} ∪ used) rest)
  end.

#[global] Instance planOk_dec used plan : Decision (planOk used plan).
Proof. revert used. induction plan as [|t rest IH]; intros used; cbn; apply _. Defined.

(** The lower-cased usernames of a session. *)
Definition sessionUsernames (sid : Id) (st : Store) : gset string :=
  list_to_set ((fun entry => TeacherStudentsGenerate.toLowerCase (Student.username entry))
                 <$> prismaStudent.findMany
                       (fun s => bool_decide (Student.sessionId s = sid)) st).

Definition withStudents (st : Store) (news : list Student.t) : Store :=
  mkStore (sessions st) (students st ++ news) (promptSubmissions st)
          (chatThreads st) (chatMessages st).

(** The SUCCESS rows of root [r] among the rows a caller is shown. *)
Definition successOf (r : Id) (x : PromptSubmission.t) : bool :=
  bool_decide (PromptSubmission.status x = SUCCESS) && bool_decide (Images.rootOf x = r).

Definition visibleSuccessCount (sid : Id) (role stu : option string) (r : Id) (st : Store) : nat :=
  length (List.filter (fun x => Images.visible sid role stu x && successOf r x)
                      (promptSubmissions st)).

(** ** A classroom, for running the handlers on concrete requests *)

(** Stand-ins for the libraries. *)
Definition testLibraries : Libraries := {|
  bcrypt_hash password salt := salt +:+ "$" +:+ password;
  bcrypt_compare password hash := bool_decide (hash = "salt$" +:+ password);
  zod_cuid s :=
    match s with
    | String "c" rest => bool_decide (6 <= String.length rest)
    | _ => false
    end;
  zod_issue_message code := code;
  zod_error_text message := message;
  prisma_error_message code := code;
  syntax_error_message := "Unexpected end of JSON input" |}.

Definition startBody (password : string) : option Json :=
  Some (JObject [("password", JString password)]).

(** The store after a first and after a second session was started. *)
Definition storeStarted1 : Store :=
  (runHandler (SessionStart.POST (H := testLibraries) (startBody "tulip") "salt"
                 "csession1" 100%Z 100%Z) emptyStore).2.

Definition storeStarted2 : Store :=
  (runHandler (SessionStart.POST (H := testLibraries) (startBody "crocus") "salt"
                 "csession2" 200%Z 200%Z) storeStarted1).2.

Definition teacherCookies : Cookies := mkCookies (Some "csession1") (Some "teacher") None.

Definition cookiesA : Cookies := mkCookies (Some "csession1") (Some "student") (Some "cstudent0").

Definition cookiesB : Cookies := mkCookies (Some "csession1") (Some "student") (Some "cstudent1").

(** Two students are made; the second turn first draws "abABabD2", which
    is the first username "ABabABd2" up to letter case, and draws again. *)
Definition twoStudents : list Turn :=
  [ mkTurn [] [x00; x01; x18; x19; x00; x01; x1b; x31]%byte
              [x05; x06; x07; x08; x09; x0a; x0b; x0c]%byte;
    mkTurn [[x18; x19; x00; x01; x18; x19; x03; x31]%byte]
           [x02; x03; x04; x1a; x1b; x1c; x32; x33]%byte
           [x0d; x0e; x0f; x10; x11; x12; x13; x14]%byte ].

Definition countBody (n : Z) : list (string * Json) := [("count", JInt n)].

Definition studentIds (i : nat) : Id := "cstudent" +:+ pretty i.

Definition studentTimes (i : nat) : DateTime := (110 + Z.of_nat i)%Z.

Definition classroomWithStudents : Store :=
  match TeacherStudentsGenerate.POST (H := testLibraries) teacherCookies
          (Some (JObject (countBody 2))) (tapeOf twoStudents)
          (fun _ => "salt") studentIds studentTimes storeStarted1 with
  | Some (_, st) => st
  | None => storeStarted1
  end.

Definition promptBody (prompt : string) (parent : option string) : Json :=
  JObject (("prompt", JString prompt)
           :: match parent with
              | Some p => [("parentSubmissionId", JString p)]
              | None => []
              end).

Definition remoteOk (prompt : string) (base : option string) : string + (string * string) :=
  inr ("QUJD", "image/png").

Definition remoteDown (prompt : string) (base : option string) : string + (string * string) :=
  inl "Provider returned error".

(** Student A makes an image, refines it once and shares the original. *)
Definition classroomWithRoot : Store :=
  (runHandler (ImagesGenerate.POST (H := testLibraries) cookiesA
                 (Some (promptBody "a red kite" None)) remoteOk "cimage1" 120%Z)
     classroomWithStudents).2.

Definition classroomWithRefinement : Store :=
  (runHandler (ImagesGenerate.POST (H := testLibraries) cookiesA
                 (Some (promptBody "make the kite blue" (Some "cimage1"))) remoteOk
                 "cimage2" 130%Z)
     classroomWithRoot).2.

Definition shareBody (submissionId : string) (share : bool) : Json :=
  JObject [("submissionId", JString submissionId); ("share", JBool share)].

Definition classroom : Store :=
  (runHandler (ImagesShare.POST (H := testLibraries) cookiesA
                 (Some (shareBody "cimage1" true)))
     classroomWithRefinement).2.

(** The rows these requests leave. *)
Definition kite : PromptSubmission.t :=
  PromptSubmission.mk "cimage1" "csession1" "a red kite" "STUDENT" 120%Z (Some "cstudent0")
    None None 0 SUCCESS (Some "QUJD") (Some "image/png") None true.

Definition blueKite : PromptSubmission.t :=
  PromptSubmission.mk "cimage2" "csession1" "make the kite blue" "STUDENT" 130%Z
    (Some "cstudent0") (Some "cimage1") (Some "cimage1") 1 SUCCESS
    (Some "QUJD") (Some "image/png") None false.

Definition tailedKite : PromptSubmission.t :=
  PromptSubmission.mk "cimage3" "csession1" "add a long tail" "STUDENT" 140%Z
    (Some "cstudent0") (Some "cimage1") (Some "cimage2") 2 SUCCESS
    (Some "QUJD") (Some "image/png") None false.

Definition boat : PromptSubmission.t :=
  PromptSubmission.mk "cimage4" "csession1" "a green boat" "STUDENT" 150%Z
    (Some "cstudent0") None None 0 ERROR None None (Some "Provider returned error") false.

(** A third member fills the chain; a failed generation leaves an ERROR
    row without image. *)
Definition classroomFull : Store :=
  (runHandler (ImagesGenerate.POST (H := testLibraries) cookiesA
                 (Some (promptBody "add a long tail" (Some "cimage2"))) remoteOk
                 "cimage3" 140%Z)
     classroom).2.

Definition classroomWithError : Store :=
  (runHandler (ImagesGenerate.POST (H := testLibraries) cookiesA
                 (Some (promptBody "a green boat" None)) remoteDown "cimage4" 150%Z)
     classroom).2.

(** Student A opens [n] chat threads. *)
Fixpoint classroomWithThreads (n : nat) : Store :=
  match n with
  | 0 => classroom
  | S k =>
      (runHandler (ChatThreads.POST (H := testLibraries) cookiesA None
                     ("cthread" +:+ pretty n) (200 + Z.of_nat n)%Z)
         (classroomWithThreads k)).2
  end.

Definition chatDown (history : list (Sender * string)) : string + string :=
  inl "OpenRouter request failed".

Definition firstThread : ChatThread.t :=
  ChatThread.mk "cthread1" "Conversation 1" 201%Z 201%Z "csession1" "cstudent0".

Definition question : ChatMessage.t :=
  ChatMessage.mk "cmessage1" "What is a kite?" STUDENT 300%Z "cthread1" (Some "cstudent0").

(** * The rest of the handlers

    The stores the handlers leave behind, what holds of the store
    between requests, the handlers that only read the store, and the
    two calls to OpenRouter that the generate and message handlers
    await. *)

(** ** The store after a request *)

(** The share route's update: the flag of submission [i] set. *)
Definition withShared (st : Store) (i : Id) (share : bool) : Store :=
  mkStore (sessions st) (students st)
    (List.map (fun r => if bool_decide (PromptSubmission.id r = i)
                        then ImagesShare.setIsShared share r else r)
              (promptSubmissions st))
    (chatThreads st) (chatMessages st).

(** The message handler's last update: thread [threadId] touched. *)
Definition touched (st : Store) (threadId : Id) (now : DateTime) : Store :=
  mkStore (sessions st) (students st) (promptSubmissions st)
    (List.map (fun t => if bool_decide (ChatThread.id t = threadId)
                        then ChatMessages.touch now t else t)
              (chatThreads st))
    (chatMessages st).

(** [endExistingSessions], the insertion of a session, and the end
    route's update of the session with id [i]. *)
Definition ended (st : Store) (now : DateTime) : Store :=
  mkStore (endActive now <$> sessions st) (students st) (promptSubmissions st)
          (chatThreads st) (chatMessages st).

Definition withSession (st : Store) (session : Session.t) : Store :=
  mkStore (sessions st ++ [session]) (students st) (promptSubmissions st)
          (chatThreads st) (chatMessages st).

Definition endedById (st : Store) (i : Id) (now : DateTime) : Store :=
  mkStore ((fun s => if bool_decide (Session.id s = i) then endSessionData now s else s)
             <$> sessions st)
          (students st) (promptSubmissions st) (chatThreads st) (chatMessages st).

(** ** What holds of the store between requests *)

(** A submission whose request has ended: it succeeded and has its
    image, or failed and has its message. *)
Definition settled (s : PromptSubmission.t) : Prop :=
  match PromptSubmission.status s with
  | PENDING => False
  | SUCCESS =>
      is_Some (PromptSubmission.imageData s) /\ is_Some (PromptSubmission.imageMimeType s)
      /\ PromptSubmission.errorMessage s = None
  | ERROR =>
      PromptSubmission.imageData s = None /\ PromptSubmission.imageMimeType s = None
      /\ is_Some (PromptSubmission.errorMessage s)
  end.

(** The revision index of an original is 0, that of a refinement 1
    or 2. *)
Definition indexed (s : PromptSubmission.t) : Prop :=
  match PromptSubmission.rootSubmissionId s with
  | None => PromptSubmission.revisionIndex s = 0
  | Some _ =>
      1 <= PromptSubmission.revisionIndex s <= 2
      /\ is_Some (PromptSubmission.parentSubmissionId s)
  end.

Definition submissionsOk (st : Store) : Prop :=
  chainsConsistent st
  /\ (forall rootId, specChainCount rootId st <= 3)
  /\ Forall settled (promptSubmissions st)
  /\ Forall indexed (promptSubmissions st).

(** No table loses a row: students and messages are kept as they are,
    the other tables keep their ids, all in the order of insertion. *)
Definition keepsRows (st st' : Store) : Prop :=
  (Session.id <$> sessions st) `prefix_of` (Session.id <$> sessions st')
  /\ students st `prefix_of` students st'
  /\ (PromptSubmission.id <$> promptSubmissions st)
       `prefix_of` (PromptSubmission.id <$> promptSubmissions st')
  /\ (ChatThread.id <$> chatThreads st) `prefix_of` (ChatThread.id <$> chatThreads st')
  /\ chatMessages st `prefix_of` chatMessages st'.

(** [s'] is [s] but for its share flag. *)
Definition sameButShared (s s' : PromptSubmission.t) : Prop :=
  s' = ImagesShare.setIsShared (PromptSubmission.isShared s') s.

(** The submissions of [st] are those of [st'], in place and but for
    their share flags; [st'] may have more. *)
Definition keepsSubmissions (st st' : Store) : Prop :=
  exists later,
    Forall2 sameButShared (promptSubmissions st)
            (take (length (promptSubmissions st)) (promptSubmissions st'))
    /\ promptSubmissions st'
       = take (length (promptSubmissions st)) (promptSubmissions st') ++ later.

(** The ids of the sessions that are active. *)
Definition activeIds (st : Store) : list Id := Session.id <$> activeSessions st.

(** ** The history of a chat thread *)

(** [orderedHistory] of the message handler: the newest
    MAX_HISTORY_MESSAGES messages of the thread, oldest first. *)
Definition orderedHistory (threadId : Id) (st : Store) : list ChatMessage.t :=
  rev (prismaChatMessage.findMany (fun m => bool_decide (ChatMessage.threadId m = threadId))
         ChatMessages.MAX_HISTORY_MESSAGES st).

(** [orderBy: { createdAt: 'asc' }] as a relation. *)
Definition olderFirst {A} (time : A -> DateTime) : relation A :=
  fun a b => (time a <= time b)%Z.

(** ** The handlers that only read the store

    Login, session lookup, the chat listings, the export and the
    activity view.  They leave the store as it is, which is why they add
    no step to the transition system. *)

(** lib/auth: the names of the three cookies, and what a response does
    to them ([response.cookies.set] with maxAge in seconds, httpOnly,
    sameSite lax, path /; [response.cookies.delete]). *)
Definition sessionCookieName : string := "classroom_session_id".
Definition roleCookieName : string := "classroom_role".
Definition studentCookieName : string := "classroom_student_id".

Inductive CookieOp :=
| CookieSet (name value : string) (maxAge : nat)
| CookieDelete (name : string).

Record Response (A : Type) := mkResponse {
  answer : NextResponse A;
  cookieOps : list CookieOp }.
Arguments mkResponse {A} answer cookieOps.
Arguments answer {A} r.
Arguments cookieOps {A} r.

Definition clearCookies : list CookieOp :=
  [CookieDelete sessionCookieName; CookieDelete roleCookieName; CookieDelete studentCookieName].

#[global] Instance olderFirst_dec {A} (time : A -> DateTime) : RelDecision (olderFirst time).
Proof. intros a b. unfold olderFirst. apply _. Defined.

(** [orderBy: { createdAt: 'asc' }] *)
Definition orderByAsc {A} (time : A -> DateTime) (rows : list A) : list A :=
  merge_sort (olderFirst time) rows.

(** ** POST /api/student/login *)

Module StudentLogin.

Record Body := mkBody { username : string; password : string }.

Definition bodySchema `{Libraries} (json : Json) : Thrown + Body :=
  match json with
  | JObject _ =>
      match field "username" json with
      | Some (JString username) =>
          if bool_decide (3 <= jsLength username) then
            match field "password" json with
            | Some (JString password) =>
                if bool_decide (1 <= jsLength password) then
                  inr (mkBody username password)
                else inl (ZodError "Password is required")
            | _ => inl (ZodError (zod_issue_message "invalid_type"))
            end
          else inl (ZodError "Username is required")
      | _ => inl (ZodError (zod_issue_message "invalid_type"))
      end
  | _ => inl (ZodError (zod_issue_message "invalid_type"))
  end.

Record Reply := mkReply {
  sessionId : Id;
  replyRole : string;
  studentId : Id;
  studentUsername : string }.

Definition maxAge : nat := 60 * 60 * 6.

(** [prisma.student.findFirst({ where: { username, sessionId } })] *)
Definition findStudent (username : string) (sessionId : Id) (st : Store) : option Student.t :=
  List.find (fun s => bool_decide (Student.username s = username)
                      && bool_decide (Student.sessionId s = sessionId))
            (students st).

Definition POST `{Libraries} (body : option Json) : Async (Response Reply) :=
  tryCatch
    (let* json := requestJson body in
     let* parsed := parse (bodySchema json) in
     let* st := getStore in
     match prismaSession.findFirstLatest Session.isActive st with
     | None =>
         ret (mkResponse
                (JsonError 404
                   "No active classroom session. Please ask your teacher to begin one.") [])
     | Some activeSession =>
         match findStudent (username parsed) (Session.id activeSession) st with
         | None => ret (mkResponse (JsonError 404 "Account not found for this session.") [])
         | Some student =>
             if negb (verifyPassword (password parsed) (Student.passwordHash student)) then
               ret (mkResponse (JsonError 401 "Incorrect password. Please try again.") [])
             else
               ret (mkResponse
                      (Json200 (mkReply (Session.id activeSession) "student"
                                        (Student.id student) (Student.username student)))
                      [CookieSet sessionCookieName (Session.id activeSession) maxAge;
                       CookieSet roleCookieName "student" maxAge;
                       CookieSet studentCookieName (Student.id student) maxAge])
         end
     end)
    (fun error =>
       match error with
       | ZodError message => ret (mkResponse (JsonError 400 message) [])
       | _ => ret (mkResponse (JsonError 500 "Unable to log in") [])
       end).

End StudentLogin.

(** ** The session lookup *)

Module SessionLookup.

Record StudentInfo := mkStudentInfo { id : Id; username : string }.

Record Info := mkInfo {
  sessionId : Id;
  createdAt : DateTime;
  infoRole : option string;
  student : option StudentInfo }.

(** The body is [{ session: null }] ([None]) or [{ session: { ... } }]. *)
Definition GET (cookies : Cookies) : Async (Response (option Info)) :=
  let '(sessionId, role, studentId) := getSessionFromCookies cookies in
  if negb (truthy sessionId) then ret (mkResponse (Json200 None) [])
  else
    let* st := getStore in
    match findUnique Session.id (default "" sessionId) (sessions st) with
    | None => ret (mkResponse (Json200 None) clearCookies)
    | Some session =>
        if negb (Session.isActive session) then ret (mkResponse (Json200 None) clearCookies)
        else if truthy studentId then
          match prismaStudent.findUnique (default "" studentId) st with
          | None => ret (mkResponse (Json200 None) clearCookies)
          | Some record =>
              if bool_decide (Student.sessionId record = Session.id session) then
                ret (mkResponse
                       (Json200 (Some (mkInfo (Session.id session) (Session.createdAt session)
                                              role
                                              (Some (mkStudentInfo (Student.id record)
                                                                   (Student.username record))))))
                       [])
              else ret (mkResponse (Json200 None) clearCookies)
          end
        else
          ret (mkResponse
                 (Json200 (Some (mkInfo (Session.id session) (Session.createdAt session)
                                        role None)))
                 [])
    end.

End SessionLookup.

(** ** GET /api/chat/threads *)

Module ChatThreadsList.

Record Item := mkItem {
  id : Id;
  title : string;
  createdAt : DateTime;
  updatedAt : DateTime;
  latestMessage : option string;
  messageCount : nat }.

Record Reply := mkReply { threads : list Item; limit : nat }.

(** A thread with [messages: { orderBy: { createdAt: 'desc' }, take: 1 }]
    and [_count: { messages }] included. *)
Definition itemOf (st : Store) (thread : ChatThread.t) : Item :=
  let ofThread := fun m => bool_decide (ChatMessage.threadId m = ChatThread.id thread) in
  let messages := prismaChatMessage.findMany ofThread 1 st in
  mkItem (ChatThread.id thread) (ChatThread.title thread) (ChatThread.createdAt thread)
         (ChatThread.updatedAt thread)
         (ChatMessage.content <$> head messages)
         (length (List.filter ofThread (chatMessages st))).

Definition GET (cookies : Cookies) : Async (NextResponse Reply) :=
  let '(sessionId, role, studentId) := getSessionFromCookies cookies in
  if negb (truthy sessionId) || negb (bool_decide (role = Some "student"))
     || negb (truthy studentId)
  then ret (JsonError 403 "Student access required.")
  else
    let sessionId := default "" sessionId in
    let studentId := default "" studentId in
    let* st := getStore in
    let threads :=
      merge_sort (newerFirst ChatThread.updatedAt)
        (List.filter (fun t => bool_decide (ChatThread.sessionId t = sessionId)
                               && bool_decide (ChatThread.studentId t = studentId))
                     (chatThreads st)) in
    ret (Json200 (mkReply (itemOf st <$> threads) ChatThreads.MAX_THREADS_PER_STUDENT)).

End ChatThreadsList.

(** ** GET /api/chat/threads/[threadId]/messages *)

Module ChatMessagesList.

Record ThreadInfo := mkThreadInfo {
  id : Id;
  title : string;
  createdAt : DateTime;
  updatedAt : DateTime }.

Record Reply := mkReply { thread : ThreadInfo; messages : list ChatMessages.Sent }.

Definition GET (cookies : Cookies) (threadId : Id) : Async (NextResponse Reply) :=
  let '(sessionId, role, studentId) := getSessionFromCookies cookies in
  if negb (truthy sessionId) || negb (bool_decide (role = Some "student"))
     || negb (truthy studentId)
  then ret (JsonError 403 "Student access required.")
  else
    let* st := getStore in
    match prismaChatThread.findUnique threadId st with
    | None => ret (JsonError 404 "Chat not found.")
    | Some thread =>
        if negb (bool_decide (Some (ChatThread.sessionId thread) = sessionId))
           || negb (bool_decide (Some (ChatThread.studentId thread) = studentId))
        then ret (JsonError 404 "Chat not found.")
        else
          let messages :=
            orderByAsc ChatMessage.createdAt
              (List.filter (fun m => bool_decide (ChatMessage.threadId m = ChatThread.id thread))
                           (chatMessages st)) in
          ret (Json200 (mkReply (mkThreadInfo (ChatThread.id thread) (ChatThread.title thread)
                                   (ChatThread.createdAt thread) (ChatThread.updatedAt thread))
                                (ChatMessages.sentOf <$> messages)))
    end.

End ChatMessagesList.

(** ** The teacher's export and activity view *)

(** [student: { select: { username } }] of a submission. *)
Definition usernameOf (st : Store) (s : PromptSubmission.t) : option string :=
  match PromptSubmission.studentId s with
  | Some i => Student.username <$> prismaStudent.findUnique i st
  | None => None
  end.

Module TeacherExport.

Record SessionInfo := mkSessionInfo {
  id : Id;
  createdAt : DateTime;
  endedAt : option DateTime;
  isActive : bool }.

Record Entry := mkEntry {
  entryId : Id;
  prompt : string;
  role : string;
  entryCreatedAt : DateTime;
  status : SubmissionStatus;
  revisionIndex : nat;
  parentSubmissionId : option Id;
  rootSubmissionId : option Id;
  hasImage : bool;
  errorMessage : option string;
  isShared : bool;
  studentUsername : option string }.

(** The payload, sent as an attachment under [fileName]. *)
Record Reply := mkReply {
  session : SessionInfo;
  entries : list Entry;
  fileName : string }.

Definition entryOf (st : Store) (s : PromptSubmission.t) : Entry :=
  mkEntry (PromptSubmission.id s) (PromptSubmission.prompt s) (PromptSubmission.role s)
    (PromptSubmission.createdAt s) (PromptSubmission.status s)
    (PromptSubmission.revisionIndex s) (PromptSubmission.parentSubmissionId s)
    (PromptSubmission.rootSubmissionId s) (truthy (PromptSubmission.imageData s))
    (PromptSubmission.errorMessage s) (PromptSubmission.isShared s) (usernameOf st s).

Definition GET (cookies : Cookies) : Async (NextResponse Reply) :=
  let '(sessionId, role, _) := getSessionFromCookies cookies in
  if negb (truthy sessionId) || negb (bool_decide (role = Some "teacher")) then
    ret (JsonError 403 "Teacher access only.")
  else
    let* st := getStore in
    match findUnique Session.id (default "" sessionId) (sessions st) with
    | None => ret (JsonError 404 "Session not found.")
    | Some session =>
        let promptEntries :=
          orderByAsc PromptSubmission.createdAt
            (List.filter (fun s => bool_decide (PromptSubmission.sessionId s = Session.id session))
                         (promptSubmissions st)) in
        ret (Json200
               (mkReply (mkSessionInfo (Session.id session) (Session.createdAt session)
                                       (Session.endedAt session) (Session.isActive session))
                        (entryOf st <$> promptEntries)
                        ("session-" +:+ Session.id session +:+ ".json")))
    end.

End TeacherExport.

Module TeacherActivity.

Record SessionInfo := mkSessionInfo { id : Id; createdAt : DateTime; isActive : bool }.

Record Reply := mkReply {
  session : SessionInfo;
  submissions : list (PromptSubmission.t * option string) }.

Definition GET (cookies : Cookies) : Async (NextResponse Reply) :=
  let '(sessionId, role, _) := getSessionFromCookies cookies in
  if negb (truthy sessionId) || negb (bool_decide (role = Some "teacher")) then
    ret (JsonError 403 "Teacher access only.")
  else
    let* st := getStore in
    match findUnique Session.id (default "" sessionId) (sessions st) with
    | None => ret (JsonError 404 "Session not found.")
    | Some session =>
        let promptEntries :=
          orderByCreatedAtDesc PromptSubmission.createdAt
            (List.filter (fun s => bool_decide (PromptSubmission.sessionId s = Session.id session))
                         (promptSubmissions st)) in
        ret (Json200
               (mkReply (mkSessionInfo (Session.id session) (Session.createdAt session)
                                       (Session.isActive session))
                        ((fun s => (s, usernameOf st s)) <$> promptEntries)))
    end.

End TeacherActivity.

(** A handler's run when its response carries cookie operations. *)
Definition runResponse {A} (h : Async (Response A)) (st : Store) : Response A * Store :=
  match h st with
  | (inr r, st') => (r, st')
  | (inl e, st') => (mkResponse (Unhandled e) [], st')
  end.

(** ** The calls to OpenRouter *)

(** A value as [JSON.parse] makes it, or [undefined] where a property
    is missing; a number is kept as a fraction. *)
Inductive JsValue :=
| JsUndefined
| JsNull
| JsBool (b : bool)
| JsNumber (numerator : Z) (denominator : positive)
| JsString (s : string)
| JsArray (items : list JsValue)
| JsObject (fields : list (string * JsValue)).

(** [typeof v === 'string'], [typeof v === 'object'], truthiness, and
    [v === null || v === undefined]. *)
Definition isString (v : JsValue) : bool :=
  match v with JsString _ => true | _ => false end.

Definition isObject (v : JsValue) : bool :=
  match v with JsNull | JsArray _ | JsObject _ => true | _ => false end.

Definition jsTruthy (v : JsValue) : bool :=
  match v with
  | JsUndefined | JsNull => false
  | JsBool b => b
  | JsNumber n _ => bool_decide (n <> 0%Z)
  | JsString s => bool_decide (s <> "")
  | JsArray _ | JsObject _ => true
  end.

Definition nullish (v : JsValue) : bool :=
  match v with JsUndefined | JsNull => true | _ => false end.

(** [v?.key], and [v.key] where [v] is not null or undefined: the
    property of an object ([JSON.parse] keeps the last of equal keys),
    [undefined] for every other value and for the keys read here. *)
Definition prop (key : string) (v : JsValue) : JsValue :=
  match v with
  | JsObject fields =>
      default JsUndefined
        (snd <$> List.find (fun kv => bool_decide (fst kv = key)) (rev fields))
  | _ => JsUndefined
  end.

(** The continuation bytes a string starts with. *)
Fixpoint continuation (s : string) : string :=
  match s with
  | String b rest =>
      if bool_decide (128 <= nat_of_ascii b) && bool_decide (nat_of_ascii b < 192)
      then String b (continuation rest) else EmptyString
  | EmptyString => EmptyString
  end.

(** [v?.[0]]; of a string, its first character (for a character outside
    the basic plane JavaScript gives the first of its two code units;
    the callers look for properties of the result and at its truth
    only). *)
Definition index0 (v : JsValue) : JsValue :=
  match v with
  | JsArray (x :: _) => x
  | JsString (String a rest) => JsString (String a (continuation rest))
  | JsObject _ => prop "0" v
  | _ => JsUndefined
  end.

(** ['key' in v] for an object or array. *)
Definition inObject (key : string) (v : JsValue) : bool :=
  match v with
  | JsObject fields => existsb (fun kv => bool_decide (fst kv = key)) fields
  | _ => false
  end.

(** [a ?? b] *)
Definition coalesce (a b : JsValue) : JsValue := if nullish a then b else a.

(** [Array.prototype.join] on strings. *)
Definition join (separator : string) (parts : list string) : string :=
  match parts with
  | [] => ""
  | part :: rest => foldl (fun text p => text +:+ separator +:+ p) part rest
  end.

(** [String.prototype.includes] *)
Fixpoint includes (needle s : string) : bool :=
  String.prefix needle s
  || match s with
     | String _ rest => includes needle rest
     | EmptyString => false
     end.

(** What the JavaScript engine and Node decide: the text of [String(v)]
    for a value that is not a string, [String.prototype.toLowerCase]
    (on all of Unicode), the messages of the TypeErrors of ['key' in v]
    on a value that is no object and of [v.startsWith] on a value that
    is no string, [decodeURIComponent] and
    [Buffer.from(text).toString('base64')]. *)
Class Runtime := {
  stringOf : JsValue -> string;
  lowerCase : string -> string;
  inOperatorError : string -> JsValue -> string;
  notAFunctionError : JsValue -> string;
  decodeURIComponent : string -> Thrown + string;
  bufferToBase64 : string -> string }.

(** The message of [new Error(v)]. *)
Definition errorText `{Runtime} (v : JsValue) : string :=
  match v with
  | JsString s => s
  | _ => stringOf v
  end.

(** [process.env] *)
Record Env := mkEnv {
  OPENROUTER_API_KEY : option string;
  OPENROUTER_MODEL : option string;
  OPENROUTER_CHAT_MODEL : option string;
  NEXT_PUBLIC_APP_URL : option string }.

(** [fetch]: the request, and what the response gives ([response.ok],
    [response.json()], the body as base64 of
    [response.arrayBuffer()], the content-type header).  The outside
    world is a function from the request to the response, or to what
    [fetch] throws. *)
Record Request := mkRequest {
  url : string;
  method : string;
  headers : list (string * string);
  requestBody : option JsValue }.

Record FetchResponse := mkFetchResponse {
  ok : bool;
  json : Thrown + JsValue;
  bodyBase64 : Thrown + string;
  contentType : option string }.

Definition Fetch := Request -> Thrown + FetchResponse.

Definition CHAT_ENDPOINT : string := "https://openrouter.ai/api/v1/chat/completions".
Definition IMAGE_ENDPOINT : string := "https://openrouter.ai/api/v1/images".

Definition openRouterHeaders (env : Env) (apiKey title : string) : list (string * string) :=
  [("Authorization", "Bearer " +:+ apiKey);
   ("Content-Type", "application/json");
   ("HTTP-Referer", default "http://localhost:3000" (NEXT_PUBLIC_APP_URL env));
   ("X-Title", title)].

(** *** The chat completion of the message handler *)

Module ChatCompletion.

Definition toOpenRouterMessages (history : list (Sender * string)) : list JsValue :=
  (fun entry =>
     JsObject [("role", JsString (if bool_decide (fst entry = STUDENT) then "user"
                                  else "assistant"));
               ("content", JsString (snd entry))])
    <$> history.

(** The callback of [content.map]. *)
Definition partText (part : JsValue) : string :=
  if negb (jsTruthy part) then ""
  else
    match part with
    | JsString text => text
    | _ =>
        match prop "text" part with
        | JsString text => text
        | _ =>
            match prop "content" part with
            | JsString text => text
            | _ =>
                match prop "value" part with
                | JsString text => text
                | _ => ""
                end
            end
        end
    end.

(** The result is a string or [null] ([None]). *)
Definition extractTextFromChoiceMessage (message : JsValue) : option string :=
  if negb (jsTruthy message) || negb (isObject message) then None
  else
    match prop "content" message with
    | JsString content => Some (trim content)
    | JsArray parts =>
        let text := trim (join " " (partText <$> parts)) in
        if bool_decide (0 < jsLength text) then Some text else None
    | _ =>
        match prop "text" message with
        | JsString text => Some (trim text)
        | _ => None
        end
    end.

Definition requestOf (env : Env) (apiKey : string) (history : list (Sender * string)) :
    Request :=
  let model :=
    if truthy (OPENROUTER_CHAT_MODEL env) then default "" (OPENROUTER_CHAT_MODEL env)
    else if truthy (OPENROUTER_MODEL env) then default "" (OPENROUTER_MODEL env)
    else "google/gemini-2.5-flash-preview-09-2025" in
  mkRequest CHAT_ENDPOINT "POST" (openRouterHeaders env apiKey "Classroom Assistant Chat")
    (Some (JsObject [("model", JsString model);
                     ("messages", JsArray (toOpenRouterMessages history));
                     ("modality", JsString "text");
                     ("modalities", JsArray [JsString "text"]);
                     ("top_p", JsNumber 9 10)])).

Definition callChatCompletion `{Runtime} (env : Env) (fetch : Fetch)
    (history : list (Sender * string)) : Thrown + string :=
  if negb (truthy (OPENROUTER_API_KEY env)) then
    inl (JsError "Missing OpenRouter API key. Set OPENROUTER_API_KEY in your environment.")
  else
    let apiKey := default "" (OPENROUTER_API_KEY env) in
    match fetch (requestOf env apiKey history) with
    | inl e => inl e
    | inr response =>
        match json response with
        | inl e => inl e
        | inr result =>
            if negb (ok response) then
              inl (JsError (errorText (coalesce (prop "message" (prop "error" result))
                                                (JsString "OpenRouter request failed"))))
            else
              let choice := prop "message" (index0 (prop "choices" result)) in
              match extractTextFromChoiceMessage choice with
              | Some aiText =>
                  if bool_decide (jsLength aiText = 0) then
                    inl (JsError "OpenRouter returned an empty response")
                  else inr aiText
              | None => inl (JsError "OpenRouter returned an empty response")
              end
        end
    end.

(** The call as the message handler awaits it: what is thrown reaches
    the handler's [catch], which answers with the message of an Error
    and with its own text for any other thrown value ([fetch] and
    [response.json()] throw no ZodError). *)
Definition remote `{Libraries} `{Runtime} (env : Env) (fetch : Fetch)
    (history : list (Sender * string)) : string + string :=
  match callChatCompletion env fetch history with
  | inl e => inl (messageOf e "Unable to send message")
  | inr aiText => inr aiText
  end.

End ChatCompletion.

(** *** The image generation of the generate handler *)

Module OpenRouterImage.

Definition isChatModel `{Runtime} (model : string) : bool :=
  let normalized := lowerCase model in
  includes "gemini" normalized || includes "chat" normalized
  || String.prefix "google/" normalized.

Definition isText (text : string) (v : JsValue) : bool :=
  match v with
  | JsString s => bool_decide (s = text)
  | _ => false
  end.

Definition textOf (v : JsValue) : string :=
  match v with
  | JsString s => s
  | _ => ""
  end.

(** An image given as a string or as an object with [url] or
    [data_url]. *)
Definition nestedUrl (image : JsValue) : option string :=
  match image with
  | JsString s => Some s
  | _ =>
      if jsTruthy image && isObject image then
        match coalesce (prop "url" image) (prop "data_url" image) with
        | JsString s => Some s
        | _ => None
        end
      else None
  end.

(** [/^[A-Za-z0-9+/=]+$/.test(data)] *)
Definition isBase64Char (a : ascii) : bool :=
  let n := nat_of_ascii a in
  (bool_decide (65 <= n) && bool_decide (n <= 90))
  || (bool_decide (97 <= n) && bool_decide (n <= 122))
  || (bool_decide (48 <= n) && bool_decide (n <= 57))
  || bool_decide (n = 43) || bool_decide (n = 47) || bool_decide (n = 61).

Definition isBase64Text (data : string) : bool :=
  bool_decide (data <> "") && forallb isBase64Char (String.list_ascii_of_string data).

(** One turn of the loop over [content]: the string it returns, [None]
    when it goes on to the next item, or what it throws. *)
Definition itemUrl `{Runtime} (item : JsValue) : Thrown + option string :=
  let type := prop "type" item in
  match (if isText "image_url" type && inObject "image_url" item
         then nestedUrl (prop "image_url" item) else None) with
  | Some url => inr (Some url)
  | None =>
  match (if isText "output_image" type then
           if inObject "image_url" item && isString (prop "image_url" item) then
             Some (textOf (prop "image_url" item))
           else if inObject "data" item && isString (prop "data" item) then
             let data := textOf (prop "data" item) in
             Some (if String.prefix "data:" data then data
                   else "data:image/png;base64," +:+ data)
           else None
         else None) with
  | Some url => inr (Some url)
  | None =>
  match item with
  | JsObject _ | JsArray _ =>
      if inObject "url" item && isString (prop "url" item) then
        inr (Some (textOf (prop "url" item)))
      else
        match (if inObject "data" item && isString (prop "data" item) then
                 let data := textOf (prop "data" item) in
                 if String.prefix "data:" data then Some data
                 else if isBase64Text data then Some ("data:image/png;base64," +:+ data)
                 else None
               else None) with
        | Some url => inr (Some url)
        | None =>
            if jsTruthy item && isObject item && inObject "image_url" item then
              match prop "image_url" item with
              | JsString url => inr (Some url)
              | _ => inr None
              end
            else inr None
        end
  | _ => inl (JsError (inOperatorError "url" item))
  end
  end
  end.

Fixpoint firstUrl `{Runtime} (content : list JsValue) : Thrown + option string :=
  match content with
  | [] => inr None
  | item :: rest =>
      match itemUrl item with
      | inl e => inl e
      | inr (Some url) => inr (Some url)
      | inr None => firstUrl rest
      end
  end.

(** The result is a string or [null] ([None]). *)
Definition extractDataUrlFromMessage `{Runtime} (message : JsValue) : Thrown + option string :=
  let msg := coalesce message (JsObject []) in
  let directImage := prop "image_url" (index0 (prop "images" msg)) in
  match nestedUrl directImage with
  | Some url => inr (Some url)
  | None =>
      firstUrl (match prop "content" msg with
                | JsArray content => content
                | _ => []
                end)
  end.

Fixpoint skip (n : nat) (s : string) : string :=
  match n, s with
  | S n, String _ rest => skip n rest
  | _, _ => s
  end.

(** The longest start of [s] whose characters satisfy [p], and the rest. *)
Fixpoint span (p : ascii -> bool) (s : string) : string * string :=
  match s with
  | String a rest =>
      if p a then (String a (span p rest).1, (span p rest).2) else (EmptyString, s)
  | EmptyString => (EmptyString, EmptyString)
  end.

(** The dot of a regular expression stops at a line terminator: U+000A,
    U+000D, and U+2028 and U+2029 (the bytes E2 80 A8 and E2 80 A9). *)
Fixpoint noLineTerminator (l : list ascii) : bool :=
  match l with
  | [] => true
  | a :: rest =>
      negb (bool_decide (nat_of_ascii a = 10) || bool_decide (nat_of_ascii a = 13))
      && negb (match rest with
               | b :: c :: _ =>
                   bool_decide (nat_of_ascii a = 226) && bool_decide (nat_of_ascii b = 128)
                   && (bool_decide (nat_of_ascii c = 168) || bool_decide (nat_of_ascii c = 169))
               | _ => false
               end)
      && noLineTerminator rest
  end.

Definition noLineEnd (s : string) : bool :=
  noLineTerminator (String.list_ascii_of_string s).

(** [s.match(/^data:([^;,]+)?(?:;base64)?,(.+)$/)]: the groups [meta]
    ([None] when it took no part in the match) and [data]. *)
Definition matchDataUrl (s : string) : option (option string * string) :=
  if negb (String.prefix "data:" s) then None
  else
    let '(meta, rest) :=
      span (fun a => negb (bool_decide (a = ";"%char) || bool_decide (a = ","%char)))
           (skip 5 s) in
    match (if String.prefix ";base64" rest then skip 7 rest else rest) with
    | String "," data =>
        if bool_decide (data <> "") && noLineEnd data
        then Some (if bool_decide (meta = "") then None else Some meta, data)
        else None
    | _ => None
    end.

Definition fetchImageAsBase64 `{Runtime} (fetch : Fetch) (urlOrDataUrl : string) :
    Thrown + (string * string) :=
  if String.prefix "data:" urlOrDataUrl then
    match matchDataUrl urlOrDataUrl with
    | Some (meta, data) =>
        let mimeType := if truthy meta then default "" meta else "image/png" in
        if includes ";base64," urlOrDataUrl then inr (data, mimeType)
        else
          match decodeURIComponent data with
          | inl e => inl e
          | inr decoded => inr (bufferToBase64 decoded, mimeType)
          end
    | None => inl (JsError "Invalid data URL in OpenRouter response")
    end
  else
    match fetch (mkRequest urlOrDataUrl "GET" [] None) with
    | inl e => inl e
    | inr response =>
        if negb (ok response) then
          inl (JsError "Failed to download image from OpenRouter response")
        else
          match bodyBase64 response with
          | inl e => inl e
          | inr buffer => inr (buffer, default "image/png" (contentType response))
          end
    end.

Definition modelOf (env : Env) : string :=
  if truthy (OPENROUTER_MODEL env) then default "" (OPENROUTER_MODEL env)
  else "openai/gpt-image-1".

Definition messagesOf (prompt : string) (baseImageDataUrl : option string) : list JsValue :=
  if truthy baseImageDataUrl then
    [JsObject
       [("role", JsString "user");
        ("content",
         JsArray
           [JsObject [("type", JsString "text"); ("text", JsString prompt)];
            JsObject [("type", JsString "image_url");
                      ("image_url",
                       JsObject [("url", JsString (default "" baseImageDataUrl))])]])]]
  else [JsObject [("role", JsString "user"); ("content", JsString prompt)]].

Definition asStrings (result : Thrown + (string * string)) : Thrown + (JsValue * JsValue) :=
  match result with
  | inl e => inl e
  | inr (imageData, mimeType) => inr (JsString imageData, JsString mimeType)
  end.

Definition headersOf (env : Env) : list (string * string) :=
  openRouterHeaders env (default "" (OPENROUTER_API_KEY env)) "Classroom Image Generator".

Definition chatRequest (env : Env) (prompt : string) (baseImageDataUrl : option string) :
    Request :=
  mkRequest CHAT_ENDPOINT "POST" (headersOf env)
    (Some (JsObject
             [("model", JsString (modelOf env));
              ("messages", JsArray (messagesOf prompt baseImageDataUrl));
              ("modalities", JsArray [JsString "image"; JsString "text"])])).

Definition imageRequest (env : Env) (prompt : string) : Request :=
  mkRequest IMAGE_ENDPOINT "POST" (headersOf env)
    (Some (JsObject [("model", JsString (modelOf env)); ("prompt", JsString prompt)])).

(** The result is the pair [imageData], [mimeType]; the image endpoint's
    answer is passed on as it came, whatever its type. *)
Definition callOpenRouter `{Runtime} (env : Env) (fetch : Fetch) (prompt : string)
    (baseImageDataUrl : option string) : Thrown + (JsValue * JsValue) :=
  if negb (truthy (OPENROUTER_API_KEY env)) then
    inl (JsError "Missing OpenRouter API key. Set OPENROUTER_API_KEY in your environment.")
  else if isChatModel (modelOf env) then
    match fetch (chatRequest env prompt baseImageDataUrl) with
    | inl e => inl e
    | inr response =>
        match json response with
        | inl e => inl e
        | inr result =>
            if negb (ok response) then
              inl (JsError (errorText
                              (coalesce (prop "message" (prop "error" result))
                                        (JsString "OpenRouter chat request failed"))))
            else
              match extractDataUrlFromMessage
                      (prop "message" (index0 (prop "choices" result))) with
              | inl e => inl e
              | inr dataUrl =>
                  if negb (truthy dataUrl) then
                    inl (JsError "OpenRouter did not return an image link")
                  else asStrings (fetchImageAsBase64 fetch (default "" dataUrl))
              end
        end
    end
  else
    match fetch (imageRequest env prompt) with
    | inl e => inl e
    | inr response =>
        match json response with
        | inl e => inl e
        | inr result =>
            if negb (ok response) then
              inl (JsError (errorText
                              (coalesce (prop "message" (prop "error" result))
                                        (JsString "OpenRouter request failed"))))
            else
              let imagePayload := index0 (prop "data" result) in
              if negb (jsTruthy imagePayload) then
                inl (JsError "OpenRouter did not return image data")
              else
                let base64 :=
                  coalesce (coalesce (prop "b64_json" imagePayload) (prop "b64" imagePayload))
                           (prop "image_base64" imagePayload) in
                let url := prop "url" imagePayload in
                if jsTruthy base64 then
                  inr (base64, coalesce (prop "mime_type" imagePayload) (JsString "image/png"))
                else if jsTruthy url then
                  match url with
                  | JsString link => asStrings (fetchImageAsBase64 fetch link)
                  | _ => inl (JsError (notAFunctionError url))
                  end
                else inl (JsError "OpenRouter response missing base64 or URL data")
        end
    end.

End OpenRouterImage.

(** ** Notions for the statements *)

(** The characters left out of the alphabet because they look alike. *)
Definition lookAlikes : list ascii := ["I"; "O"; "l"; "0"; "1"]%char.

(** A character that may stand in the mime type of a data URL. *)
Definition plainChar (a : ascii) : bool :=
  negb (bool_decide (a = ";"%char) || bool_decide (a = ","%char)).

(** ** More of the classroom *)

(** A no-break space, U+00A0. *)
Definition nbsp : string := String (ascii_of_nat 194) (String (ascii_of_nat 160) EmptyString).

(** The classroom after the teacher ended the session. *)
Definition storeEnded : Store :=
  (runHandler (SessionEnd.POST teacherCookies 300%Z) storeStarted2).2.

(** A chat completion that echoes the last message. *)
Definition chatOk (history : list (Sender * string)) : string + string :=
  inr ("You said: " +:+ default "" (snd <$> last history)).

(** The credentials the two students of the classroom were given. *)
Definition twoCredentials : list TeacherStudentsGenerate.Credential :=
  Eval vm_compute in
    match TeacherStudentsGenerate.POST (H := testLibraries) teacherCookies
            (Some (JObject (countBody 2))) (tapeOf twoStudents)
            (fun _ => "salt") studentIds studentTimes storeStarted1 with
    | Some (Json200 credentials, _) => credentials
    | _ => []
    end.

(** Stand-ins for the JavaScript engine (the lower case is that of the
    ASCII letters, which is exact on ASCII text), and an environment
    with an API key. *)
Definition testRuntime : Runtime :=
  {| stringOf := fun _ => "[object Object]";
     lowerCase := TeacherStudentsGenerate.toLowerCase;
     inOperatorError := fun key _ => "Cannot use 'in' operator to search for '" +:+ key +:+ "'";
     notAFunctionError := fun _ => "urlOrDataUrl.startsWith is not a function";
     decodeURIComponent := fun s => inr s;
     bufferToBase64 := fun s => s |}.

Definition envWithKey : Env := mkEnv (Some "sk-test") None None None.

(** OpenRouter answering every request with one chat message, and
    with one picture. *)
Definition fetchText (text : string) : Fetch :=
  fun _ =>
    inr (mkFetchResponse true
           (inr (JsObject
                   [("choices",
                     JsArray [JsObject [("message",
                                         JsObject [("role", JsString "assistant");
                                                   ("content", JsString text)])]])]))
           (inl NonError) None).

Definition fetchPicture : Fetch :=
  fun _ =>
    inr (mkFetchResponse true
           (inr (JsObject [("data", JsArray [JsObject [("b64_json", JsString "QUJD")]])]))
           (inl NonError) None).

(** * Proofs *)

(** ** Running handlers *)

Ltac run_handler :=
  cbv beta iota delta [runHandler tryCatch bind ret throw getStore parse requestJson
    awaitRemote getSessionFromCookies] in *.

Ltac run_prisma :=
  cbv beta iota delta [prismaSession.updateMany prismaSession.create prismaStudent.create
    prismaPromptSubmission.create prismaPromptSubmission.update
    prismaChatThread.create prismaChatThread.update prismaChatMessage.create] in *.

(** Case analysis along every branch a handler can take. *)
Ltac all_branches :=
  repeat (run_handler; simplify_eq /=; try done; case_match);
  run_handler; simplify_eq /=; try done.

Section Frames.
Context `{Libraries}.

Lemma session_start_frame body salt newId now created st r st' :
  runHandler (SessionStart.POST body salt newId now created) st = (r, st') ->
  sameBut true false false false false st st'.
Proof.
  unfold SessionStart.POST, endExistingSessions. run_handler. run_prisma.
  intros. all_branches; by split.
Qed.

Lemma session_join_frame body key st r st' :
  runHandler (SessionJoin.POST body key) st = (r, st') -> st' = st.
Proof.
  unfold SessionJoin.POST. run_handler. intros. by all_branches.
Qed.

Lemma session_end_frame cookies now st r st' :
  runHandler (SessionEnd.POST cookies now) st = (r, st') ->
  sameBut true false false false false st st'.
Proof.
  unfold SessionEnd.POST. run_handler. run_prisma.
  intros. all_branches; by split.
Qed.

Lemma images_generate_frame cookies body remote newId created st r st' :
  runHandler (ImagesGenerate.POST cookies body remote newId created) st = (r, st') ->
  sameBut false false true false false st st'.
Proof.
  unfold ImagesGenerate.POST. run_handler. run_prisma.
  intros. all_branches; by split.
Qed.

Lemma images_share_frame cookies body st r st' :
  runHandler (ImagesShare.POST cookies body) st = (r, st') ->
  sameBut false false true false false st st'.
Proof.
  unfold ImagesShare.POST. run_handler. run_prisma.
  intros. all_branches; by split.
Qed.

Lemma images_list_frame cookies st r st' :
  runHandler (Images.GET cookies) st = (r, st') -> st' = st.
Proof.
  unfold Images.GET. run_handler. intros. by all_branches.
Qed.

Lemma chat_thread_frame cookies body newId created st r st' :
  runHandler (ChatThreads.POST cookies body newId created) st = (r, st') ->
  sameBut false false false true false st st'.
Proof.
  unfold ChatThreads.POST. run_handler. run_prisma.
  intros. all_branches; by split.
Qed.

Lemma chat_message_frame cookies threadId body remote i1 t1 i2 t2 now st r st' :
  runHandler (ChatMessages.POST cookies threadId body remote i1 t1 i2 t2 now) st = (r, st') ->
  sameBut false false false true true st st'.
Proof.
  unfold ChatMessages.POST. run_handler. run_prisma.
  intros. all_branches; by split.
Qed.

End Frames.

(** ** Session lifecycle *)

Section SessionLifecycle.
Context `{Libraries}.

Lemma endExistingSessions_sessions now st :
  sessions (endExistingSessions now st).2 = endActive now <$> sessions st.
Proof. reflexivity. Qed.

Lemma endActive_inactive now (rows : list Session.t) :
  List.filter Session.isActive (endActive now <$> rows) = [].
Proof.
  induction rows as [|s rows IH]; [done|].
  cbn. unfold endActive at 1. destruct (Session.isActive s) eqn:E; cbn; by rewrite ?E.
Qed.

Lemma updateMany_active_le (where_ : Session.t -> bool) now (rows : list Session.t) :
  length (List.filter Session.isActive
            (List.map (fun s => if where_ s then endSessionData now s else s) rows))
  <= length (List.filter Session.isActive rows).
Proof.
  induction rows as [|s rows IH]; [done|].
  cbn. destruct (where_ s), (Session.isActive s) eqn:E; cbn; rewrite ?E; cbn; lia.
Qed.

Lemma filter_active_app (rows rows' : list Session.t) :
  List.filter Session.isActive (rows ++ rows')
  = List.filter Session.isActive rows ++ List.filter Session.isActive rows'.
Proof. apply List.filter_app. Qed.

Lemma session_start_active body salt newId now created st r st' :
  runHandler (SessionStart.POST body salt newId now created) st = (r, st') ->
  atMostOneActive st -> atMostOneActive st'.
Proof.
  unfold SessionStart.POST, endExistingSessions, atMostOneActive, activeSessions.
  run_handler. run_prisma. intros Hrun Hst.
  all_branches; rewrite ?filter_active_app; fold (endActive now);
    rewrite ?endActive_inactive; cbn; lia.
Qed.

Lemma session_end_active cookies now st r st' :
  runHandler (SessionEnd.POST cookies now) st = (r, st') ->
  atMostOneActive st -> atMostOneActive st'.
Proof.
  unfold SessionEnd.POST, atMostOneActive, activeSessions.
  run_handler. run_prisma. intros Hrun Hst.
  all_branches; try lia.
  etrans; [apply updateMany_active_le | done].
Qed.

End SessionLifecycle.

(** ** Credential generation *)

Section Credentials.
Context `{Libraries}.
Import TeacherStudentsGenerate.

Lemma hasId_false {A} (key : A -> Id) i (table : list A) :
  hasId key i table = false <-> i ∉ key <$> table.
Proof. unfold hasId. apply bool_decide_eq_false. Qed.

Lemma hasId_true {A} (key : A -> Id) i (table : list A) :
  hasId key i table = true <-> i ∈ key <$> table.
Proof. unfold hasId. apply bool_decide_eq_true. Qed.

Lemma drawUsername_fresh used tape u tape' :
  drawUsername used tape = Some (u, tape') -> toLowerCase u ∉ used.
Proof.
  induction tape as [|bytes tape IH]; [done|]. cbn.
  case_bool_decide; [done|]. by intros [= <- <-].
Qed.

Lemma drawUsername_skip used (junk : Tape) bytes rest :
  Forall (fun b => toLowerCase (randomCode b) ∈ used) junk ->
  toLowerCase (randomCode bytes) ∉ used ->
  drawUsername used (junk ++ bytes :: rest) = Some (randomCode bytes, rest).
Proof.
  intros Hjunk Hfresh. induction Hjunk as [|b junk Hb _ IH]; cbn.
  - by rewrite bool_decide_eq_false_2.
  - by rewrite bool_decide_eq_true_2.
Qed.

(** The students a successful run of the loop adds. *)
Lemma createStudents_spec sid n : forall i used tape salts ids created creds st creds' st',
  createStudents sid n i used tape salts ids created creds st = Some (inr creds', st') ->
  exists news,
    st' = mkStore (sessions st) (students st ++ news) (promptSubmissions st)
                  (chatThreads st) (chatMessages st)
    /\ length news = n
    /\ Forall (fun s => Student.sessionId s = sid /\ toLowerCase (Student.username s) ∉ used) news
    /\ NoDup ((fun s => toLowerCase (Student.username s)) <$> news)
    /\ username <$> creds' = (username <$> creds) ++ (Student.username <$> news).
Proof.
  induction n as [|n IH]; intros i used tape salts ids created creds st creds' st' Hrun.
  - cbn in Hrun. simplify_eq. exists []. rewrite !app_nil_r.
    split; [by destruct st'|]. repeat split; try done; constructor.
  - cbn in Hrun.
    destruct (drawUsername used tape) as [[u tape1]|] eqn:Hdraw; [|done].
    apply drawUsername_fresh in Hdraw.
    destruct tape1 as [|bytes tape2]; [done|].
    unfold prismaStudent.create in Hrun. cbn in Hrun.
    repeat (case_match; simplify_eq /=).
    apply IH in Hrun as (news & -> & Hlen & Hall & Hnodup & Hcreds). cbn in *.
    eexists (_ :: news). rewrite <- app_assoc. split; [reflexivity|].
    split; [cbn; by rewrite Hlen|].
    split.
    { constructor; [done|]. eapply Forall_impl; [exact Hall|].
      cbn. intros s [? Hs]. split; [done|]. set_solver. }
    split.
    { cbn. constructor; [|done]. rewrite list_elem_of_fmap.
      intros (s & Heq & Hs). rewrite Forall_forall in Hall.
      destruct (Hall _ Hs) as [_ Hnot]. apply Hnot. rewrite <- Heq.
      by apply elem_of_union_l, elem_of_singleton. }
    rewrite Hcreds, fmap_app, <- app_assoc. done.
Qed.

Lemma createStudents_frame sid n i used tape salts ids created creds st res st' :
  transaction (createStudents sid n i used tape salts ids created creds) st = Some (res, st') ->
  sameBut false true false false false st st'.
Proof.
  unfold transaction. intros Hrun.
  destruct (createStudents _ _ _ _ _ _ _ _ _ _) as [[[e|creds'] st1]|] eqn:Hloop;
    simplify_eq; [by split|].
  apply createStudents_spec in Hloop as (news & -> & _). by split.
Qed.

Lemma students_generate_frame cookies body tape salts ids created st r st' :
  TeacherStudentsGenerate.POST cookies body tape salts ids created st = Some (r, st') ->
  sameBut false true false false false st st'.
Proof.
  unfold TeacherStudentsGenerate.POST. run_handler. intros Hrun.
  repeat (case_match; simplify_eq /=); try by split.
  all: eapply createStudents_frame; eassumption.
Qed.

Lemma usedUsernames_covers sid st :
  covers sid
    (list_to_set ((fun entry => toLowerCase (Student.username entry))
                    <$> prismaStudent.findMany
                          (fun s => bool_decide (Student.sessionId s = sid)) st))
    st.
Proof.
  intros s Hs Hsid. rewrite elem_of_list_to_set, list_elem_of_fmap.
  exists s. split; [done|]. unfold prismaStudent.findMany.
  rewrite list_elem_of_In, List.filter_In, <- list_elem_of_In.
  by rewrite bool_decide_eq_true.
Qed.

Lemma usernamesDistinct_app sid used st news :
  usernamesDistinct st -> covers sid used st ->
  Forall (fun s => Student.sessionId s = sid /\ toLowerCase (Student.username s) ∉ used) news ->
  NoDup ((fun s => toLowerCase (Student.username s)) <$> news) ->
  usernamesDistinct (mkStore (sessions st) (students st ++ news) (promptSubmissions st)
                             (chatThreads st) (chatMessages st)).
Proof.
  unfold usernamesDistinct. cbn. intros Hold Hcov Hall Hnew.
  rewrite fmap_app. apply NoDup_app. split; [done|]. split.
  - intros [sid' name] Hin Hin'.
    apply list_elem_of_fmap in Hin as (s & [= -> ->] & Hs).
    apply list_elem_of_fmap in Hin' as (s' & [= Hsid Hname] & Hs').
    rewrite Forall_forall in Hall. destruct (Hall _ Hs') as [Hsid' Hnot].
    apply Hnot. rewrite <- Hname. apply Hcov; [done|congruence].
  - assert ((fun s => (Student.sessionId s, toLowerCase (Student.username s))) <$> news
            = (fun name => (sid, name)) <$> ((fun s => toLowerCase (Student.username s)) <$> news))
      as ->.
    { rewrite <- list_fmap_compose. apply Forall_fmap_ext_1.
      eapply Forall_impl; [exact Hall|]. cbn. by intros s [-> _]. }
    apply NoDup_fmap_2; [|done]. by intros ? ? [= ->].
Qed.

Lemma students_generate_distinct cookies body tape salts ids created st r st' :
  TeacherStudentsGenerate.POST cookies body tape salts ids created st = Some (r, st') ->
  usernamesDistinct st -> usernamesDistinct st'.
Proof.
  unfold TeacherStudentsGenerate.POST, transaction. run_handler. intros Hrun Hst.
  repeat (case_match; simplify_eq /=); try done.
  match goal with Hloop : createStudents _ _ _ _ _ _ _ _ _ _ = _ |- _ =>
    apply createStudents_spec in Hloop as (news & -> & _ & Hall & Hnodup & _) end.
  eapply usernamesDistinct_app; eauto using usedUsernames_covers.
Qed.

End Credentials.

(** ** Submission lineage *)

Section Lineage.
Context `{Libraries}.
Import ImagesGenerate.

#[local] Arguments chainsOk : simpl never.

Lemma findUnique_Some {A} (key : A -> Id) i (table : list A) row :
  findUnique key i table = Some row -> row ∈ table /\ key row = i.
Proof.
  unfold findUnique. intros Hfind. apply List.find_some in Hfind as [Hin Hkey].
  by rewrite list_elem_of_In, <- (bool_decide_eq_true (key row = i)).
Qed.

Lemma findUnique_None {A} (key : A -> Id) i (table : list A) :
  findUnique key i table = None <-> i ∉ key <$> table.
Proof.
  unfold findUnique. split.
  - intros Hfind (row & -> & Hin)%list_elem_of_fmap.
    apply list_elem_of_In in Hin.
    eapply List.find_none in Hfind; [|exact Hin]. by case_bool_decide.
  - intros Hnot. destruct (List.find _ _) as [row|] eqn:Hfind; [|done].
    apply List.find_some in Hfind as [Hin Hkey%bool_decide_eq_true].
    destruct Hnot. rewrite <- Hkey. apply list_elem_of_fmap_2. by apply list_elem_of_In.
Qed.

(** Updating the row just appended under a fresh id touches only it. *)
Lemma update_appended (data : PromptSubmission.t -> PromptSubmission.t) rows row i :
  PromptSubmission.id row = i ->
  i ∉ PromptSubmission.id <$> rows ->
  List.map (fun r => if bool_decide (PromptSubmission.id r = i) then data r else r)
           (rows ++ [row])
  = rows ++ [data row].
Proof.
  intros <- Hfresh. rewrite List.map_app. cbn. rewrite bool_decide_eq_true_2 by done.
  f_equal. induction rows as [|r rows IH]; [done|]. cbn.
  rewrite fmap_cons, not_elem_of_cons in Hfresh. destruct Hfresh as [Hne Hfresh].
  rewrite bool_decide_eq_false_2 by done. by rewrite IH.
Qed.

Lemma findUnique_appended rows row i :
  PromptSubmission.id row = i ->
  i ∉ PromptSubmission.id <$> rows ->
  findUnique PromptSubmission.id i (rows ++ [row]) = Some row.
Proof.
  intros <- Hfresh. unfold findUnique. induction rows as [|r rows IH]; cbn.
  - by rewrite bool_decide_eq_true_2.
  - rewrite fmap_cons, not_elem_of_cons in Hfresh. destruct Hfresh as [Hne Hfresh].
    rewrite bool_decide_eq_false_2 by done. by apply IH.
Qed.

Lemma rootAgrees_mono rows rows' s :
  rootAgrees rows s -> rootAgrees (rows ++ rows') s.
Proof.
  unfold rootAgrees. destruct (PromptSubmission.rootSubmissionId s); [|done].
  rewrite Exists_app. by left.
Qed.

Lemma chainsOk_append rows row :
  chainsOk rows ->
  PromptSubmission.id row ∉ PromptSubmission.id <$> rows ->
  rootAgrees rows row ->
  chainsOk (rows ++ [row]).
Proof.
  intros [Hids Hroots] Hfresh Hrow. split.
  - rewrite fmap_app. apply NoDup_app. split; [done|]. split.
    + cbn. intros i Hi ->%list_elem_of_singleton. done.
    + cbn. apply NoDup_singleton.
  - apply Forall_app. split.
    + eapply Forall_impl; [exact Hroots|]. intros s. apply rootAgrees_mono.
    + constructor; [|constructor]. by apply rootAgrees_mono.
Qed.

Lemma chainsOk_update (f : PromptSubmission.t -> PromptSubmission.t) rows :
  (forall r, PromptSubmission.id (f r) = PromptSubmission.id r
             /\ PromptSubmission.sessionId (f r) = PromptSubmission.sessionId r
             /\ PromptSubmission.studentId (f r) = PromptSubmission.studentId r
             /\ PromptSubmission.rootSubmissionId (f r) = PromptSubmission.rootSubmissionId r) ->
  chainsOk rows -> chainsOk (List.map f rows).
Proof.
  intros Hf [Hids Hroots]. split.
  - assert (PromptSubmission.id <$> List.map f rows = PromptSubmission.id <$> rows) as ->; [|done].
    change (List.map f rows) with (f <$> rows). rewrite <- list_fmap_compose.
    apply list_fmap_ext. intros _ r _. cbn. apply Hf.
  - change (List.map f rows) with (f <$> rows). rewrite Forall_fmap.
    eapply Forall_impl; [exact Hroots|]. intros s. unfold rootAgrees, isRootOf. cbn.
    destruct (Hf s) as (_ & Hsession & Hstudent & ->).
    destruct (PromptSubmission.rootSubmissionId s) as [root|]; [|done].
    rewrite Exists_fmap. intros Hex. eapply Exists_impl; [exact Hex|]. intros p. cbn.
    destruct (Hf p) as (-> & -> & -> & ->). by rewrite Hsession, Hstudent.
Qed.

Lemma chainsOk_update_row i (data : PromptSubmission.t -> PromptSubmission.t) rows :
  (forall r, PromptSubmission.id (data r) = PromptSubmission.id r
             /\ PromptSubmission.sessionId (data r) = PromptSubmission.sessionId r
             /\ PromptSubmission.studentId (data r) = PromptSubmission.studentId r
             /\ PromptSubmission.rootSubmissionId (data r) = PromptSubmission.rootSubmissionId r) ->
  chainsOk rows ->
  chainsOk (List.map (fun r => if bool_decide (PromptSubmission.id r = i) then data r else r) rows).
Proof.
  intros Hdata. apply chainsOk_update. intros r. by destruct (bool_decide _).
Qed.

Lemma same_id_same_row rows (s p : PromptSubmission.t) :
  NoDup (PromptSubmission.id <$> rows) -> s ∈ rows -> p ∈ rows ->
  PromptSubmission.id s = PromptSubmission.id p -> s = p.
Proof.
  intros Hnodup [i Hi]%list_elem_of_lookup [j Hj]%list_elem_of_lookup Hid.
  assert (i = j) as ->; [|congruence].
  eapply NoDup_lookup; [exact Hnodup| |].
  - by rewrite list_lookup_fmap, Hi.
  - by rewrite list_lookup_fmap, Hj, Hid.
Qed.

(** The root of a stored submission is stored, is an original, and has
    the submission's session and owner. *)
Lemma root_row_stored rows parent :
  chainsOk rows -> parent ∈ rows ->
  Exists (isRootOf (Images.rootOf parent) parent) rows.
Proof.
  intros [_ Hroots] Hin. unfold Images.rootOf.
  rewrite Forall_forall in Hroots. specialize (Hroots _ Hin). unfold rootAgrees in Hroots.
  destruct (PromptSubmission.rootSubmissionId parent) as [root|] eqn:Hroot; cbn; [done|].
  apply Exists_exists. by exists parent.
Qed.

(** A lineage computed from a parent names the root of a stored
    submission of the caller, in the caller's session. *)
Lemma lineage_parent sid stu pid st chain :
  lineage sid stu pid st = inr chain ->
  exists parent,
    parent ∈ promptSubmissions st
    /\ PromptSubmission.sessionId parent = sid
    /\ PromptSubmission.studentId parent = Some stu
    /\ lineageRoot chain = Some (Images.rootOf parent).
Proof.
  unfold lineage, prismaPromptSubmission.findUnique. intros Hlin.
  destruct (findUnique _ _ _) as [parent|] eqn:Hfind; [|done].
  apply findUnique_Some in Hfind as [Hin Hid].
  repeat (case_match; simplify_eq /=).
  repeat match goal with
         | Hb : negb (bool_decide _) = false |- _ =>
             apply negb_false_iff, bool_decide_eq_true in Hb
         end.
  by exists parent.
Qed.

Lemma images_generate_chains cookies body remote newId created st r st' :
  runHandler (ImagesGenerate.POST cookies body remote newId created) st = (r, st') ->
  chainsConsistent st -> chainsConsistent st'.
Proof.
  unfold ImagesGenerate.POST, chainsConsistent. fold (chainsOk (promptSubmissions st)).
  fold (chainsOk (promptSubmissions st')). run_handler. run_prisma.
  intros Hrun Hst. all_branches.
  all: try (apply chainsOk_update_row; [intros row; by cbn|]).
  all: apply chainsOk_append; [done | by apply hasId_false |].
  all: unfold rootAgrees; cbn; try done.
  all: match goal with Hlin : lineage _ _ _ _ = inr _ |- _ =>
         destruct (lineage_parent _ _ _ _ _ Hlin) as (parent & Hin & Hsession & Howner & ->) end.
  all: eapply Exists_impl; [exact (root_row_stored _ _ Hst Hin)|].
  all: unfold isRootOf; cbn; intros rootRow (? & ? & ? & ?).
  all: repeat split; try done; etrans; eassumption.
Qed.

Lemma images_share_chains cookies body st r st' :
  runHandler (ImagesShare.POST cookies body) st = (r, st') ->
  chainsConsistent st -> chainsConsistent st'.
Proof.
  unfold ImagesShare.POST, chainsConsistent. fold (chainsOk (promptSubmissions st)).
  fold (chainsOk (promptSubmissions st')). run_handler. run_prisma.
  intros Hrun Hst. all_branches.
  apply chainsOk_update_row; [intros row; by cbn|done].
Qed.

End Lineage.

(** ** Invariants of every reachable store *)

Section Reachable.
Context `{Libraries}.

Lemma sameBut_active b c d e st st' :
  sameBut false b c d e st st' -> atMostOneActive st -> atMostOneActive st'.
Proof. unfold atMostOneActive, activeSessions. intros [-> _ _ _ _]; done. Qed.

Lemma sameBut_usernames a c d e st st' :
  sameBut a false c d e st st' -> usernamesDistinct st -> usernamesDistinct st'.
Proof. unfold usernamesDistinct. intros [_ -> _ _ _]; done. Qed.

Lemma sameBut_chains a b d e st st' :
  sameBut a b false d e st st' -> chainsConsistent st -> chainsConsistent st'.
Proof. unfold chainsConsistent. intros [_ _ -> _ _]; done. Qed.

Lemma step_storeOk st st' : step st st' -> storeOk st -> storeOk st'.
Proof.
  intros Hstep (Hactive & Husers & Hchains).
  destruct Hstep as
    [body salt newId now created st r st' Hrun
    |body key st r st' Hrun
    |cookies now st r st' Hrun
    |cookies body tape salts ids created st r st' Hrun
    |cookies body remote newId created st r st' Hrun
    |cookies body st r st' Hrun
    |cookies st r st' Hrun
    |cookies body newId created st r st' Hrun
    |cookies threadId body remote i1 t1 i2 t2 now st r st' Hrun].
  - pose proof (session_start_frame _ _ _ _ _ _ _ _ Hrun) as Hframe.
    split; [by eapply session_start_active|].
    split; [by eapply sameBut_usernames | by eapply sameBut_chains].
  - by apply session_join_frame in Hrun as ->.
  - pose proof (session_end_frame _ _ _ _ _ Hrun) as Hframe.
    split; [by eapply session_end_active|].
    split; [by eapply sameBut_usernames | by eapply sameBut_chains].
  - pose proof (students_generate_frame _ _ _ _ _ _ _ _ _ Hrun) as Hframe.
    split; [by eapply sameBut_active|].
    split; [by eapply students_generate_distinct | by eapply sameBut_chains].
  - pose proof (images_generate_frame _ _ _ _ _ _ _ _ Hrun) as Hframe.
    split; [by eapply sameBut_active|].
    split; [by eapply sameBut_usernames | by eapply images_generate_chains].
  - pose proof (images_share_frame _ _ _ _ _ Hrun) as Hframe.
    split; [by eapply sameBut_active|].
    split; [by eapply sameBut_usernames | by eapply images_share_chains].
  - by apply images_list_frame in Hrun as ->.
  - pose proof (chat_thread_frame _ _ _ _ _ _ _ Hrun) as Hframe.
    split; [by eapply sameBut_active|].
    split; [by eapply sameBut_usernames | by eapply sameBut_chains].
  - pose proof (chat_message_frame _ _ _ _ _ _ _ _ _ _ _ _ Hrun) as Hframe.
    split; [by eapply sameBut_active|].
    split; [by eapply sameBut_usernames | by eapply sameBut_chains].
Qed.

Lemma emptyStore_ok : storeOk emptyStore.
Proof.
  split; [unfold atMostOneActive; cbn; lia|].
  split; [apply NoDup_nil_2|]. split; [apply NoDup_nil_2 | constructor].
Qed.

Lemma reachable_storeOk st : reachable st -> storeOk st.
Proof.
  unfold reachable. revert st. apply rtc_ind_r; [apply emptyStore_ok|].
  intros st st' _ Hstep Hst. by eapply step_storeOk.
Qed.

End Reachable.

(** ** Claims *)

(** C2. At most one session row is active at any time: starting a
    session first ends every active session (each row that was active
    gets isActive = false and endedAt = now and keeps its other fields;
    the rows that were not active stay as they are), leaving none
    active, and only then inserts the new row, active, without endedAt
    and with the hash of the given password; hence every store reachable
    through the handlers (session start, join and end among them) has at
    most one active session. *)
Theorem at_most_one_active_session `{Libraries} :
  (forall body salt newId now created st reply st',
     runHandler (SessionStart.POST body salt newId now created) st = (Json200 reply, st') ->
     let ended := (endExistingSessions now st).2 in
     sessions ended = endActive now <$> sessions st
     /\ activeSessions ended = []
     /\ Forall2 (fun old s =>
                   if Session.isActive old
                   then s = Session.mk (Session.id old) (Session.passwordHash old) false
                              (Session.createdAt old) (Some now)
                   else s = old)
                (sessions st) (sessions ended)
     /\ exists new,
          sessions st' = sessions ended ++ [new]
          /\ Session.id new = newId
          /\ Session.isActive new = true
          /\ activeSessions st' = [new]
          /\ exists password,
               (exists json, body = Some json /\ SessionStart.bodySchema json = inr password)
               /\ new = Session.mk newId (hashPassword password salt) true created None)
  /\ (forall st, reachable st -> atMostOneActive st).
Proof.
  split.
  - intros body salt newId now created st reply st' Hrun ended.
    split; [done|]. split; [apply endActive_inactive|].
    split.
    { subst ended. cbn. change (List.map ?f ?l) with (f <$> l).
      apply Forall2_fmap_r, Forall_Forall2_diag, Forall_forall. intros s _.
      unfold compose. by destruct (Session.isActive s). }
    revert Hrun. unfold SessionStart.POST, endExistingSessions.
    run_handler. run_prisma. intros Hrun. all_branches.
    eexists. split; [reflexivity|]. split; [done|]. split; [done|].
    split.
    + unfold activeSessions. cbn. rewrite filter_active_app. fold (endActive now).
      by rewrite endActive_inactive.
    + eexists. split; [by eexists|]. reflexivity.
  - intros st Hst. by apply reachable_storeOk in Hst as [? _].
Qed.

Lemma at_most_one_active_session_witness :
  activeSessions storeStarted1 <> []
  /\ atMostOneActive storeStarted2
  /\ sessions storeStarted2
     = [Session.mk "csession1" "salt$tulip" false 100%Z (Some 200%Z);
        Session.mk "csession2" "salt$crocus" true 200%Z None].
Proof.
  split; [by vm_compute|]. split.
  - apply (proj2 (at_most_one_active_session (H := testLibraries))).
    eapply rtc_l; [|eapply rtc_once].
    + eapply (step_session_start (startBody "tulip") "salt" "csession1" 100%Z 100%Z).
      vm_compute. reflexivity.
    + eapply (step_session_start (startBody "crocus") "salt" "csession2" 200%Z 200%Z).
      vm_compute. reflexivity.
  - destruct (proj1 (at_most_one_active_session (H := testLibraries))
                (startBody "crocus") "salt" "csession2" 200%Z 200%Z storeStarted1
                (SessionStart.mkReply "csession2" 200%Z) storeStarted2 eq_refl)
      as (_ & _ & Hended & new & Hsessions & _ & _ & _ & password & _ & ->).
    rewrite Hsessions. apply Forall2_cons_inv_l in Hended as (s & rest & Hs & Hrest & ->).
    apply Forall2_nil_inv_l in Hrest as ->. cbn in Hs. rewrite Hs.
    vm_compute in Hsessions. by injection Hsessions as <-.
Defined.

(** ** The image generation handler, run symbolically *)

#[local] Arguments findUnique : simpl never.

Section GenerateRun.
Context `{Libraries}.
Import ImagesGenerate.

Lemma active_session_found sid st :
  Exists (fun s => Session.id s = sid /\ Session.isActive s) (sessions st) ->
  is_Some (prismaSession.findFirst
             (fun s => bool_decide (Session.id s = sid) && Session.isActive s) st).
Proof.
  intros (s & Hin & Hid & Hact)%Exists_exists. unfold prismaSession.findFirst.
  destruct (List.find _ _) as [found|] eqn:Hfind; [by eexists|].
  apply list_elem_of_In in Hin. eapply List.find_none in Hfind; [|exact Hin].
  rewrite bool_decide_eq_true_2 in Hfind by done. by destruct (Session.isActive s).
Qed.

Lemma generate_run sid stu json prompt parentOpt remote newId created st :
  sid <> "" -> stu <> "" ->
  bodySchema json = inr (mkBody prompt parentOpt) ->
  Exists (fun s => Session.id s = sid /\ Session.isActive s) (sessions st) ->
  runHandler (POST (mkCookies (Some sid) (Some "student") (Some stu)) (Some json)
                remote newId created) st
  = match (if truthy parentOpt then lineage sid stu (default "" parentOpt) st
           else inr (mkLineage None 0 None)) with
    | inl response => (response, st)
    | inr chain =>
        let row := pendingRow newId sid prompt created stu parentOpt chain in
        match prismaPromptSubmission.create row st with
        | (inl _, _) => (JsonError 500 "Unable to generate image", st)
        | (inr _, _) =>
            match remote prompt (baseImageDataUrl chain) with
            | inr (imageData, mimeType) =>
                (Json200 (replyOf (markSuccess imageData mimeType row)),
                 appended st (markSuccess imageData mimeType row))
            | inl message => (JsonError 502 message, appended st (markError message row))
            end
        end
    end.
Proof.
  intros Hsid Hstu Hbody [session Hsession]%active_session_found.
  unfold POST. run_handler. cbn.
  rewrite !bool_decide_eq_true_2 by done. cbn.
  rewrite Hbody, Hsession. cbn.
  destruct (if truthy parentOpt then _ else _) as [response|chain]; [done|].
  unfold prismaPromptSubmission.create, pendingRow. cbn.
  destruct (hasId PromptSubmission.id newId (promptSubmissions st)) eqn:Hfresh; [done|].
  apply hasId_false in Hfresh.
  destruct (negb _); [done|].
  unfold prismaPromptSubmission.update, prismaPromptSubmission.findUnique. cbn.
  destruct (remote prompt (baseImageDataUrl chain)) as [message|[imageData mimeType]]; cbn.
  - set (row := PromptSubmission.mk newId _ _ _ _ _ _ _ _ _ _ _ _ _).
    rewrite (findUnique_appended _ row newId eq_refl Hfresh).
    rewrite (update_appended (markError message) _ row newId eq_refl Hfresh). done.
  - set (row := PromptSubmission.mk newId _ _ _ _ _ _ _ _ _ _ _ _ _).
    rewrite (findUnique_appended _ row newId eq_refl Hfresh).
    rewrite (update_appended (markSuccess imageData mimeType) _ row newId eq_refl Hfresh). done.
Qed.

Lemma filter_filter_and {A} (f g : A -> bool) (l : list A) :
  List.filter f (List.filter g l) = List.filter (fun x => g x && f x) l.
Proof.
  induction l as [|x l IH]; [done|]. cbn.
  destruct (g x); cbn; [destruct (f x)|]; by rewrite IH.
Qed.

(** Every member of the chain of a stored submission is stored in its
    session and has its owner. *)
Lemma chain_member_agrees st parent s :
  chainsConsistent st -> parent ∈ promptSubmissions st -> s ∈ promptSubmissions st ->
  PromptSubmission.id s = Images.rootOf parent
  \/ PromptSubmission.rootSubmissionId s = Some (Images.rootOf parent) ->
  PromptSubmission.sessionId s = PromptSubmission.sessionId parent
  /\ PromptSubmission.studentId s = PromptSubmission.studentId parent
  /\ Images.rootOf s = Images.rootOf parent.
Proof.
  intros Hok Hparent Hs Hmember. pose proof Hok as [Hnodup Hroots].
  pose proof (root_row_stored _ _ Hok Hparent) as Hrootrow.
  apply Exists_exists in Hrootrow as (p & Hp & Hpid & Hpsession & Hpowner & Hproot).
  destruct Hmember as [Hid|Hroot].
  - assert (s = p) as ->; [eapply same_id_same_row; eauto; congruence|].
    unfold Images.rootOf at 1. by rewrite Hproot.
  - rewrite Forall_forall in Hroots. specialize (Hroots _ Hs). unfold rootAgrees in Hroots.
    rewrite Hroot in Hroots.
    apply Exists_exists in Hroots as (p' & Hp' & Hp'id & Hp'session & Hp'owner & _).
    assert (p' = p) as ->; [eapply same_id_same_row; eauto; congruence|].
    unfold Images.rootOf at 1. rewrite Hroot. cbn. repeat split; congruence.
Qed.

(** In a store whose chains stay within their session, the count the
    handler takes is the size of the chain as the specification has it. *)
Lemma chain_count_agree st parent :
  chainsConsistent st -> parent ∈ promptSubmissions st ->
  prismaPromptSubmission.count
    (inChain (PromptSubmission.sessionId parent) (Images.rootOf parent)) st
  = specChainCount (Images.rootOf parent) st.
Proof.
  intros Hok Hin.
  unfold prismaPromptSubmission.count, specChainCount, specChain. f_equal.
  rewrite filter_filter_and. apply List.filter_ext_in. intros s Hs%list_elem_of_In.
  unfold inChain.
  destruct (bool_decide (PromptSubmission.id s = Images.rootOf parent)
            || bool_decide (PromptSubmission.rootSubmissionId s = Some (Images.rootOf parent)))
    eqn:Hmember; [|by rewrite andb_false_r].
  rewrite bool_decide_eq_true_2; [done|].
  eapply chain_member_agrees; eauto.
  apply orb_true_iff in Hmember as [?%bool_decide_eq_true|?%bool_decide_eq_true]; eauto.
Qed.

Lemma lineage_eval sid stu pid st parent :
  prismaPromptSubmission.findUnique pid st = Some parent ->
  PromptSubmission.sessionId parent = sid ->
  PromptSubmission.studentId parent = Some stu ->
  truthy (PromptSubmission.imageData parent) = true ->
  chainsConsistent st ->
  lineage sid stu pid st
  = if bool_decide (3 <= specChainCount (Images.rootOf parent) st)
    then inl (JsonError 400 "This image has no refinements remaining.")
    else inr (mkLineage (Some (Images.rootOf parent))
                        (specChainCount (Images.rootOf parent) st)
                        (Some (dataUrl parent))).
Proof.
  intros Hfind Hsession Hstudent Himage Hok. unfold lineage. rewrite Hfind.
  apply findUnique_Some in Hfind as [Hin _].
  rewrite !bool_decide_eq_true_2 by done. rewrite Himage. cbn.
  fold (Images.rootOf parent). rewrite <- Hsession, chain_count_agree by done. done.
Qed.

(** C1. A refinement request with a valid parent counts the members of
    the chain of the parent's root (the parent's rootSubmissionId, or
    its own id when that is null) that are PENDING or SUCCESS.  With
    three or more the request fails with status 400, "This image has no
    refinements remaining.", and the store is unchanged; with fewer, one
    submission row is added whose revisionIndex is that count and whose
    rootSubmissionId is that root; the caller gets 200, or 502 when the
    remote generation fails.  The handler counts within the caller's
    session, which is the whole chain in every store whose chains are
    consistent ([chainsConsistent], an invariant of the reachable
    stores). *)
Theorem refinement_counts_chain sid stu json prompt pid parent remote newId created st :
  sid <> "" -> stu <> "" -> pid <> "" ->
  bodySchema json = inr (mkBody prompt (Some pid)) ->
  Exists (fun s => Session.id s = sid /\ Session.isActive s) (sessions st) ->
  prismaPromptSubmission.findUnique pid st = Some parent ->
  PromptSubmission.sessionId parent = sid ->
  PromptSubmission.studentId parent = Some stu ->
  truthy (PromptSubmission.imageData parent) = true ->
  chainsConsistent st ->
  let root := default (PromptSubmission.id parent) (PromptSubmission.rootSubmissionId parent) in
  let count := specChainCount root st in
  let run := runHandler (POST (mkCookies (Some sid) (Some "student") (Some stu)) (Some json)
                           remote newId created) st in
  (3 <= count ->
   run = (JsonError 400 "This image has no refinements remaining.", st))
  /\ (count < 3 ->
      newId ∉ PromptSubmission.id <$> promptSubmissions st ->
      stu ∈ Student.id <$> students st ->
      exists row,
        run.2 = appended st row
        /\ PromptSubmission.id row = newId
        /\ PromptSubmission.revisionIndex row = count
        /\ PromptSubmission.rootSubmissionId row = Some root
        /\ PromptSubmission.parentSubmissionId row = Some pid
        /\ (run.1 = Json200 (replyOf row) \/ exists message, run.1 = JsonError 502 message)).
Proof.
  intros Hsid Hstu Hpid Hbody Hactive Hfind Hsession Hstudent Himage Hok root count run.
  subst run. rewrite (generate_run sid stu json prompt (Some pid)) by done.
  cbn [truthy default from_option Datatypes.id]. rewrite bool_decide_eq_true_2 by done.
  rewrite (lineage_eval sid stu pid st parent) by done.
  unfold Images.rootOf. fold root. fold count. split.
  - intros Hfull. by rewrite bool_decide_eq_true_2.
  - intros Hroom Hfresh Hstudentrow. rewrite bool_decide_eq_false_2 by lia.
    cbn zeta. unfold prismaPromptSubmission.create, pendingRow. cbn.
    rewrite (proj2 (hasId_false _ _ _)) by done.
    assert (hasId Session.id sid (sessions st) = true) as ->.
    { apply hasId_true. apply Exists_exists in Hactive as (s & Hs & <- & _).
      by apply list_elem_of_fmap_2. }
    rewrite (proj2 (hasId_true _ _ _) Hstudentrow).
    pose proof Hfind as [Hin Hparentid]%findUnique_Some.
    assert (hasId PromptSubmission.id root (promptSubmissions st) = true) as ->.
    { apply hasId_true. destruct Hok as [Hnodup Hroots].
      pose proof (root_row_stored _ _ (conj Hnodup Hroots) Hin) as Hrootrow.
      apply Exists_exists in Hrootrow as (p & Hp & Hpid' & _).
      unfold Images.rootOf in Hpid'. fold root in Hpid'. rewrite <- Hpid'.
      by apply list_elem_of_fmap_2. }
    assert (hasId PromptSubmission.id pid (promptSubmissions st) = true) as ->.
    { apply hasId_true. rewrite <- Hparentid. by apply list_elem_of_fmap_2. }
    cbn. destruct (remote _ _) as [message|[imageData mimeType]]; eexists; cbn.
    + repeat (split; [done|]). right. by eexists.
    + repeat (split; [done|]). by left.
Qed.

(** C4. Amended to a parentSubmissionId that is not the empty string:
    a createSubmission call that supplies a non-empty parentSubmissionId
    (which is what the handler's test takes as supplied) fails with 404 when no submission with that id is stored in the caller's
    session, with 403 when the parent is in the session but not owned by
    the caller's student identity, and with 422 when the parent is owned
    by the caller but has no image data; in all three cases the store is
    left as it was. *)
Theorem refinement_parent_checks sid stu json prompt pid remote newId created st :
  sid <> "" -> stu <> "" -> pid <> "" ->
  bodySchema json = inr (mkBody prompt (Some pid)) ->
  Exists (fun s => Session.id s = sid /\ Session.isActive s) (sessions st) ->
  let run := runHandler (POST (mkCookies (Some sid) (Some "student") (Some stu)) (Some json)
                           remote newId created) st in
  (~ Exists (fun s => PromptSubmission.id s = pid /\ PromptSubmission.sessionId s = sid)
            (promptSubmissions st) ->
   run = (JsonError 404 "Original image not found for this session.", st))
  /\ (forall parent,
        prismaPromptSubmission.findUnique pid st = Some parent ->
        PromptSubmission.sessionId parent = sid ->
        PromptSubmission.studentId parent <> Some stu ->
        run = (JsonError 403 "You can only refine images you created.", st))
  /\ (forall parent,
        prismaPromptSubmission.findUnique pid st = Some parent ->
        PromptSubmission.sessionId parent = sid ->
        PromptSubmission.studentId parent = Some stu ->
        truthy (PromptSubmission.imageData parent) = false ->
        run = (JsonError 422 "Original image data is unavailable for refinement.", st)).
Proof.
  intros Hsid Hstu Hpid Hbody Hactive run.
  subst run. rewrite (generate_run sid stu json prompt (Some pid)) by done.
  cbn [truthy default from_option Datatypes.id]. rewrite bool_decide_eq_true_2 by done.
  unfold lineage. split; [|split].
  - intros Hnone.
    destruct (prismaPromptSubmission.findUnique pid st) as [parent|] eqn:Hfind; [|done].
    apply findUnique_Some in Hfind as [Hin Hid].
    rewrite bool_decide_eq_false_2; [done|]. intros Hsession.
    apply Hnone, Exists_exists. by exists parent.
  - intros parent -> Hsession Hother.
    rewrite bool_decide_eq_true_2 by done. by rewrite bool_decide_eq_false_2.
  - intros parent -> Hsession Hstudent Himage.
    rewrite !bool_decide_eq_true_2 by done. by rewrite Himage.
Qed.

(** C8. When the remote generation call fails after the submission row
    was inserted, the row is updated to status ERROR with the provider's
    error message, the caller gets status 502 with that message, and the
    row stays in the store. *)
Theorem generation_failure_recorded sid stu json prompt parentOpt chain message
    remote newId created st :
  sid <> "" -> stu <> "" ->
  bodySchema json = inr (mkBody prompt parentOpt) ->
  Exists (fun s => Session.id s = sid /\ Session.isActive s) (sessions st) ->
  (if truthy parentOpt then lineage sid stu (default "" parentOpt) st
   else inr (mkLineage None 0 None)) = inr chain ->
  let row := pendingRow newId sid prompt created stu parentOpt chain in
  (prismaPromptSubmission.create row st).1 = inr row ->
  remote prompt (baseImageDataUrl chain) = inl message ->
  exists row',
    runHandler (POST (mkCookies (Some sid) (Some "student") (Some stu)) (Some json)
                  remote newId created) st
    = (JsonError 502 message, appended st row')
    /\ row' ∈ promptSubmissions (appended st row')
    /\ PromptSubmission.id row' = newId
    /\ PromptSubmission.status row' = ERROR
    /\ PromptSubmission.errorMessage row' = Some message.
Proof.
  intros Hsid Hstu Hbody Hactive Hchain row Hcreate Hremote.
  rewrite (generate_run sid stu json prompt parentOpt) by done.
  rewrite Hchain. cbn zeta. fold row.
  destruct (prismaPromptSubmission.create row st) as [[e|created'] st1]; [done|].
  rewrite Hremote. exists (markError message row).
  split; [done|]. split; [|done]. cbn. set_solver.
Qed.
End GenerateRun.

(** ** Sharing, listing and chat *)

Section Sharing.
Context `{Libraries}.

(** C6. setShared succeeds only for a caller with the student role on a
    submission of the caller's session, owned by the caller's student
    identity, with status SUCCESS.  On another student's submission it
    fails with 403, on an owned submission that is not SUCCESS with 400;
    both leave the store, and so the isShared flag, as they were. *)
Theorem share_only_own_completed cookies body st :
  let run := runHandler (ImagesShare.POST cookies body) st in
  (forall reply st', run = (Json200 reply, st') ->
     role cookies = Some "student"
     /\ exists submission,
          prismaPromptSubmission.findUnique (ImagesShare.replySubmissionId reply) st
          = Some submission
          /\ Some (PromptSubmission.sessionId submission) = sessionId cookies
          /\ PromptSubmission.studentId submission = studentId cookies
          /\ truthy (studentId cookies) = true
          /\ PromptSubmission.status submission = SUCCESS)
  /\ (forall sid stu json submissionId share submission,
        cookies = mkCookies (Some sid) (Some "student") (Some stu) ->
        sid <> "" -> stu <> "" ->
        body = Some json ->
        ImagesShare.bodySchema json = inr (ImagesShare.mkBody submissionId share) ->
        prismaPromptSubmission.findUnique submissionId st = Some submission ->
        (PromptSubmission.studentId submission <> Some stu ->
         run = (JsonError 403 "You can only manage sharing for your own images.", st))
        /\ (PromptSubmission.sessionId submission = sid ->
            PromptSubmission.studentId submission = Some stu ->
            PromptSubmission.status submission <> SUCCESS ->
            run = (JsonError 400 "Only completed images can be shared.", st))).
Proof.
  intros run. subst run. split.
  - unfold ImagesShare.POST. run_handler. run_prisma. intros reply st' Hrun.
    all_branches.
    repeat match goal with
           | Hb : _ || _ = false |- _ => apply orb_false_iff in Hb as [? ?]
           | Hb : negb _ = false |- _ => apply negb_false_iff in Hb
           | Hb : bool_decide _ = true |- _ => apply bool_decide_eq_true in Hb
           end.
    split; [done|].
    match goal with
    | Hf : prismaPromptSubmission.findUnique (ImagesShare.submissionId _) _ = Some _ |- _ =>
        pose proof Hf as [_ Hid]%findUnique_Some
    end.
    match goal with
    | Hf' : prismaPromptSubmission.findUnique (PromptSubmission.id _) _ = Some _ |- _ =>
        rewrite Hid in Hf'
    end.
    simplify_eq. eexists. cbn. rewrite Hid. done.
  - intros sid stu json submissionId share submission -> Hsid Hstu -> Hbody Hfind.
    unfold ImagesShare.POST. run_handler. cbn.
    rewrite !bool_decide_eq_true_2 by done. cbn. rewrite Hbody. cbn. rewrite Hfind.
    split.
    + intros Hother. rewrite (bool_decide_eq_false_2 (_ = Some stu)) by done.
      by rewrite orb_true_r.
    + intros Hsession Hown Hpending. rewrite Hsession, Hown.
      rewrite !bool_decide_eq_true_2 by done. cbn. by rewrite bool_decide_eq_false_2.
Qed.

(** C9. Without a session id, or with one that matches no active
    session, listSubmissions answers 200 with an empty list of
    submissions, not an authentication error. *)
Theorem list_without_active_session cookies st :
  truthy (sessionId cookies) = false
  \/ ~ Exists (fun s => Some (Session.id s) = sessionId cookies /\ Session.isActive s)
              (sessions st) ->
  runHandler (Images.GET cookies) st = (Json200 (Images.mkReply [] None), st)
  /\ statusOf (runHandler (Images.GET cookies) st).1 = 200.
Proof.
  intros Hcase.
  assert (runHandler (Images.GET cookies) st = (Json200 (Images.mkReply [] None), st))
    as ->; [|done].
  unfold Images.GET, prismaSession.findUnique. run_handler.
  destruct (truthy (sessionId cookies)) eqn:Htruthy; [|done].
  destruct Hcase as [|Hnone]; [done|]. cbn.
  destruct (List.find _ _) as [s|] eqn:Hfind; [|done].
  apply List.find_some in Hfind as [Hin [Hid Hact]%andb_true_iff].
  destruct Hnone. apply Exists_exists. exists s. split; [by apply list_elem_of_In|].
  apply bool_decide_eq_true in Hid.
  destruct (sessionId cookies) as [sid|]; [|done]. cbn in Hid. by rewrite Hid, Hact.
Qed.

End Sharing.

Section Chat.
Context `{Libraries}.

(** C7. createThread needs the student role (403 otherwise).  With five
    or more threads of the (session, student) pair it fails with 400,
    "You have reached the chat limit for this session.", and stores
    nothing; with fewer it succeeds and adds one thread, so the fifth
    create succeeds and the sixth fails.  Without a title the thread is
    called "Conversation n" for n one more than the prior count. *)
Theorem thread_limit cookies body newId created st :
  let run := runHandler (ChatThreads.POST cookies body newId created) st in
  (role cookies <> Some "student" -> run = (JsonError 403 "Student access required.", st))
  /\ (forall sid stu title,
        cookies = mkCookies (Some sid) (Some "student") (Some stu) ->
        sid <> "" -> stu <> "" ->
        ChatThreads.createSchema (default (JObject []) body) = inr title ->
        let count := threadsOf sid stu st in
        (5 <= count ->
         run = (JsonError 400 "You have reached the chat limit for this session.", st))
        /\ (count < 5 ->
            newId ∉ ChatThread.id <$> chatThreads st ->
            sid ∈ Session.id <$> sessions st ->
            stu ∈ Student.id <$> students st ->
            let threadTitle :=
              if truthy title then default "" title
              else "Conversation " +:+ pretty (count + 1) in
            let thread := ChatThread.mk newId threadTitle created created sid stu in
            run = (Json200 (ChatThreads.mkReply newId threadTitle created created None 0 5),
                   withThread st thread)
            /\ threadsOf sid stu (withThread st thread) = count + 1
            /\ (title = None -> ChatThread.title thread = "Conversation " +:+ pretty (count + 1)))).
Proof.
  intros run. subst run. split.
  - intros Hrole. unfold ChatThreads.POST. run_handler. cbn.
    rewrite (bool_decide_eq_false_2 (role cookies = _)) by done. cbn.
    by rewrite orb_true_r.
  - intros sid stu title -> Hsid Hstu Hbody count. split.
    + intros Hfull. unfold ChatThreads.POST. run_handler. cbn.
      rewrite !bool_decide_eq_true_2 by done. cbn. rewrite Hbody. cbn.
      fold (threadsOf sid stu st). fold count.
      unfold ChatThreads.MAX_THREADS_PER_STUDENT. by rewrite bool_decide_eq_true_2.
    + intros Hroom Hfresh Hsession Hstudent threadTitle thread.
      unfold ChatThreads.POST. run_handler. cbn.
      rewrite !bool_decide_eq_true_2 by done. cbn. rewrite Hbody. cbn.
      fold (threadsOf sid stu st). fold count.
      unfold ChatThreads.MAX_THREADS_PER_STUDENT.
      rewrite bool_decide_eq_false_2 by lia. fold threadTitle.
      unfold prismaChatThread.create. cbn.
      rewrite (proj2 (hasId_false _ _ _) Hfresh).
      rewrite (proj2 (hasId_true _ _ _) Hsession), (proj2 (hasId_true _ _ _) Hstudent). cbn.
      split; [done|]. split.
      * unfold threadsOf, prismaChatThread.count, withThread. cbn.
        rewrite List.filter_app, length_app. cbn.
        rewrite !bool_decide_eq_true_2 by done. cbn. done.
      * subst threadTitle. intros ->. done.
Qed.

(** C5. When the remote chat call fails after the student's message was
    stored, the error's message comes back to the caller (status 500),
    the student's message stays stored and no AI message is stored:
    nothing is rolled back. *)
Theorem chat_failure_keeps_student_message sid stu threadId json content thread message
    remote studentMsgId studentMsgAt aiMsgId aiMsgAt now st :
  sid <> "" -> stu <> "" ->
  prismaChatThread.findUnique threadId st = Some thread ->
  ChatThread.sessionId thread = sid ->
  ChatThread.studentId thread = stu ->
  ChatMessages.messageSchema json = inr content ->
  let studentMessage :=
    ChatMessage.mk studentMsgId content STUDENT studentMsgAt threadId (Some stu) in
  (prismaChatMessage.create studentMessage st).1 = inr studentMessage ->
  let history :=
    rev (prismaChatMessage.findMany (fun m => bool_decide (ChatMessage.threadId m = threadId))
           ChatMessages.MAX_HISTORY_MESSAGES (withMessage st studentMessage)) in
  remote ((fun m => (ChatMessage.sender m, ChatMessage.content m)) <$> history) = inl message ->
  let run := runHandler (ChatMessages.POST (mkCookies (Some sid) (Some "student") (Some stu))
                           threadId (Some json) remote studentMsgId studentMsgAt
                           aiMsgId aiMsgAt now) st in
  run = (JsonError 500 message, withMessage st studentMessage)
  /\ studentMessage ∈ chatMessages run.2
  /\ Forall (fun m => m ∈ chatMessages st \/ ChatMessage.sender m = STUDENT)
            (chatMessages run.2).
Proof.
  intros Hsid Hstu Hthread Hsession Hstudent Hbody studentMessage Hcreate history Hremote run.
  assert (run = (JsonError 500 message, withMessage st studentMessage)) as ->.
  { subst run. unfold ChatMessages.POST. run_handler. cbn.
    rewrite !bool_decide_eq_true_2 by done. cbn.
    rewrite Hthread, Hsession, Hstudent. rewrite !bool_decide_eq_true_2 by done. cbn.
    rewrite Hbody. cbn. fold studentMessage.
    revert Hcreate. unfold prismaChatMessage.create. cbn.
    destruct (hasId ChatMessage.id studentMsgId (chatMessages st)); [done|].
    destruct (negb _); [done|]. intros _. cbn.
    subst history. unfold prismaChatMessage.findMany, withMessage in Hremote.
    cbn in Hremote. rewrite Hremote. done. }
  split; [done|]. cbn. split; [set_solver|].
  apply Forall_app. split.
  - apply Forall_forall. by left.
  - constructor; [by right | constructor].
Qed.

End Chat.

(** ** Runs of the credential generator *)

Section CredentialRuns.
Context `{Libraries}.
Import TeacherStudentsGenerate.

Lemma createStudents_total sid salts ids created plan :
  forall i used creds st extra,
    planOk used plan ->
    covers sid used st ->
    sid ∈ Session.id <$> sessions st ->
    NoDup ((Student.id <$> students st) ++ (ids <$> seq i (length plan))) ->
    exists creds' st',
      createStudents sid (length plan) i used (tapeOf plan ++ extra) salts ids created creds st
      = Some (inr creds', st').
Proof.
  induction plan as [|t rest IH]; intros i used creds st extra Hplan Hcov Hsession Hids.
  - cbn. eauto.
  - destruct Hplan as (Hrejected & Hnew & Hrest). cbn [length tapeOf List.flat_map].
    rewrite <- !app_assoc. cbn [app createStudents].
    rewrite (drawUsername_skip _ _ _ _ Hrejected Hnew).
    unfold prismaStudent.create. cbn.
    cbn [seq fmap list_fmap] in Hids. 
    assert (ids i ∉ Student.id <$> students st) as Hfresh.
    { apply NoDup_app in Hids as (_ & Hdisj & _). intros Hin.
      apply (Hdisj _ Hin). cbn. left. }
    rewrite (proj2 (hasId_false _ _ _) Hfresh), (proj2 (hasId_true _ _ _) Hsession). cbn.
    assert (existsb (fun s => bool_decide (Student.sessionId s = sid)
                              && bool_decide (Student.username s = randomCode (accepted t)))
                    (students st) = false) as ->.
    { apply not_true_is_false. intros (s & Hin & Hs)%List.existsb_exists.
      apply andb_true_iff in Hs as [Hsid%bool_decide_eq_true Hname%bool_decide_eq_true].
      apply Hnew. rewrite <- Hname. apply Hcov; [by apply list_elem_of_In | done]. }
    apply IH; [done| | done |].
    + intros s Hs Hsid. cbn in Hs. apply elem_of_app in Hs as [Hs|Hs].
      * apply elem_of_union_r. by apply Hcov.
      * apply list_elem_of_singleton in Hs as ->. cbn.
        by apply elem_of_union_l, elem_of_singleton.
    + cbn. rewrite fmap_app, <- app_assoc. exact Hids.
Qed.


Lemma drawUsername_inv used tape u tape' :
  drawUsername used tape = Some (u, tape') ->
  exists junk bytes,
    tape = junk ++ bytes :: tape'
    /\ Forall (fun b => toLowerCase (randomCode b) ∈ used) junk
    /\ u = randomCode bytes
    /\ toLowerCase u ∉ used.
Proof.
  induction tape as [|b tape IH]; [done|]. cbn. case_bool_decide as Hused.
  - intros (junk & bytes & -> & Hjunk & -> & Hnew)%IH.
    exists (b :: junk), bytes. split; [done|]. split; [by constructor|done].
  - intros [= <- <-]. exists [], b. split; [done|]. split; [constructor|done].
Qed.

(** Every run of the loop that ends without a database error was driven
    by a plan. *)
Lemma createStudents_driven sid salts ids created n :
  forall i used tape creds st creds' st',
    createStudents sid n i used tape salts ids created creds st = Some (inr creds', st') ->
    exists plan extra,
      tape = tapeOf plan ++ extra /\ length plan = n /\ planOk used plan.
Proof.
  induction n as [|n IH]; intros i used tape creds st creds' st' Hrun.
  - exists [], tape. by repeat split.
  - cbn in Hrun.
    destruct (drawUsername used tape) as [[u tape1]|] eqn:Hdraw; [|done].
    apply drawUsername_inv in Hdraw as (junk & bytes & -> & Hjunk & -> & Hnew).
    destruct tape1 as [|pbytes tape2]; [done|].
    destruct (prismaStudent.create _ st) as [[e|row] st1]; [done|].
    apply IH in Hrun as (plan & extra & -> & <- & Hplan).
    exists (mkTurn junk bytes pbytes :: plan), extra.
    split; [cbn; by rewrite <- !app_assoc|]. split; [done|]. by repeat split.
Qed.

(** C10. Teacher credential generation, asked for a count between 1 and
    50, creates exactly that many students of the session whenever the
    random source lets each retry loop end (a run ends exactly when a
    plan of rejected and accepted codes drives it).  Their usernames
    differ from each other and from every username already in the
    session when compared without letter case; so usernames stay
    pairwise distinct within a session, in this and in every reachable
    store. *)
Theorem generated_usernames_distinct :
  (forall sid other fields count plan extra salts ids created st,
     sid <> "" ->
     field "count" (JObject fields) = Some (JInt (Z.of_nat count)) ->
     1 <= count <= 50 ->
     length plan = count ->
     planOk (sessionUsernames sid st) plan ->
     sid ∈ Session.id <$> sessions st ->
     NoDup ((Student.id <$> students st) ++ (ids <$> seq 0 count)) ->
     usernamesDistinct st ->
     exists credentials news,
       POST (mkCookies (Some sid) (Some "teacher") other) (Some (JObject fields))
            (tapeOf plan ++ extra) salts ids created st
       = Some (Json200 credentials, withStudents st news)
       /\ length news = count
       /\ username <$> credentials = Student.username <$> news
       /\ Forall (fun s => Student.sessionId s = sid) news
       /\ NoDup ((fun s => toLowerCase (Student.username s)) <$> news)
       /\ Forall (fun s => forall old, old ∈ students st -> Student.sessionId old = sid ->
                           toLowerCase (Student.username old) <> toLowerCase (Student.username s))
                 news
       /\ usernamesDistinct (withStudents st news))
  /\ (forall st, reachable st -> usernamesDistinct st).
Proof.
  split.
  - intros sid other fields count plan extra salts ids created st
      Hsid Hfield Hrange Hlen Hplan Hsession Hids Hdistinct.
    pose proof (usedUsernames_covers sid st) as Hcov. fold (sessionUsernames sid st) in Hcov.
    rewrite <- Hlen in Hids.
    destruct (createStudents_total sid salts ids created plan 0 _ [] st extra
                Hplan Hcov Hsession Hids) as (credentials & st' & Hrun).
    rewrite Hlen in Hrun.
    pose proof (createStudents_spec _ _ _ _ _ _ _ _ _ _ _ _ Hrun)
      as (news & -> & Hnews & Hall & Hnodup & Hcreds).
    exists credentials, news. split.
    { unfold POST, transaction, bodySchema. rewrite Hfield. run_handler.
      cbn [sessionId role truthy negb orb default from_option Datatypes.id].
      rewrite !bool_decide_eq_true_2 by done.
      rewrite !bool_decide_eq_false_2 by lia. rewrite Nat2Z.id.
      fold (sessionUsernames sid st). cbn [negb orb]. by rewrite Hrun. }
    split; [done|]. split; [done|].
    split; [eapply Forall_impl; [exact Hall|]; by intros s [? _]|].
    split; [done|]. split.
    + eapply Forall_impl; [exact Hall|]. intros s [_ Hnot] old Hold Hsid' Heq.
      apply Hnot. rewrite <- Heq. by apply Hcov.
    + by eapply usernamesDistinct_app.
  - intros st Hst. by apply reachable_storeOk in Hst as (_ & ? & _).
Qed.

End CredentialRuns.

(** ** What the listing counts *)

Section Listing.
Import Images.

Lemma countSuccess_lookup r rows : forall m : gmap string nat,
  foldl countSuccess m rows !! r
  = match m !! r, length (List.filter (successOf r) rows) with
    | None, 0 => None
    | c, n => Some (default 0 c + n)
    end.
Proof.
  induction rows as [|s rows IH]; intros m.
  - cbn [foldl List.filter length]. destruct (m !! r); cbn [default from_option Datatypes.id]; [f_equal; lia|done].
  - cbn [foldl List.filter]. rewrite IH. unfold countSuccess.
    destruct (bool_decide (PromptSubmission.status s = SUCCESS)) eqn:Hstatus; cbn [negb].
    + destruct (bool_decide (rootOf s = r)) eqn:Hroot.
      * assert (successOf r s = true) as -> by (unfold successOf; by rewrite Hstatus, Hroot).
        apply bool_decide_eq_true in Hroot. rewrite Hroot, lookup_insert_eq. cbn [length].
        destruct (m !! r), (length _); cbn [default from_option Datatypes.id];
          f_equal; lia.
      * assert (successOf r s = false) as -> by (unfold successOf; by rewrite Hstatus, Hroot).
        apply bool_decide_eq_false in Hroot. by rewrite lookup_insert_ne.
    + by assert (successOf r s = false) as -> by (unfold successOf; by rewrite Hstatus).
Qed.

Lemma length_filter_Permutation {A} (f : A -> bool) (l l' : list A) :
  l ≡ₚ l' -> length (List.filter f l) = length (List.filter f l').
Proof.
  induction 1 as [|x l l' _ IH|x y l|l l' l'' _ IH _ IH']; cbn.
  - done.
  - destruct (f x); cbn; by rewrite IH.
  - destruct (f x), (f y); done.
  - by rewrite IH.
Qed.

(** The helper of lib/session annotates with the chain's SUCCESS count. *)
Lemma getSubmissionWithRemainingEdits_chain submissionId st submission remaining :
  getSubmissionWithRemainingEdits submissionId st = Some (submission, remaining) ->
  remaining = Z.max 0 (3 - Z.of_nat (specSuccessCount (rootOf submission) st)).
Proof.
  unfold getSubmissionWithRemainingEdits.
  destruct (prismaPromptSubmission.findUnique submissionId st) as [found|]; [|done].
  intros [= <- <-]. unfold prismaPromptSubmission.count, specSuccessCount, specChain.
  by rewrite filter_filter_and.
Qed.

(** What the listing computes for every caller: three less the number of
    SUCCESS rows of the same root among the rows shown to the caller. *)
Lemma listing_counts_visible cookies st reply st' :
  runHandler (GET cookies) st = (Json200 reply, st') ->
  let sid := default "" (sessionId cookies) in
  Forall (fun e =>
            submission e ∈ promptSubmissions st
            /\ visible sid (role cookies) (studentId cookies) (submission e) = true
            /\ rootId e = rootOf (submission e)
            /\ remainingEdits e
               = Z.max 0 (3 - Z.of_nat (visibleSuccessCount sid (role cookies) (studentId cookies)
                                          (rootOf (submission e)) st)))
         (submissions reply).
Proof.
  intros Hrun sid. revert Hrun. unfold GET, prismaSession.findUnique. run_handler.
  destruct (truthy (sessionId cookies)); cbn [negb]; [|intros [= <- <-]; constructor].
  fold sid. destruct (List.find _ _); intros [= <- <-]; [|constructor]. cbn [submissions]. rewrite Forall_fmap. apply Forall_forall. intros s Hs.
  unfold prismaPromptSubmission.findMany, orderByCreatedAtDesc in *.
  set (shown := List.filter (visible sid (role cookies) (studentId cookies))
                            (promptSubmissions st)) in *.
  assert (s ∈ shown) as Hshown
    by (by rewrite <- (merge_sort_Permutation (newerFirst PromptSubmission.createdAt) shown)).
  apply list_elem_of_In, List.filter_In in Hshown as [Hin%list_elem_of_In Hvisible].
  split; [done|]. split; [done|]. split; [done|]. cbn.
  rewrite countSuccess_lookup, lookup_empty.
  rewrite (length_filter_Permutation _ _ shown) by apply merge_sort_Permutation.
  assert (length (List.filter (successOf (rootOf s)) shown)
          = visibleSuccessCount sid (role cookies) (studentId cookies) (rootOf s) st) as ->.
  { unfold shown. by rewrite filter_filter_and. }
  destruct (visibleSuccessCount _ _ _ _ _) eqn:Hcount; cbn; [|done].
  case_bool_decide as Hstatus; [|done].
  exfalso. unfold visibleSuccessCount in Hcount.
  apply length_zero_iff_nil in Hcount.
  assert (In s (List.filter (fun x => visible sid (role cookies) (studentId cookies) x
                                      && successOf (rootOf s) x) (promptSubmissions st))) as Hs'.
  { apply List.filter_In. split; [by apply list_elem_of_In|].
    rewrite Hvisible. unfold successOf. by rewrite !bool_decide_eq_true_2. }
  by rewrite Hcount in Hs'.
Qed.

(** For the teacher, and for a student on a submission of the student's
    own, the rows shown hold the whole chain: the annotation is three
    less the chain's SUCCESS count, floored at zero. *)
Lemma listing_counts_chain cookies st reply st' :
  runHandler (GET cookies) st = (Json200 reply, st') ->
  chainsConsistent st ->
  Forall (fun e =>
            role cookies = Some "teacher"
            \/ (truthy (studentId cookies) = true
                /\ PromptSubmission.studentId (submission e) = studentId cookies) ->
            remainingEdits e
            = Z.max 0 (3 - Z.of_nat (specSuccessCount (rootOf (submission e)) st)))
         (submissions reply).
Proof.
  intros Hrun Hok. eapply Forall_impl; [exact (listing_counts_visible _ _ _ _ Hrun)|].
  intros e (Hin & Hvisible & _ & ->) Hcaller. do 3 f_equal.
  unfold visibleSuccessCount, specSuccessCount, specChain.
  rewrite filter_filter_and. f_equal. apply List.filter_ext_in. intros x Hx%list_elem_of_In.
  set (s := submission e) in *. unfold successOf.
  destruct (bool_decide (PromptSubmission.status x = SUCCESS)) eqn:Hstatus;
    [|by rewrite andb_false_r, andb_false_r].
  rewrite andb_true_r. cbn [andb].
  destruct (bool_decide (PromptSubmission.id x = rootOf s)
            || bool_decide (PromptSubmission.rootSubmissionId x = Some (rootOf s)))
    eqn:Hmember.
  - assert (PromptSubmission.id x = rootOf s
            \/ PromptSubmission.rootSubmissionId x = Some (rootOf s)) as Hmember'.
    { apply orb_true_iff in Hmember as [?%bool_decide_eq_true|?%bool_decide_eq_true]; eauto. }
    destruct (chain_member_agrees st s x Hok Hin Hx Hmember') as (Hsession & Howner & Hroot).
    rewrite (bool_decide_eq_true_2 _ Hroot), andb_true_r.
    revert Hvisible. unfold visible. rewrite Hsession, Howner, Hstatus.
    destruct (bool_decide (PromptSubmission.sessionId s = _)); [|done]. cbn [andb].
    destruct Hcaller as [->|[Htruthy Hown]]; [done|].
    intros _. rewrite Htruthy, Hown, (bool_decide_eq_true_2 (studentId cookies = _)) by done.
    by rewrite !orb_true_r.
  - apply andb_false_intro2. apply bool_decide_eq_false. intros Hroot.
    apply orb_false_iff in Hmember as [Hid%bool_decide_eq_false Hnamed%bool_decide_eq_false].
    unfold rootOf in Hroot at 1.
    destruct (PromptSubmission.rootSubmissionId x) as [root|]; cbn in Hroot; congruence.
Qed.

End Listing.

(** ** The claims on the classroom *)

(** A decidable fact about concrete data, by evaluation. *)
Ltac by_evaluation := apply (bool_decide_unpack _); vm_compute; exact I.

Ltac concrete := first [done | reflexivity | by_evaluation | vm_compute; lia].

Lemma classroom_reachable : reachable (H := testLibraries) classroom.
Proof.
  unfold reachable.
  eapply rtc_l.
  { eapply (step_session_start (startBody "tulip") "salt" "csession1" 100%Z 100%Z).
    vm_compute. reflexivity. }
  eapply rtc_l.
  { eapply (step_students_generate teacherCookies (Some (JObject (countBody 2)))
              (tapeOf twoStudents) (fun _ => "salt") studentIds studentTimes).
    vm_compute. reflexivity. }
  eapply rtc_l.
  { eapply (step_images_generate cookiesA (Some (promptBody "a red kite" None)) remoteOk
              "cimage1" 120%Z).
    vm_compute. reflexivity. }
  eapply rtc_l.
  { eapply (step_images_generate cookiesA
              (Some (promptBody "make the kite blue" (Some "cimage1"))) remoteOk
              "cimage2" 130%Z).
    vm_compute. reflexivity. }
  eapply rtc_once.
  eapply (step_images_share cookiesA (Some (shareBody "cimage1" true))).
  vm_compute. reflexivity.
Qed.

Lemma refinement_counts_chain_witness :
  specChainCount "cimage1" classroom = 2
  /\ (exists row,
        (runHandler (ImagesGenerate.POST (H := testLibraries) cookiesA
                       (Some (promptBody "add a long tail" (Some "cimage2"))) remoteOk
                       "cimage3" 140%Z) classroom).2 = appended classroom row
        /\ PromptSubmission.id row = "cimage3"
        /\ PromptSubmission.revisionIndex row = 2
        /\ PromptSubmission.rootSubmissionId row = Some "cimage1"
        /\ PromptSubmission.parentSubmissionId row = Some "cimage2"
        /\ ((runHandler (ImagesGenerate.POST (H := testLibraries) cookiesA
                           (Some (promptBody "add a long tail" (Some "cimage2"))) remoteOk
                           "cimage3" 140%Z) classroom).1 = Json200 (ImagesGenerate.replyOf row)
            \/ exists message,
                 (runHandler (ImagesGenerate.POST (H := testLibraries) cookiesA
                                (Some (promptBody "add a long tail" (Some "cimage2"))) remoteOk
                                "cimage3" 140%Z) classroom).1 = JsonError 502 message))
  /\ runHandler (ImagesGenerate.POST (H := testLibraries) cookiesA
                   (Some (promptBody "and a sun" (Some "cimage3"))) remoteOk
                   "cimage5" 160%Z) classroomFull
     = (JsonError 400 "This image has no refinements remaining.", classroomFull).
Proof.
  split; [reflexivity|]. split.
  - refine (proj2 (refinement_counts_chain (H := testLibraries)
              "csession1" "cstudent0" (promptBody "add a long tail" (Some "cimage2"))
              "add a long tail" "cimage2" blueKite remoteOk "cimage3" 140%Z classroom
              _ _ _ _ _ _ _ _ _ _) _ _ _); concrete.
  - refine (proj1 (refinement_counts_chain (H := testLibraries)
              "csession1" "cstudent0" (promptBody "and a sun" (Some "cimage3"))
              "and a sun" "cimage3" tailedKite remoteOk "cimage5" 160%Z classroomFull
              _ _ _ _ _ _ _ _ _ _) _); concrete.
Defined.

Lemma refinement_parent_checks_witness :
  runHandler (ImagesGenerate.POST (H := testLibraries) cookiesA
                (Some (promptBody "add a long tail" (Some "cmissing"))) remoteOk
                "cimage3" 140%Z) classroom
  = (JsonError 404 "Original image not found for this session.", classroom)
  /\ runHandler (ImagesGenerate.POST (H := testLibraries) cookiesB
                   (Some (promptBody "add a long tail" (Some "cimage1"))) remoteOk
                   "cimage3" 140%Z) classroom
     = (JsonError 403 "You can only refine images you created.", classroom)
  /\ runHandler (ImagesGenerate.POST (H := testLibraries) cookiesA
                   (Some (promptBody "make the boat red" (Some "cimage4"))) remoteOk
                   "cimage5" 160%Z) classroomWithError
     = (JsonError 422 "Original image data is unavailable for refinement.", classroomWithError).
Proof.
  split; [|split].
  - refine (proj1 (refinement_parent_checks (H := testLibraries)
              "csession1" "cstudent0" (promptBody "add a long tail" (Some "cmissing"))
              "add a long tail" "cmissing" remoteOk "cimage3" 140%Z classroom
              _ _ _ _ _) _); concrete.
  - refine (proj1 (proj2 (refinement_parent_checks (H := testLibraries)
              "csession1" "cstudent1" (promptBody "add a long tail" (Some "cimage1"))
              "add a long tail" "cimage1" remoteOk "cimage3" 140%Z classroom
              _ _ _ _ _)) kite _ _ _); concrete.
  - refine (proj2 (proj2 (refinement_parent_checks (H := testLibraries)
              "csession1" "cstudent0" (promptBody "make the boat red" (Some "cimage4"))
              "make the boat red" "cimage4" remoteOk "cimage5" 160%Z classroomWithError
              _ _ _ _ _)) boat _ _ _ _); concrete.
Defined.

(** C4 as stated fails for a supplied parentSubmissionId that is the
    empty string: the schema accepts it, no submission has that id, and
    yet the answer is not 404.  The handler's test [if
    (parentSubmissionId)] takes the empty string as no parent and skips
    the three checks; the insertion then carries the empty id as parent
    and is refused by the database, which the handler answers with 500. *)
Lemma empty_parent_id_is_not_checked :
  let json := promptBody "make the kite blue" (Some "") in
  let run := runHandler (ImagesGenerate.POST (H := testLibraries) cookiesA (Some json) remoteOk
                           "cimage9" 400%Z) classroom in
  ImagesGenerate.bodySchema (H := testLibraries) json
  = inr (ImagesGenerate.mkBody "make the kite blue" (Some ""))
  /\ prismaPromptSubmission.findUnique "" classroom = None
  /\ run = (JsonError 500 "Unable to generate image", classroom)
  /\ run <> (JsonError 404 "Original image not found for this session.", classroom).
Proof.
  split; [reflexivity|]. split; [reflexivity|]. split; [by vm_compute|].
  vm_compute. discriminate.
Defined.

Lemma generation_failure_recorded_witness :
  exists row,
    runHandler (ImagesGenerate.POST (H := testLibraries) cookiesA
                  (Some (promptBody "a green boat" None)) remoteDown "cimage4" 150%Z) classroom
    = (JsonError 502 "Provider returned error", appended classroom row)
    /\ row ∈ promptSubmissions (appended classroom row)
    /\ PromptSubmission.id row = "cimage4"
    /\ PromptSubmission.status row = ERROR
    /\ PromptSubmission.errorMessage row = Some "Provider returned error".
Proof.
  refine (generation_failure_recorded (H := testLibraries)
            "csession1" "cstudent0" (promptBody "a green boat" None) "a green boat" None
            (ImagesGenerate.mkLineage None 0 None) "Provider returned error"
            remoteDown "cimage4" 150%Z classroom _ _ _ _ _ _ _); concrete.
Defined.

Lemma chat_failure_keeps_student_message_witness :
  let run := runHandler (ChatMessages.POST (H := testLibraries) cookiesA "cthread1"
                           (Some (JObject [("content", JString " What is a kite? ")]))
                           chatDown "cmessage1" 300%Z "cmessage2" 301%Z 302%Z)
                        (classroomWithThreads 1) in
  run = (JsonError 500 "OpenRouter request failed",
         withMessage (classroomWithThreads 1) question)
  /\ question ∈ chatMessages run.2
  /\ Forall (fun m => m ∈ chatMessages (classroomWithThreads 1)
                      \/ ChatMessage.sender m = STUDENT)
            (chatMessages run.2).
Proof.
  refine (chat_failure_keeps_student_message (H := testLibraries)
            "csession1" "cstudent0" "cthread1"
            (JObject [("content", JString " What is a kite? ")]) "What is a kite?"
            firstThread "OpenRouter request failed" chatDown
            "cmessage1" 300%Z "cmessage2" 301%Z 302%Z (classroomWithThreads 1)
            _ _ _ _ _ _ _ _); concrete.
Defined.

Lemma share_only_own_completed_witness :
  (role cookiesA = Some "student"
   /\ exists submission,
        prismaPromptSubmission.findUnique "cimage1" classroomWithRefinement = Some submission
        /\ Some (PromptSubmission.sessionId submission) = sessionId cookiesA
        /\ PromptSubmission.studentId submission = studentId cookiesA
        /\ truthy (studentId cookiesA) = true
        /\ PromptSubmission.status submission = SUCCESS)
  /\ runHandler (ImagesShare.POST (H := testLibraries) cookiesB
                   (Some (shareBody "cimage2" true))) classroom
     = (JsonError 403 "You can only manage sharing for your own images.", classroom)
  /\ runHandler (ImagesShare.POST (H := testLibraries) cookiesA
                     (Some (shareBody "cimage4" true))) classroomWithError
     = (JsonError 400 "Only completed images can be shared.", classroomWithError).
Proof.
  split; [|split].
  - refine (proj1 (share_only_own_completed (H := testLibraries) cookiesA
              (Some (shareBody "cimage1" true)) classroomWithRefinement)
              (ImagesShare.mkReply "cimage1" true) classroom _); concrete.
  - refine (proj1 (proj2 (share_only_own_completed (H := testLibraries) cookiesB
              (Some (shareBody "cimage2" true)) classroom)
              "csession1" "cstudent1" (shareBody "cimage2" true) "cimage2" true blueKite
              _ _ _ _ _ _) _); concrete.
  - refine (proj2 (proj2 (share_only_own_completed (H := testLibraries) cookiesA
              (Some (shareBody "cimage4" true)) classroomWithError)
              "csession1" "cstudent0" (shareBody "cimage4" true) "cimage4" true boat
              _ _ _ _ _ _) _ _ _); concrete.
Defined.

Lemma thread_limit_witness :
  (runHandler (ChatThreads.POST (H := testLibraries) cookiesA None "cthread5" 205%Z)
     (classroomWithThreads 4)).1
  = Json200 (ChatThreads.mkReply "cthread5" "Conversation 5" 205%Z 205%Z None 0 5)
  /\ runHandler (ChatThreads.POST (H := testLibraries) cookiesA None "cthread6" 206%Z)
       (classroomWithThreads 5)
     = (JsonError 400 "You have reached the chat limit for this session.",
        classroomWithThreads 5)
  /\ runHandler (ChatThreads.POST (H := testLibraries) teacherCookies None "cthread6" 206%Z)
       (classroomWithThreads 5)
     = (JsonError 403 "Student access required.", classroomWithThreads 5).
Proof.
  split; [|split].
  - refine (f_equal fst (proj1 (proj2 (proj2 (thread_limit (H := testLibraries) cookiesA None
              "cthread5" 205%Z (classroomWithThreads 4))
              "csession1" "cstudent0" None _ _ _ _) _ _ _ _))); concrete.
  - refine (proj1 (proj2 (thread_limit (H := testLibraries) cookiesA None
              "cthread6" 206%Z (classroomWithThreads 5))
              "csession1" "cstudent0" None _ _ _ _) _); concrete.
  - refine (proj1 (thread_limit (H := testLibraries) teacherCookies None
              "cthread6" 206%Z (classroomWithThreads 5)) _); concrete.
Defined.

Lemma list_without_active_session_witness :
  runHandler (Images.GET (mkCookies None None None)) classroom
  = (Json200 (Images.mkReply [] None), classroom)
  /\ runHandler (Images.GET teacherCookies) storeStarted2
     = (Json200 (Images.mkReply [] None), storeStarted2).
Proof.
  split.
  - refine (proj1 (list_without_active_session (mkCookies None None None) classroom _)).
    left. reflexivity.
  - refine (proj1 (list_without_active_session teacherCookies storeStarted2 _)).
    right. by_evaluation.
Defined.

Lemma generated_usernames_distinct_witness :
  exists credentials news,
    TeacherStudentsGenerate.POST (H := testLibraries) teacherCookies
      (Some (JObject (countBody 2))) (tapeOf twoStudents)
      (fun _ => "salt") studentIds studentTimes storeStarted1
    = Some (Json200 credentials, withStudents storeStarted1 news)
    /\ length news = 2
    /\ TeacherStudentsGenerate.username <$> credentials = ["ABabABd2"; "CDEcde34"].
Proof.
  destruct (proj1 (generated_usernames_distinct (H := testLibraries))
              "csession1" None (countBody 2) 2 twoStudents [] (fun _ => "salt")
              studentIds studentTimes storeStarted1)
    as (credentials & news & Hrun & Hlen & Hnames & _); try concrete.
  exists credentials, news. rewrite app_nil_r in Hrun.
  split; [exact Hrun|]. split; [exact Hlen|].
  rewrite Hnames. vm_compute in Hrun. by injection Hrun as _ <-.
Defined.

(** C3, where the listing departs from it.  remainingEdits should be
    max(0, 3 - n) for n the SUCCESS submissions of the chain, for every
    caller.  Student B lists the classroom: A's original image is
    shared, its refinement is not, both are SUCCESS.  B is shown the
    original with two edits remaining, though its chain holds two
    SUCCESS submissions, which leaves one; the teacher is shown one for
    the same row, and so does [getSubmissionWithRemainingEdits].
    ([listing_counts_chain] has the callers for whom the annotation is
    the chain's.) *)
Theorem list_counts_only_visible_successes :
  exists shown,
    (runHandler (Images.GET cookiesB) classroom).1
    = Json200 (Images.mkReply [shown] (Some "student"))
    /\ Images.submission shown = kite
    /\ Images.remainingEdits shown = 2%Z
    /\ specSuccessCount (Images.rootId shown) classroom = 2
    /\ Z.max 0 (3 - Z.of_nat (specSuccessCount (Images.rootId shown) classroom)) = 1%Z
    /\ getSubmissionWithRemainingEdits "cimage1" classroom = Some (kite, 1%Z)
    /\ exists forTeacher other,
         (runHandler (Images.GET teacherCookies) classroom).1
         = Json200 (Images.mkReply [other; forTeacher] (Some "teacher"))
         /\ Images.submission forTeacher = kite
         /\ Images.remainingEdits forTeacher = 1%Z.
Proof.
  eexists. split; [vm_compute; reflexivity|].
  repeat (split; [reflexivity|]).
  eexists _, _. split; [vm_compute; reflexivity|]. split; reflexivity.
Qed.
(** * Further properties of the handlers *)

(** ** What a run of each handler looks like *)

Section Shapes.
Context `{Libraries}.
Import ImagesGenerate.

Lemma images_generate_shape cookies body remote newId created st r st' :
  runHandler (POST cookies body remote newId created) st = (r, st') ->
  (st' = st /\ (forall reply, r <> Json200 reply) /\ (forall message, r <> JsonError 502 message))
  \/ exists sid stu prompt parentOpt chain,
       sessionId cookies = Some sid /\ studentId cookies = Some stu
       /\ (exists json, body = Some json /\ bodySchema json = inr (mkBody prompt parentOpt))
       /\ (if truthy parentOpt then lineage sid stu (default "" parentOpt) st
           else inr (mkLineage None 0 None)) = inr chain
       /\ (newId ∉ PromptSubmission.id <$> promptSubmissions st)
       /\ ((exists imageData mimeType,
              remote prompt (baseImageDataUrl chain) = inr (imageData, mimeType)
              /\ r = Json200 (replyOf (markSuccess imageData mimeType
                                         (pendingRow newId sid prompt created stu parentOpt chain)))
              /\ st' = appended st (markSuccess imageData mimeType
                                      (pendingRow newId sid prompt created stu parentOpt chain)))
           \/ (exists message,
                 remote prompt (baseImageDataUrl chain) = inl message
                 /\ r = JsonError 502 message
                 /\ st' = appended st (markError message
                                         (pendingRow newId sid prompt created stu parentOpt chain)))).
Proof.
  unfold POST. run_handler. run_prisma. intros Hrun.
  all_branches; try (by left).
  all: try match goal with
       | Hl : lineage _ _ _ _ = inl _ |- _ =>
           unfold lineage in Hl; repeat (case_match; simplify_eq /=); by left
       end.
  all: right.
  all: match goal with Hf : hasId PromptSubmission.id _ _ = false |- _ =>
         apply hasId_false in Hf end.
  all: try match goal with
       | Hf : prismaPromptSubmission.findUnique ?i _ = None |- _ =>
           unfold prismaPromptSubmission.findUnique in Hf; cbn in Hf;
           rewrite findUnique_appended in Hf by done; discriminate
       end.
  all: match goal with
       | Hf : prismaPromptSubmission.findUnique ?i _ = Some _ |- _ =>
           unfold prismaPromptSubmission.findUnique in Hf; cbn in Hf;
           rewrite findUnique_appended in Hf by done; simplify_eq
       end.
  all: rewrite ?update_appended by done.
  all: repeat match goal with
         | Hb : _ || _ = false |- _ => apply orb_false_iff in Hb as [? ?]
         | Hb : negb _ = false |- _ => apply negb_false_iff in Hb
         end.
  all: destruct cookies as [[sid|] role [stu|]]; simplify_eq /=.
  all: match goal with Hb : bodySchema ?json = inr ?b |- _ =>
         exists sid, stu, (prompt b), (parentSubmissionId b); eexists;
         split; [done|]; split; [done|];
         split; [exists json; split; [done|]; rewrite Hb; by destruct b|]
       end.
  all: (split; [match goal with Ht : truthy _ = _ |- _ => rewrite Ht end;
                first [eassumption | reflexivity]|]).
  all: split; [done|].
  all: try match goal with p : (string * string)%type |- _ => destruct p end.
  all: first [left; eexists _, _; split; [eassumption|]; by split
             |right; eexists; split; [eassumption|]; by split].
Qed.

Lemma lineage_inv sid stu pid st chain :
  lineage sid stu pid st = inr chain ->
  exists parent,
    prismaPromptSubmission.findUnique pid st = Some parent
    /\ PromptSubmission.sessionId parent = sid
    /\ PromptSubmission.studentId parent = Some stu
    /\ truthy (PromptSubmission.imageData parent) = true
    /\ prismaPromptSubmission.count (inChain sid (Images.rootOf parent)) st < 3
    /\ chain = mkLineage (Some (Images.rootOf parent))
                 (prismaPromptSubmission.count (inChain sid (Images.rootOf parent)) st)
                 (Some (dataUrl parent)).
Proof.
  unfold lineage. intros Hlin.
  destruct (prismaPromptSubmission.findUnique pid st) as [parent|] eqn:Hfind; [|done].
  repeat (case_match; simplify_eq /=).
  repeat match goal with
         | Hb : negb _ = false |- _ => apply negb_false_iff in Hb
         | Hb : bool_decide _ = true |- _ => apply bool_decide_eq_true in Hb
         | Hb : bool_decide _ = false |- _ => apply bool_decide_eq_false in Hb
         end.
  exists parent. unfold Images.rootOf. repeat split; try done. lia.
Qed.

Lemma images_share_shape cookies body st r st' :
  runHandler (ImagesShare.POST cookies body) st = (r, st') ->
  (st' = st /\ forall reply, r <> Json200 reply)
  \/ exists i share target,
       prismaPromptSubmission.findUnique i st = Some target
       /\ (exists json, body = Some json
                        /\ ImagesShare.bodySchema json = inr (ImagesShare.mkBody i share))
       /\ Some (PromptSubmission.sessionId target) = sessionId cookies
       /\ PromptSubmission.studentId target = studentId cookies
       /\ truthy (sessionId cookies) = true
       /\ truthy (studentId cookies) = true
       /\ role cookies = Some "student"
       /\ PromptSubmission.status target = SUCCESS
       /\ r = Json200 (ImagesShare.mkReply i share)
       /\ st' = withShared st i share.
Proof.
  unfold ImagesShare.POST. run_handler. run_prisma. intros Hrun.
  all_branches; try (by left).
  right.
  repeat match goal with
         | Hb : _ || _ = false |- _ => apply orb_false_iff in Hb as [? ?]
         | Hb : negb _ = false |- _ => apply negb_false_iff in Hb
         | Hb : bool_decide _ = true |- _ => apply bool_decide_eq_true in Hb
         end.
  match goal with
  | Hf : prismaPromptSubmission.findUnique (ImagesShare.submissionId _) _ = Some _ |- _ =>
      pose proof Hf as [_ Hid]%findUnique_Some
  end.
  match goal with
  | Hf' : prismaPromptSubmission.findUnique (PromptSubmission.id _) _ = Some _ |- _ =>
      rewrite Hid in Hf'
  end.
  simplify_eq.
  match goal with Hp : ImagesShare.bodySchema ?json = inr ?parsed |- _ =>
    exists (ImagesShare.submissionId parsed), (ImagesShare.share parsed); eexists;
    rewrite Hid; split; [done|];
    split; [exists json; split; [done|]; rewrite Hp; by destruct parsed|]
  end.
  repeat split; try done.
Qed.

End Shapes.

(** ** Invariants of the submissions *)

Section SubmissionInvariants.
Context `{Libraries}.
Import ImagesGenerate.

Lemma specChainCount_appended r st row :
  specChainCount r (appended st row)
  = specChainCount r st
    + (if (bool_decide (PromptSubmission.id row = r)
           || bool_decide (PromptSubmission.rootSubmissionId row = Some r))
          && (bool_decide (PromptSubmission.status row = PENDING)
              || bool_decide (PromptSubmission.status row = SUCCESS))
       then 1 else 0).
Proof.
  unfold specChainCount, specChain, appended. cbn [promptSubmissions].
  rewrite List.filter_app. cbn [List.filter].
  destruct (bool_decide (PromptSubmission.id row = r)
            || bool_decide (PromptSubmission.rootSubmissionId row = Some r)); cbn [andb].
  - rewrite List.filter_app, length_app. cbn [List.filter].
    by destruct (bool_decide (PromptSubmission.status row = PENDING)
                 || bool_decide (PromptSubmission.status row = SUCCESS)).
  - rewrite app_nil_r. lia.
Qed.

Lemma filter_none {A} (f : A -> bool) (l : list A) :
  (forall x, x ∈ l -> f x = false) -> List.filter f l = [].
Proof.
  induction l as [|x l IH]; [done|]. intros Hall. cbn.
  rewrite (Hall x) by left. apply IH. intros y Hy. apply Hall. by right.
Qed.

Lemma specChainCount_fresh newId st :
  chainsConsistent st ->
  newId ∉ PromptSubmission.id <$> promptSubmissions st ->
  specChainCount newId st = 0.
Proof.
  intros [_ Hroots] Hfresh. unfold specChainCount, specChain.
  assert (List.filter
            (fun s => bool_decide (PromptSubmission.id s = newId)
                      || bool_decide (PromptSubmission.rootSubmissionId s = Some newId))
            (promptSubmissions st) = []) as ->; [|done].
  apply filter_none. intros s Hs.
  apply orb_false_iff. split; apply bool_decide_eq_false.
  - intros Hid. apply Hfresh. rewrite <- Hid. by apply list_elem_of_fmap_2.
  - intros Hroot. rewrite Forall_forall in Hroots. specialize (Hroots _ Hs).
    unfold rootAgrees in Hroots. rewrite Hroot in Hroots.
    apply Exists_exists in Hroots as (p & Hp & Hpid & _).
    apply Hfresh. rewrite <- Hpid. by apply list_elem_of_fmap_2.
Qed.

Lemma specChainCount_shared r st i share :
  specChainCount r (withShared st i share) = specChainCount r st.
Proof.
  unfold specChainCount, specChain, withShared. cbn [promptSubmissions].
  induction (promptSubmissions st) as [|s rows IH]; [done|].
  cbn [List.map List.filter].
  assert (forall x : PromptSubmission.t,
            PromptSubmission.id (if bool_decide (PromptSubmission.id s = i)
                                 then ImagesShare.setIsShared share s else s)
            = PromptSubmission.id s
            /\ PromptSubmission.rootSubmissionId
                 (if bool_decide (PromptSubmission.id s = i)
                  then ImagesShare.setIsShared share s else s)
               = PromptSubmission.rootSubmissionId s
            /\ PromptSubmission.status
                 (if bool_decide (PromptSubmission.id s = i)
                  then ImagesShare.setIsShared share s else s)
               = PromptSubmission.status s) as Hsame.
  { intros _. by destruct (bool_decide _). }
  destruct (Hsame s) as (-> & -> & Hstatus).
  destruct (bool_decide (PromptSubmission.id s = r)
            || bool_decide (PromptSubmission.rootSubmissionId s = Some r)); [|done].
  cbn [List.filter]. rewrite Hstatus.
  destruct (bool_decide (PromptSubmission.status s = PENDING)
            || bool_decide (PromptSubmission.status s = SUCCESS)); cbn [length]; by rewrite IH.
Qed.

Lemma submissionsOk_same st st' :
  promptSubmissions st' = promptSubmissions st -> submissionsOk st -> submissionsOk st'.
Proof.
  unfold submissionsOk, chainsConsistent, specChainCount, specChain. by intros ->.
Qed.

Lemma settled_image_success s :
  settled s -> truthy (PromptSubmission.imageData s) = true ->
  PromptSubmission.status s = SUCCESS.
Proof.
  unfold settled. destruct (PromptSubmission.status s); [done|done|].
  by intros (-> & _).
Qed.

Lemma images_generate_submissionsOk cookies body remote newId created st r st' :
  runHandler (POST cookies body remote newId created) st = (r, st') ->
  submissionsOk st -> submissionsOk st'.
Proof.
  intros Hrun Hst.
  pose proof Hst as (Hchains & Hcap & Hsettled & Hindexed).
  split; [by eapply images_generate_chains|].
  destruct (images_generate_shape _ _ _ _ _ _ _ _ Hrun)
    as [[-> _]|(sid & stu & prompt & parentOpt & chain & _ & _ & _ & Hchain & Hfresh & Hfinal)];
    [done|].
  set (row := pendingRow newId sid prompt created stu parentOpt chain) in *.
  assert (exists final,
            st' = appended st final
            /\ PromptSubmission.id final = newId
            /\ PromptSubmission.rootSubmissionId final = lineageRoot chain
            /\ PromptSubmission.parentSubmissionId final = parentOpt
            /\ PromptSubmission.revisionIndex final = lineageIndex chain
            /\ settled final) as (final & -> & Hid & Hroot & Hparent & Hindex & Hdone).
  { destruct Hfinal as [(imageData & mimeType & _ & _ & ->)|(message & _ & _ & ->)]; eexists;
      (split; [reflexivity|]); unfold settled; cbn; eauto 10. }
  assert (lineageRoot chain = None /\ lineageIndex chain = 0
          \/ exists parent,
               parent ∈ promptSubmissions st
               /\ is_Some parentOpt
               /\ lineageRoot chain = Some (Images.rootOf parent)
               /\ lineageIndex chain = specChainCount (Images.rootOf parent) st
               /\ 1 <= lineageIndex chain < 3) as Hcases.
  { destruct (truthy parentOpt) eqn:Htruthy; [|left; by simplify_eq].
    right. apply lineage_inv in Hchain
      as (parent & Hfind & Hsession & Howner & Himage & Hroom & ->).
    pose proof Hfind as [Hin _]%findUnique_Some.
    exists parent. split; [done|]. split; [by destruct parentOpt|]. split; [done|].
    cbn [lineageIndex]. rewrite <- Hsession in *.
    rewrite chain_count_agree in * by done. split; [done|]. split; [|done].
    unfold specChainCount, specChain. rewrite filter_filter_and.
    assert (In parent
              (List.filter
                 (fun x => (bool_decide (PromptSubmission.id x = Images.rootOf parent)
                            || bool_decide (PromptSubmission.rootSubmissionId x
                                            = Some (Images.rootOf parent)))
                           && (bool_decide (PromptSubmission.status x = PENDING)
                               || bool_decide (PromptSubmission.status x = SUCCESS)))
                 (promptSubmissions st))) as Hcounted.
    { apply List.filter_In. split; [by apply list_elem_of_In|].
      rewrite Forall_forall in Hsettled.
      rewrite (settled_image_success parent) by auto.
      rewrite orb_true_r, andb_true_r. unfold Images.rootOf.
      apply orb_true_iff.
      destruct (PromptSubmission.rootSubmissionId parent); cbn;
        [right|left]; by apply bool_decide_eq_true. }
    destruct (List.filter _ _); [done|cbn; lia]. }
  split; [|split].
  - intros r'. rewrite specChainCount_appended, Hid, Hroot.
    destruct Hcases as [[-> _]|(parent & Hin & _ & -> & Hcount & Hbound)].
    + destruct (decide (newId = r')) as [<-|Hne].
      * rewrite specChainCount_fresh by done. destruct (_ && _); lia.
      * rewrite !bool_decide_eq_false_2 by done. cbn. specialize (Hcap r'). lia.
    + destruct (decide (Images.rootOf parent = r')) as [<-|Hother].
      * destruct (_ && _); lia.
      * destruct (decide (newId = r')) as [<-|Hne].
        -- rewrite specChainCount_fresh by done. destruct (_ && _); lia.
        -- rewrite !bool_decide_eq_false_2 by congruence. cbn. specialize (Hcap r'). lia.
  - cbn. apply Forall_app. split; [done|]. by repeat constructor.
  - cbn. apply Forall_app. split; [done|]. repeat constructor.
    unfold indexed. rewrite Hroot, Hindex, Hparent.
    destruct Hcases as [[-> ->]|(parent & _ & Hsome & -> & _ & Hbound)]; [done|].
    split; [lia|done].
Qed.

Lemma images_share_submissionsOk cookies body st r st' :
  runHandler (ImagesShare.POST cookies body) st = (r, st') ->
  submissionsOk st -> submissionsOk st'.
Proof.
  intros Hrun Hst.
  pose proof Hst as (Hchains & Hcap & Hsettled & Hindexed).
  split; [by eapply images_share_chains|].
  destruct (images_share_shape _ _ _ _ _ Hrun)
    as [[-> _]|(i & share & target & _ & _ & _ & _ & _ & _ & _ & _ & _ & ->)]; [done|].
  split; [|split].
  - intros r'. by rewrite specChainCount_shared.
  - cbn. change (List.map ?f ?l) with (f <$> l). rewrite Forall_fmap.
    eapply Forall_impl; [exact Hsettled|]. intros s. cbn. by destruct (bool_decide _).
  - cbn. change (List.map ?f ?l) with (f <$> l). rewrite Forall_fmap.
    eapply Forall_impl; [exact Hindexed|]. intros s. cbn. by destruct (bool_decide _).
Qed.

Lemma step_submissionsOk st st' : step st st' -> submissionsOk st -> submissionsOk st'.
Proof.
  intros Hstep Hst.
  destruct Hstep as
    [body salt newId now created st r st' Hrun
    |body key st r st' Hrun
    |cookies now st r st' Hrun
    |cookies body tape salts ids created st r st' Hrun
    |cookies body remote newId created st r st' Hrun
    |cookies body st r st' Hrun
    |cookies st r st' Hrun
    |cookies body newId created st r st' Hrun
    |cookies threadId body remote i1 t1 i2 t2 now st r st' Hrun].
  - apply session_start_frame in Hrun as [_ _ Hsame _ _]. by apply (submissionsOk_same st); [apply Hsame|].
  - by apply session_join_frame in Hrun as ->.
  - apply session_end_frame in Hrun as [_ _ Hsame _ _]. by apply (submissionsOk_same st); [apply Hsame|].
  - apply students_generate_frame in Hrun as [_ _ Hsame _ _]. by apply (submissionsOk_same st); [apply Hsame|].
  - by eapply images_generate_submissionsOk.
  - by eapply images_share_submissionsOk.
  - by apply images_list_frame in Hrun as ->.
  - apply chat_thread_frame in Hrun as [_ _ Hsame _ _]. by apply (submissionsOk_same st); [apply Hsame|].
  - apply chat_message_frame in Hrun as [_ _ Hsame _ _]. by apply (submissionsOk_same st); [apply Hsame|].
Qed.

Lemma reachable_submissionsOk st : reachable st -> submissionsOk st.
Proof.
  unfold reachable. revert st. apply rtc_ind_r.
  - split; [split; [apply NoDup_nil_2 | constructor]|].
    split; [intros r; cbn; lia|]. split; constructor.
  - intros st st' _ Hstep Hst. by eapply step_submissionsOk.
Qed.

End SubmissionInvariants.

Section ChatShapes.
Context `{Libraries}.

Lemma chat_thread_shape cookies body newId created st r st' :
  runHandler (ChatThreads.POST cookies body newId created) st = (r, st') ->
  (st' = st /\ forall reply, r <> Json200 reply)
  \/ exists sid stu title,
       sessionId cookies = Some sid /\ studentId cookies = Some stu
       /\ role cookies = Some "student"
       /\ threadsOf sid stu st < 5
       /\ (newId ∉ ChatThread.id <$> chatThreads st)
       /\ sid ∈ Session.id <$> sessions st
       /\ stu ∈ Student.id <$> students st
       /\ r = Json200 (ChatThreads.mkReply newId title created created None 0 5)
       /\ st' = withThread st (ChatThread.mk newId title created created sid stu).
Proof.
  unfold ChatThreads.POST. run_handler. run_prisma. intros Hrun.
  all_branches; try (by left).
  all: right.
  all: repeat match goal with
         | Hb : _ || _ = false |- _ => apply orb_false_iff in Hb as [? ?]
         | Hb : _ && _ = true |- _ => apply andb_true_iff in Hb as [? ?]
         | Hb : negb _ = false |- _ => apply negb_false_iff in Hb
         | Hb : bool_decide _ = true |- _ => apply bool_decide_eq_true in Hb
         | Hb : bool_decide _ = false |- _ => apply bool_decide_eq_false in Hb
         | Hb : hasId _ _ _ = false |- _ => apply hasId_false in Hb
         | Hb : hasId _ _ _ = true |- _ => apply hasId_true in Hb
         end.
  all: destruct cookies as [[sid|] role [stu|]]; simplify_eq /=.
  all: eexists _, _, _; repeat (split; [done|]).
  all: unfold ChatThreads.MAX_THREADS_PER_STUDENT in *; split; [unfold threadsOf; lia|].
  all: done.
Qed.

Lemma chat_message_shape cookies threadId body remote i1 t1 i2 t2 now st r st' :
  runHandler (ChatMessages.POST cookies threadId body remote i1 t1 i2 t2 now) st = (r, st') ->
  (st' = st /\ forall sent, r <> Json200 sent)
  \/ exists thread content,
       prismaChatThread.findUnique threadId st = Some thread
       /\ Some (ChatThread.sessionId thread) = sessionId cookies
       /\ Some (ChatThread.studentId thread) = studentId cookies
       /\ role cookies = Some "student"
       /\ (exists json, body = Some json /\ ChatMessages.messageSchema json = inr content)
       /\ (i1 ∉ ChatMessage.id <$> chatMessages st)
       /\ let studentMessage :=
            ChatMessage.mk i1 content STUDENT t1 threadId (studentId cookies) in
          let history :=
            rev (prismaChatMessage.findMany
                   (fun m => bool_decide (ChatMessage.threadId m = threadId))
                   ChatMessages.MAX_HISTORY_MESSAGES (withMessage st studentMessage)) in
          let sentHistory := (fun m => (ChatMessage.sender m, ChatMessage.content m)) <$> history in
          (st' = withMessage st studentMessage /\ (forall sent, r <> Json200 sent))
          \/ exists aiText,
               remote sentHistory = inr aiText
               /\ (i2 ∉ ChatMessage.id <$> chatMessages (withMessage st studentMessage))
               /\ let aiMessage := ChatMessage.mk i2 aiText AI t2 threadId None in
                  r = Json200 (ChatMessages.sentOf <$> [studentMessage; aiMessage])
                  /\ st' = touched (withMessage (withMessage st studentMessage) aiMessage)
                             threadId now.
Proof.
  unfold ChatMessages.POST. run_handler. run_prisma. intros Hrun.
  all_branches; try (by left).
  all: right.
  all: repeat match goal with
         | Hb : _ || _ = false |- _ => apply orb_false_iff in Hb as [? ?]
         | Hb : _ && _ = true |- _ => apply andb_true_iff in Hb as [? ?]
         | Hb : negb _ = false |- _ => apply negb_false_iff in Hb
         | Hb : bool_decide _ = true |- _ => apply bool_decide_eq_true in Hb
         | Hb : hasId _ _ _ = false |- _ => apply hasId_false in Hb
         end.
  all: try match goal with
       | Hn : prismaChatThread.findUnique ?i _ = None,
         Hs : prismaChatThread.findUnique ?i _ = Some _ |- _ =>
           unfold prismaChatThread.findUnique in Hn, Hs; cbn in Hn, Hs; congruence
       end.
  all: eexists _, _; repeat (split; [done|]).
  all: (split; [eexists; split; [reflexivity|eassumption]|]).
  all: repeat (split; [done|]).
  all: cbn zeta.
  all: try (left; split; [reflexivity|done]).
  all: try (right; eexists; split; [eassumption|]; split; [done|]; done).
Qed.

End ChatShapes.

(** ** Shapes of the remaining steps *)

Section SessionShapes.
Context `{Libraries}.

Lemma session_start_shape body salt newId now created st r st' :
  runHandler (SessionStart.POST body salt newId now created) st = (r, st') ->
  (st' = st /\ forall reply, r <> Json200 reply)
  \/ (st' = ended st now /\ forall reply, r <> Json200 reply)
  \/ exists password,
       (exists json, body = Some json /\ SessionStart.bodySchema json = inr password)
       /\ (newId ∉ Session.id <$> sessions st)
       /\ r = Json200 (SessionStart.mkReply newId created)
       /\ st' = withSession (ended st now)
                  (Session.mk newId (hashPassword password salt) true created None).
Proof.
  unfold SessionStart.POST, endExistingSessions. run_handler. run_prisma. intros Hrun.
  all_branches; try (by left); try (right; by left).
  right. right.
  match goal with Hb : hasId _ _ _ = false |- _ => apply hasId_false in Hb end.
  eexists. split; [by eexists|]. split; [|done].
  match goal with Hb : _ ∉ _ |- _ => revert Hb end.
  cbn. change (List.map ?f ?l) with (f <$> l). rewrite <- list_fmap_compose.
  intros Hfresh Hin. apply Hfresh. erewrite list_fmap_ext; [exact Hin|].
  intros _ s _. cbn. by destruct (Session.isActive s).
Qed.

Lemma session_end_shape cookies now st r st' :
  runHandler (SessionEnd.POST cookies now) st = (r, st') ->
  (st' = st /\ r = JsonError 403 "Teacher access only."
   /\ (truthy (sessionId cookies) = false \/ role cookies <> Some "teacher"))
  \/ exists sid,
       sessionId cookies = Some sid /\ sid <> "" /\ role cookies = Some "teacher"
       /\ r = Json200 tt
       /\ st' = endedById st sid now.
Proof.
  unfold SessionEnd.POST. run_handler. run_prisma. intros Hrun.
  all_branches.
  - left. repeat split.
    match goal with Hb : _ || _ = true |- _ => rename Hb into Hgate end.
    apply orb_true_iff in Hgate as [Hgate|Hgate]; apply negb_true_iff in Hgate;
      [by left|right]. by apply bool_decide_eq_false in Hgate.
  - right.
    repeat match goal with
           | Hb : _ || _ = false |- _ => apply orb_false_iff in Hb as [? ?]
           | Hb : negb _ = false |- _ => apply negb_false_iff in Hb
           | Hb : bool_decide _ = true |- _ => apply bool_decide_eq_true in Hb
           end.
    destruct cookies as [[sid|] role stu]; simplify_eq /=.
    exists sid. split; [done|].
    split; [by match goal with Hb : bool_decide _ = true |- _ =>
                 apply bool_decide_eq_true in Hb end|].
    split; [done|]. split; [done|]. unfold endedById. f_equal.
    apply list_fmap_ext. intros _ s _. cbn.
    destruct (bool_decide (Some (Session.id s) = Some sid)) eqn:E;
      [apply bool_decide_eq_true in E; simplify_eq; by rewrite bool_decide_eq_true_2
      |apply bool_decide_eq_false in E; rewrite bool_decide_eq_false_2; [done|];
       intros Heq; apply E; by rewrite Heq].
Qed.

Lemma students_generate_shape cookies body tape salts ids created st r st' :
  TeacherStudentsGenerate.POST cookies body tape salts ids created st = Some (r, st') ->
  (st' = st /\ forall credentials, r <> Json200 credentials)
  \/ exists sid count credentials news,
       sessionId cookies = Some sid /\ sid <> "" /\ role cookies = Some "teacher"
       /\ (exists json, body = Some json /\ TeacherStudentsGenerate.bodySchema json = inr count)
       /\ TeacherStudentsGenerate.createStudents sid count 0 (sessionUsernames sid st)
            tape salts ids created [] st
          = Some (inr credentials, withStudents st news)
       /\ length news = count
       /\ r = Json200 credentials
       /\ st' = withStudents st news.
Proof.
  unfold TeacherStudentsGenerate.POST, TeacherStudentsGenerate.transaction. run_handler.
  intros Hrun.
  repeat (case_match; simplify_eq /=); try (by left).
  right.
  repeat match goal with
         | Hb : _ || _ = false |- _ => apply orb_false_iff in Hb as [? ?]
         | Hb : negb _ = false |- _ => apply negb_false_iff in Hb
         | Hb : bool_decide _ = true |- _ => apply bool_decide_eq_true in Hb
         end.
  destruct cookies as [[sid|] role stu]; simplify_eq /=.
  match goal with Hloop : TeacherStudentsGenerate.createStudents _ _ _ _ _ _ _ _ _ _ = _ |- _ =>
    pose proof (createStudents_spec _ _ _ _ _ _ _ _ _ _ _ _ Hloop)
      as (news & -> & Hlen & _) end.
  eexists sid, _, _, news.
  split; [done|].
  split; [by match goal with Hb : bool_decide _ = true |- _ =>
               apply bool_decide_eq_true in Hb end|].
  split; [done|]. split; [by eexists|]. split; [eassumption|]. done.
Qed.

End SessionShapes.

Section StepInvariants.
Context `{Libraries}.

Lemma fmap_if_id {A B} (key : A -> B) (test : A -> bool) (f : A -> A) (l : list A) :
  (forall x, key (f x) = key x) ->
  key <$> ((fun x => if test x then f x else x) <$> l) = key <$> l.
Proof.
  intros Hf. rewrite <- list_fmap_compose. apply list_fmap_ext.
  intros _ x _. cbn. by destruct (test x).
Qed.

Lemma step_keepsRows st st' : step st st' -> keepsRows st st'.
Proof.
  intros Hstep.
  destruct Hstep as
    [body salt newId now created st r st' Hrun
    |body key st r st' Hrun
    |cookies now st r st' Hrun
    |cookies body tape salts ids created st r st' Hrun
    |cookies body remote newId created st r st' Hrun
    |cookies body st r st' Hrun
    |cookies st r st' Hrun
    |cookies body newId created st r st' Hrun
    |cookies threadId body remote i1 t1 i2 t2 now st r st' Hrun].
  - apply session_start_shape in Hrun
      as [[-> _]|[[-> _]|(password & _ & _ & _ & ->)]]; [done| |]; repeat split; try done.
    + cbn. unfold endActive. by rewrite fmap_if_id.
    + cbn. rewrite fmap_app. unfold endActive. rewrite fmap_if_id by done.
      by apply prefix_app_r.
  - by apply session_join_frame in Hrun as ->.
  - apply session_end_shape in Hrun as [(-> & _)|(sid & _ & _ & _ & _ & ->)]; [done|].
    repeat split; try done. cbn. by rewrite (fmap_if_id Session.id).
  - apply students_generate_shape in Hrun
      as [[-> _]|(sid & count & credentials & news & _ & _ & _ & _ & _ & _ & _ & ->)]; [done|].
    repeat split; try done. cbn. by apply prefix_app_r.
  - apply images_generate_shape in Hrun
      as [[-> _]|(sid & stu & prompt & parentOpt & chain & _ & _ & _ & _ & _ & Hfinal)]; [done|].
    destruct Hfinal as [(imageData & mimeType & _ & _ & ->)|(message & _ & _ & ->)];
      repeat split; try done; cbn; rewrite fmap_app; by apply prefix_app_r.
  - apply images_share_shape in Hrun
      as [[-> _]|(i & share & target & _ & _ & _ & _ & _ & _ & _ & _ & _ & ->)]; [done|].
    repeat split; try done. cbn. change (List.map ?f ?l) with (f <$> l).
    by rewrite (fmap_if_id PromptSubmission.id).
  - by apply images_list_frame in Hrun as ->.
  - apply chat_thread_shape in Hrun
      as [[-> _]|(sid & stu & title & _ & _ & _ & _ & _ & _ & _ & _ & ->)]; [done|].
    repeat split; try done. cbn. rewrite fmap_app. by apply prefix_app_r.
  - apply chat_message_shape in Hrun
      as [[-> _]|(thread & content & _ & _ & _ & _ & _ & _ & [[-> _]|(aiText & _ & _ & _ & ->)])];
      [done| |]; repeat split; try done; cbn.
    + by apply prefix_app_r.
    + change (List.map ?f ?l) with (f <$> l). by rewrite (fmap_if_id ChatThread.id).
    + rewrite <- app_assoc. by apply prefix_app_r.
Qed.

#[local] Instance keepsRows_preorder : PreOrder keepsRows.
Proof.
  split.
  - intros st. by repeat split.
  - intros st1 st2 st3 (? & ? & ? & ? & ?) (? & ? & ? & ? & ?).
    repeat split; by etrans.
Qed.

Lemma rtc_keepsRows st st' : rtc step st st' -> keepsRows st st'.
Proof.
  induction 1 as [st|st1 st2 st3 Hstep _ IH]; [done|].
  etrans; [by apply step_keepsRows | done].
Qed.

(** *** Stored submissions change in their share flag only *)

Lemma sameButShared_refl s : sameButShared s s.
Proof. by destruct s. Qed.

Lemma sameButShared_trans s1 s2 s3 :
  sameButShared s1 s2 -> sameButShared s2 s3 -> sameButShared s1 s3.
Proof. unfold sameButShared. intros -> ->. by destruct s1. Qed.

Lemma keepsSubmissions_same st st' :
  promptSubmissions st' = promptSubmissions st -> keepsSubmissions st st'.
Proof.
  intros Hsame. exists []. rewrite Hsame, firstn_all, app_nil_r. split; [|done].
  apply Forall2_same_length_lookup. split; [done|].
  intros i s s' Hs Hs'. simplify_eq. apply sameButShared_refl.
Qed.

Lemma keepsSubmissions_app st st' news :
  promptSubmissions st' = promptSubmissions st ++ news -> keepsSubmissions st st'.
Proof.
  intros Hsame. exists news. rewrite Hsame, take_app_length. split; [|done].
  apply Forall2_same_length_lookup. split; [done|].
  intros i s s' Hs Hs'. simplify_eq. apply sameButShared_refl.
Qed.

Lemma step_keepsSubmissions st st' : step st st' -> keepsSubmissions st st'.
Proof.
  intros Hstep.
  destruct Hstep as
    [body salt newId now created st r st' Hrun
    |body key st r st' Hrun
    |cookies now st r st' Hrun
    |cookies body tape salts ids created st r st' Hrun
    |cookies body remote newId created st r st' Hrun
    |cookies body st r st' Hrun
    |cookies st r st' Hrun
    |cookies body newId created st r st' Hrun
    |cookies threadId body remote i1 t1 i2 t2 now st r st' Hrun].
  - apply session_start_frame in Hrun as [_ _ Hsame _ _]. by apply keepsSubmissions_same, Hsame.
  - apply session_join_frame in Hrun as ->. by apply keepsSubmissions_same.
  - apply session_end_frame in Hrun as [_ _ Hsame _ _]. by apply keepsSubmissions_same, Hsame.
  - apply students_generate_frame in Hrun as [_ _ Hsame _ _].
    by apply keepsSubmissions_same, Hsame.
  - apply images_generate_shape in Hrun
      as [[-> _]|(sid & stu & prompt & parentOpt & chain & _ & _ & _ & _ & _ & Hfinal)];
      [by apply keepsSubmissions_same|].
    destruct Hfinal as [(imageData & mimeType & _ & _ & ->)|(message & _ & _ & ->)];
      by eapply keepsSubmissions_app.
  - apply images_share_shape in Hrun
      as [[-> _]|(i & share & target & _ & _ & _ & _ & _ & _ & _ & _ & _ & ->)];
      [by apply keepsSubmissions_same|].
    exists []. cbn. rewrite firstn_all2 by (rewrite length_map; lia).
    rewrite app_nil_r. split; [|done].
    change (List.map ?f ?l) with (f <$> l). apply Forall2_fmap_r, Forall_Forall2_diag.
    apply Forall_forall. intros s _. cbn.
    destruct (bool_decide (PromptSubmission.id s = i)); [|apply sameButShared_refl].
    by destruct s.
  - apply images_list_frame in Hrun as ->. by apply keepsSubmissions_same.
  - apply chat_thread_frame in Hrun as [_ _ Hsame _ _]. by apply keepsSubmissions_same, Hsame.
  - apply chat_message_frame in Hrun as [_ _ Hsame _ _]. by apply keepsSubmissions_same, Hsame.
Qed.

Lemma keepsSubmissions_trans st1 st2 st3 :
  keepsSubmissions st1 st2 -> keepsSubmissions st2 st3 -> keepsSubmissions st1 st3.
Proof.
  intros (later1 & H1 & E1) (later2 & H2 & E2).
  set (n1 := length (promptSubmissions st1)) in *.
  set (n2 := length (promptSubmissions st2)) in *.
  assert (n1 <= n2) as Hle.
  { apply Forall2_length in H1. rewrite length_take in H1. subst n1 n2.
    assert (length (promptSubmissions st2)
            = length (take (length (promptSubmissions st1)) (promptSubmissions st2) ++ later1))
      as Hl by (by rewrite <- E1).
    rewrite length_app, length_take in Hl. lia. }
  exists (drop n1 (promptSubmissions st3)). split; [|by rewrite take_drop].
  apply Forall2_same_length_lookup. split.
  { apply Forall2_length in H1, H2. rewrite length_take in *. lia. }
  intros i s s3 Hs Hs3.
  pose proof (lookup_lt_Some _ _ _ Hs) as Hi. fold n1 in Hi.
  rewrite lookup_take_lt in Hs3 by done.
  destruct (promptSubmissions st2 !! i) as [s2|] eqn:Hs2;
    [|apply lookup_ge_None in Hs2; subst n2; lia].
  eapply sameButShared_trans.
  - eapply Forall2_lookup_lr; [exact H1|exact Hs|]. by rewrite lookup_take_lt.
  - eapply Forall2_lookup_lr; [exact H2|exact Hs2|]. rewrite lookup_take_lt by lia. done.
Qed.

Lemma rtc_keepsSubmissions st st' : rtc step st st' -> keepsSubmissions st st'.
Proof.
  induction 1 as [st|st1 st2 st3 Hstep _ IH]; [by apply keepsSubmissions_same|].
  eapply keepsSubmissions_trans; [by apply step_keepsSubmissions | done].
Qed.

End StepInvariants.

Section MoreInvariants.
Context `{Libraries}.

Lemma threadsOf_same sid stu st st' :
  chatThreads st' = chatThreads st -> threadsOf sid stu st' = threadsOf sid stu st.
Proof. unfold threadsOf, prismaChatThread.count. by intros ->. Qed.

Lemma threadsOf_withThread sid stu st thread :
  threadsOf sid stu (withThread st thread)
  = threadsOf sid stu st
    + (if bool_decide (ChatThread.sessionId thread = sid)
          && bool_decide (ChatThread.studentId thread = stu) then 1 else 0).
Proof.
  unfold threadsOf, prismaChatThread.count, withThread. cbn.
  rewrite List.filter_app, length_app. cbn. by destruct (_ && _).
Qed.

Lemma threadsOf_touched sid stu st threadId now :
  threadsOf sid stu (touched st threadId now) = threadsOf sid stu st.
Proof.
  unfold threadsOf, prismaChatThread.count, touched. cbn.
  induction (chatThreads st) as [|t rows IH]; [done|]. cbn.
  assert (ChatThread.sessionId (if bool_decide (ChatThread.id t = threadId)
                                then ChatMessages.touch now t else t) = ChatThread.sessionId t
          /\ ChatThread.studentId (if bool_decide (ChatThread.id t = threadId)
                                   then ChatMessages.touch now t else t) = ChatThread.studentId t)
    as [-> ->] by (by destruct (bool_decide _)).
  destruct (_ && _); cbn; by rewrite IH.
Qed.

Lemma step_threads_capped st st' :
  step st st' ->
  (forall sid stu, threadsOf sid stu st <= 5) -> forall sid stu, threadsOf sid stu st' <= 5.
Proof.
  intros Hstep Hst sid stu.
  destruct Hstep as
    [body salt newId now created st r st' Hrun
    |body key st r st' Hrun
    |cookies now st r st' Hrun
    |cookies body tape salts ids created st r st' Hrun
    |cookies body remote newId created st r st' Hrun
    |cookies body st r st' Hrun
    |cookies st r st' Hrun
    |cookies body newId created st r st' Hrun
    |cookies threadId body remote i1 t1 i2 t2 now st r st' Hrun].
  - apply session_start_frame in Hrun as [_ _ _ Hsame _]. by rewrite (threadsOf_same _ _ st) by auto.
  - by apply session_join_frame in Hrun as ->.
  - apply session_end_frame in Hrun as [_ _ _ Hsame _]. by rewrite (threadsOf_same _ _ st) by auto.
  - apply students_generate_frame in Hrun as [_ _ _ Hsame _].
    by rewrite (threadsOf_same _ _ st) by auto.
  - apply images_generate_frame in Hrun as [_ _ _ Hsame _].
    by rewrite (threadsOf_same _ _ st) by auto.
  - apply images_share_frame in Hrun as [_ _ _ Hsame _].
    by rewrite (threadsOf_same _ _ st) by auto.
  - by apply images_list_frame in Hrun as ->.
  - apply chat_thread_shape in Hrun
      as [[-> _]|(sid' & stu' & title & _ & _ & _ & Hroom & _ & _ & _ & _ & ->)]; [done|].
    rewrite threadsOf_withThread. cbn [ChatThread.sessionId ChatThread.studentId].
    specialize (Hst sid stu).
    repeat case_bool_decide; cbn [andb]; subst; lia.
  - apply chat_message_shape in Hrun
      as [[-> _]|(thread & content & _ & _ & _ & _ & _ & _ & [[-> _]|(aiText & _ & _ & _ & ->)])];
      [done| |].
    + by rewrite (threadsOf_same _ _ st).
    + rewrite threadsOf_touched. by rewrite (threadsOf_same _ _ st).
Qed.

Lemma reachable_threads_capped st :
  reachable st -> forall sid stu, threadsOf sid stu st <= 5.
Proof.
  unfold reachable. revert st.
  apply (rtc_ind_r (fun st => forall sid stu, threadsOf sid stu st <= 5)).
  - intros sid stu. cbn. lia.
  - intros st st' _ Hstep Hcap. by eapply step_threads_capped.
Qed.

(** *** Ended sessions *)

Lemma activeIds_endActive now (rows : list Session.t) :
  Session.id <$> List.filter Session.isActive (endActive now <$> rows) = [].
Proof. by rewrite endActive_inactive. Qed.

Lemma step_activeIds st st' i :
  step st st' -> i ∈ activeIds st' ->
  i ∈ activeIds st \/ i ∉ Session.id <$> sessions st.
Proof.
  unfold activeIds, activeSessions. intros Hstep.
  destruct Hstep as
    [body salt newId now created st r st' Hrun
    |body key st r st' Hrun
    |cookies now st r st' Hrun
    |cookies body tape salts ids created st r st' Hrun
    |cookies body remote newId created st r st' Hrun
    |cookies body st r st' Hrun
    |cookies st r st' Hrun
    |cookies body newId created st r st' Hrun
    |cookies threadId body remote i1 t1 i2 t2 now st r st' Hrun].
  - apply session_start_shape in Hrun
      as [[-> _]|[[-> _]|(password & _ & Hfresh & _ & ->)]]; [by left| |]; cbn.
    + rewrite endActive_inactive. by intros ?%elem_of_nil.
    + rewrite filter_active_app, endActive_inactive. cbn.
      intros ->%list_elem_of_singleton. by right.
  - apply session_join_frame in Hrun as ->. by left.
  - apply session_end_shape in Hrun as [(-> & _)|(sid & _ & _ & _ & _ & ->)]; [by left|].
    cbn. intros (s' & -> & Hs')%list_elem_of_fmap. left.
    apply list_elem_of_In, List.filter_In in Hs' as [Hs' Hactive].
    apply list_elem_of_In, list_elem_of_fmap in Hs' as (s & -> & Hs).
    destruct (bool_decide (Session.id s = sid)); [done|].
    apply list_elem_of_fmap_2, list_elem_of_In, List.filter_In.
    split; [by apply list_elem_of_In|done].
  - apply students_generate_frame in Hrun as [Hsame _ _ _ _]. rewrite Hsame by done. by left.
  - apply images_generate_frame in Hrun as [Hsame _ _ _ _]. rewrite Hsame by done. by left.
  - apply images_share_frame in Hrun as [Hsame _ _ _ _]. rewrite Hsame by done. by left.
  - apply images_list_frame in Hrun as ->. by left.
  - apply chat_thread_frame in Hrun as [Hsame _ _ _ _]. rewrite Hsame by done. by left.
  - apply chat_message_frame in Hrun as [Hsame _ _ _ _]. rewrite Hsame by done. by left.
Qed.

Lemma rtc_ended_stay_ended st st' i :
  rtc step st st' ->
  i ∈ Session.id <$> sessions st -> i ∉ activeIds st -> i ∉ activeIds st'.
Proof.
  intros Hrun. revert i. induction Hrun as [st|st1 st2 st3 Hstep Hrest IH]; [done|].
  intros i Hstored Hended. apply IH.
  - destruct (step_keepsRows _ _ Hstep) as ([more ->] & _). apply elem_of_app. by left.
  - intros Hactive. by destruct (step_activeIds _ _ _ Hstep Hactive).
Qed.

End MoreInvariants.

(** ** The properties *)

(** *** Stores to run the handlers on *)

Lemma classroomFull_reachable : reachable (H := testLibraries) classroomFull.
Proof.
  eapply rtc_r; [exact classroom_reachable|].
  eapply (step_images_generate cookiesA (Some (promptBody "add a long tail" (Some "cimage2")))
            remoteOk "cimage3" 140%Z).
  vm_compute. reflexivity.
Qed.


Lemma classroomWithThreads_reachable n :
  reachable (H := testLibraries) (classroomWithThreads n).
Proof.
  induction n as [|n IH]; [exact classroom_reachable|].
  eapply rtc_r; [exact IH|].
  eapply (step_chat_thread cookiesA None ("cthread" +:+ pretty (S n)) (200 + Z.of_nat (S n))%Z).
  cbn [classroomWithThreads]. apply surjective_pairing.
Qed.

(** *** Invariants of the reachable stores *)

(** X1. However the handlers are called, one request at a time, no
    chain ever holds more than three submissions that are PENDING or
    SUCCESS: the limit the refinement gate enforces is an invariant of
    the store. *)
Theorem chain_never_exceeds_three `{Libraries} st rootId :
  reachable st -> specChainCount rootId st <= 3.
Proof. intros Hst. by apply reachable_submissionsOk in Hst as (_ & Hcap & _). Qed.

Lemma chain_never_exceeds_three_witness :
  specChainCount "cimage1" classroomFull = 3 /\ specChainCount "cimage1" classroomFull <= 3.
Proof.
  split; [reflexivity|].
  apply (chain_never_exceeds_three (H := testLibraries)). exact classroomFull_reachable.
Defined.



(** X3. The revision index follows the lineage: a stored submission
    without a root (an original) has revisionIndex 0; one with a root (a
    refinement) has revisionIndex 1 or 2 and names its parent. *)
Theorem revision_index_follows_lineage `{Libraries} st :
  reachable st -> Forall indexed (promptSubmissions st).
Proof. intros Hst. by apply reachable_submissionsOk in Hst as (_ & _ & _ & Hindexed). Qed.

Lemma revision_index_follows_lineage_witness :
  last (promptSubmissions classroomFull) = Some tailedKite
  /\ Forall indexed (promptSubmissions classroomFull).
Proof.
  split; [reflexivity|].
  apply (revision_index_follows_lineage (H := testLibraries)).
  exact classroomFull_reachable.
Defined.

(** X4. No student ever has more than five chat threads in a session. *)
Theorem threads_never_exceed_five `{Libraries} st sid stu :
  reachable st -> threadsOf sid stu st <= ChatThreads.MAX_THREADS_PER_STUDENT.
Proof. intros Hst. by apply reachable_threads_capped. Qed.

Lemma threads_never_exceed_five_witness :
  threadsOf "csession1" "cstudent0" (classroomWithThreads 5) = 5
  /\ threadsOf "csession1" "cstudent0" (classroomWithThreads 5)
     <= ChatThreads.MAX_THREADS_PER_STUDENT.
Proof.
  split; [reflexivity|].
  apply (threads_never_exceed_five (H := testLibraries)).
  exact (classroomWithThreads_reachable 5).
Defined.

(** X5. No handler deletes or reorders rows.  After any sequence of
    requests the students and the chat messages stored before are still
    there, unchanged and in place, and so are the ids of the sessions,
    submissions and chat threads; new rows come after them. *)
Theorem rows_are_never_deleted `{Libraries} st st' :
  rtc step st st' -> keepsRows st st'.
Proof. apply rtc_keepsRows. Qed.

Lemma rows_are_never_deleted_witness : keepsRows classroom classroomFull.
Proof.
  apply (rows_are_never_deleted (H := testLibraries)). apply rtc_once.
  eapply (step_images_generate cookiesA (Some (promptBody "add a long tail" (Some "cimage2")))
            remoteOk "cimage3" 140%Z).
  vm_compute. reflexivity.
Defined.

(** X6. Once a request has ended, the submission it stored keeps its
    content: through any later requests the row stays at its place and
    changes in nothing but its share flag (prompt, owner, lineage,
    status, image and error message stay). *)
Theorem stored_submissions_keep_content `{Libraries} st st' n s :
  rtc step st st' ->
  promptSubmissions st !! n = Some s ->
  exists s', promptSubmissions st' !! n = Some s' /\ sameButShared s s'.
Proof.
  intros Hrun Hs. destruct (rtc_keepsSubmissions _ _ Hrun) as (later & Hkept & _).
  destruct (Forall2_lookup_l _ _ _ _ _ Hkept Hs) as (s' & Hs' & Hsame).
  exists s'. split; [|done]. apply lookup_take_Some in Hs'. by destruct Hs'.
Qed.

Lemma stored_submissions_keep_content_witness :
  exists s',
    promptSubmissions classroom !! 0 = Some s'
    /\ sameButShared
         (PromptSubmission.mk "cimage1" "csession1" "a red kite" "STUDENT" 120%Z
            (Some "cstudent0") None None 0 SUCCESS (Some "QUJD") (Some "image/png") None false)
         s'.
Proof.
  apply (stored_submissions_keep_content (H := testLibraries) classroomWithRefinement).
  - apply rtc_once.
    eapply (step_images_share cookiesA (Some (shareBody "cimage1" true))).
    vm_compute. reflexivity.
  - reflexivity.
Defined.

(** X7. An ended session is never resumed: a stored session that is not
    active stays inactive through every later request. *)
Theorem ended_sessions_stay_ended `{Libraries} st st' i :
  rtc step st st' ->
  i ∈ Session.id <$> sessions st ->
  i ∉ Session.id <$> activeSessions st ->
  i ∉ Session.id <$> activeSessions st'.
Proof. apply rtc_ended_stay_ended. Qed.

Lemma ended_sessions_stay_ended_witness :
  "csession1" ∉ Session.id <$> activeSessions storeEnded.
Proof.
  apply (ended_sessions_stay_ended (H := testLibraries) storeStarted2).
  - apply rtc_once. eapply (step_session_end teacherCookies 300%Z).
    vm_compute. reflexivity.
  - by_evaluation.
  - by_evaluation.
Defined.

(** *** Sharing *)

Section SharingEffects.
Context `{Libraries}.

Lemma findUnique_update (f : PromptSubmission.t -> PromptSubmission.t) i j rows :
  (forall r, PromptSubmission.id (f r) = PromptSubmission.id r) ->
  findUnique PromptSubmission.id j
    (List.map (fun r => if bool_decide (PromptSubmission.id r = i) then f r else r) rows)
  = (fun r => if bool_decide (PromptSubmission.id r = i) then f r else r)
      <$> findUnique PromptSubmission.id j rows.
Proof.
  intros Hf. unfold findUnique. induction rows as [|r rows IH]; [done|]. cbn.
  assert (PromptSubmission.id (if bool_decide (PromptSubmission.id r = i) then f r else r)
          = PromptSubmission.id r) as -> by (destruct (bool_decide _); [apply Hf|done]).
  by destruct (bool_decide (PromptSubmission.id r = j)).
Qed.

Lemma withShared_twice st i share share' :
  withShared (withShared st i share) i share' = withShared st i share'.
Proof.
  unfold withShared. cbn. f_equal. rewrite List.map_map. apply List.map_ext.
  intros r. destruct (bool_decide (PromptSubmission.id r = i)) eqn:E; cbn; by rewrite E.
Qed.

Lemma withShared_same st i target :
  NoDup (PromptSubmission.id <$> promptSubmissions st) ->
  prismaPromptSubmission.findUnique i st = Some target ->
  withShared st i (PromptSubmission.isShared target) = st.
Proof.
  intros Hnodup [Hin Hid]%findUnique_Some. unfold withShared. destruct st as [a b rows c d].
  cbn in *. f_equal. rewrite <- (List.map_id rows) at 2. apply List.map_ext_in.
  intros r Hr%list_elem_of_In. case_bool_decide as Hri; [|done].
  assert (r = target) as -> by (eapply same_id_same_row; eauto; congruence).
  by destruct target.
Qed.

End SharingEffects.

(** X8. A successful setShared call changes one thing: the share flag
    of the submission named in the request becomes the requested value.
    Every other submission, every other field of that row and every
    other table stay as they were. *)
Theorem share_sets_only_the_flag `{Libraries} cookies body st reply st' :
  runHandler (ImagesShare.POST cookies body) st = (Json200 reply, st') ->
  let i := ImagesShare.replySubmissionId reply in
  (exists json target,
     body = Some json
     /\ ImagesShare.bodySchema json = inr (ImagesShare.mkBody i (ImagesShare.isShared reply))
     /\ prismaPromptSubmission.findUnique i st = Some target
     /\ prismaPromptSubmission.findUnique i st'
        = Some (ImagesShare.setIsShared (ImagesShare.isShared reply) target))
  /\ (forall j, j <> i ->
        prismaPromptSubmission.findUnique j st' = prismaPromptSubmission.findUnique j st)
  /\ PromptSubmission.id <$> promptSubmissions st' = PromptSubmission.id <$> promptSubmissions st
  /\ sessions st' = sessions st /\ students st' = students st
  /\ chatThreads st' = chatThreads st /\ chatMessages st' = chatMessages st.
Proof.
  intros Hrun i.
  destruct (images_share_shape _ _ _ _ _ Hrun)
    as [[_ Hno]|(i' & share & target & Hfind & (json & -> & Hbody) & _ & _ & _ & _ & _ & _
                 & [= ->] & ->)];
    [by destruct (Hno reply)|].
  subst i. cbn [ImagesShare.replySubmissionId ImagesShare.isShared].
  split; [|split; [|split]].
  - exists json, target. repeat (split; [done|]).
    unfold prismaPromptSubmission.findUnique, withShared in *. cbn.
    rewrite findUnique_update by done. rewrite Hfind. cbn.
    apply findUnique_Some in Hfind as [_ ->]. by rewrite bool_decide_eq_true_2.
  - intros j Hne. unfold prismaPromptSubmission.findUnique, withShared. cbn.
    rewrite findUnique_update by done.
    destruct (findUnique PromptSubmission.id j (promptSubmissions st)) as [r|] eqn:Hj; [|done].
    apply findUnique_Some in Hj as [_ Hid]. cbn. rewrite bool_decide_eq_false_2; [done|].
    by rewrite Hid.
  - cbn. change (List.map ?f ?l) with (f <$> l). by rewrite (fmap_if_id PromptSubmission.id).
  - done.
Qed.

Lemma share_sets_only_the_flag_witness :
  (exists json target,
     Some (shareBody "cimage1" true) = Some json
     /\ ImagesShare.bodySchema (H := testLibraries) json = inr (ImagesShare.mkBody "cimage1" true)
     /\ prismaPromptSubmission.findUnique "cimage1" classroomWithRefinement = Some target
     /\ prismaPromptSubmission.findUnique "cimage1" classroom
        = Some (ImagesShare.setIsShared true target))
  /\ prismaPromptSubmission.findUnique "cimage2" classroom = Some blueKite.
Proof.
  pose proof (share_sets_only_the_flag (H := testLibraries) cookiesA
                (Some (shareBody "cimage1" true)) classroomWithRefinement
                (ImagesShare.mkReply "cimage1" true) classroom eq_refl) as (Hrow & Hothers & _).
  split; [exact Hrow|]. rewrite (Hothers "cimage2") by done. reflexivity.
Defined.

(** X9. Sharing can be undone: after a successful setShared call, a
    second call by the same caller that asks for the flag the submission
    had before succeeds and gives back exactly the store from before the
    first call. *)
Theorem share_round_trip `{Libraries} cookies json json' i share target reply st st1 :
  NoDup (PromptSubmission.id <$> promptSubmissions st) ->
  ImagesShare.bodySchema json = inr (ImagesShare.mkBody i share) ->
  ImagesShare.bodySchema json'
  = inr (ImagesShare.mkBody i (PromptSubmission.isShared target)) ->
  prismaPromptSubmission.findUnique i st = Some target ->
  runHandler (ImagesShare.POST cookies (Some json)) st = (Json200 reply, st1) ->
  runHandler (ImagesShare.POST cookies (Some json')) st1
  = (Json200 (ImagesShare.mkReply i (PromptSubmission.isShared target)), st).
Proof.
  intros Hnodup Hbody Hbody' Hfind Hrun.
  destruct (images_share_shape _ _ _ _ _ Hrun)
    as [[_ Hno]|(i' & share' & target' & Hfind' & (json0 & [= <-] & Hbody0) & Hsession & Howner
                 & Hsid & Hstu & Hrole & Hstatus & _ & ->)];
    [by destruct (Hno reply)|].
  rewrite Hbody in Hbody0. injection Hbody0 as <- <-.
  rewrite Hfind in Hfind'. injection Hfind' as <-.
  unfold ImagesShare.POST. run_handler. rewrite Hsid, Hstu, Hrole.
  rewrite bool_decide_eq_true_2 by done. cbn [negb orb]. rewrite Hbody'.
  cbn [ImagesShare.submissionId ImagesShare.share].
  assert (prismaPromptSubmission.findUnique i (withShared st i share)
          = Some (ImagesShare.setIsShared share target)) as Hfound.
  { unfold prismaPromptSubmission.findUnique, withShared in *. cbn.
    rewrite findUnique_update by done. rewrite Hfind. cbn.
    apply findUnique_Some in Hfind as [_ ->]. by rewrite bool_decide_eq_true_2. }
  rewrite Hfound. cbn [ImagesShare.setIsShared PromptSubmission.sessionId
                         PromptSubmission.studentId PromptSubmission.status PromptSubmission.id].
  rewrite !bool_decide_eq_true_2 by done. cbn [negb orb].
  unfold prismaPromptSubmission.update.
  pose proof Hfind as [_ Hid]%findUnique_Some. rewrite Hid, Hfound.
  cbn [ImagesShare.setIsShared PromptSubmission.id PromptSubmission.isShared].
  rewrite Hid. fold (withShared (withShared st i share) i (PromptSubmission.isShared target)).
  by rewrite withShared_twice, withShared_same.
Qed.

Lemma share_round_trip_witness :
  runHandler (ImagesShare.POST (H := testLibraries) cookiesA (Some (shareBody "cimage1" false)))
             classroom
  = (Json200 (ImagesShare.mkReply "cimage1" false), classroomWithRefinement).
Proof.
  refine (share_round_trip (H := testLibraries) cookiesA (shareBody "cimage1" true)
            (shareBody "cimage1" false) "cimage1" true
            (PromptSubmission.mk "cimage1" "csession1" "a red kite" "STUDENT" 120%Z
               (Some "cstudent0") None None 0 SUCCESS (Some "QUJD") (Some "image/png")
               None false)
            (ImagesShare.mkReply "cimage1" true) classroomWithRefinement classroom
            _ _ _ _ _); concrete.
Defined.

(** *** The listing *)

#[global] Instance newerFirst_total {A} (time : A -> DateTime) : Total (newerFirst time).
Proof. intros a b. unfold newerFirst. lia. Qed.

#[global] Instance newerFirst_transitive {A} (time : A -> DateTime) :
  Transitive (newerFirst time).
Proof. intros a b c. unfold newerFirst. lia. Qed.

Section ListingContents.
Import Images.

Lemma listing_run cookies st :
  truthy (sessionId cookies) = true ->
  Exists (fun s => Some (Session.id s) = sessionId cookies /\ Session.isActive s)
         (sessions st) ->
  runHandler (GET cookies) st
  = (let sid := default "" (sessionId cookies) in
     let submissions :=
       prismaPromptSubmission.findMany (visible sid (role cookies) (studentId cookies)) st in
     Json200 (mkReply (enrich (foldl countSuccess ∅ submissions) (studentId cookies) st
                         <$> submissions)
                      (role cookies)),
     st).
Proof.
  intros Htruthy (s & Hin & Hid & Hactive)%Exists_exists.
  unfold GET, prismaSession.findUnique. run_handler. rewrite Htruthy. cbn [negb].
  destruct (List.find _ (sessions st)) as [found|] eqn:Hfind; [done|].
  apply list_elem_of_In in Hin. eapply List.find_none in Hfind; [|exact Hin].
  destruct (sessionId cookies) as [sid|]; [|done]. cbn in Hfind. simplify_eq.
  rewrite bool_decide_eq_true_2 in Hfind by done. by destruct (Session.isActive s).
Qed.

Lemma submission_enrich counts stu st (rows : list PromptSubmission.t) :
  submission <$> (enrich counts stu st <$> rows) = rows.
Proof. rewrite <- list_fmap_compose. by rewrite list_fmap_id. Qed.

End ListingContents.

(** X10. With the cookie of an active session, listSubmissions shows
    exactly the submissions its filter admits, each once, newest first,
    and leaves the store alone.  The teacher is shown every submission of
    the session; any other caller only submissions of the session that
    are SUCCESS and either shared or the caller's own.  A row is flagged
    as owned exactly when the caller's student cookie names its owner. *)
Theorem listing_shows_visible_newest_first cookies st reply st' :
  runHandler (Images.GET cookies) st = (Json200 reply, st') ->
  truthy (sessionId cookies) = true ->
  Exists (fun s => Some (Session.id s) = sessionId cookies /\ Session.isActive s)
         (sessions st) ->
  let sid := default "" (sessionId cookies) in
  let shown := Images.submission <$> Images.submissions reply in
  st' = st
  /\ shown ≡ₚ List.filter (Images.visible sid (role cookies) (studentId cookies))
                          (promptSubmissions st)
  /\ Sorted (newerFirst PromptSubmission.createdAt) shown
  /\ (role cookies = Some "teacher" ->
      forall s, s ∈ promptSubmissions st -> PromptSubmission.sessionId s = sid -> s ∈ shown)
  /\ (role cookies <> Some "teacher" ->
      Forall (fun s => PromptSubmission.sessionId s = sid
                       /\ PromptSubmission.status s = SUCCESS
                       /\ (PromptSubmission.isShared s = true
                           \/ (truthy (studentId cookies) = true
                               /\ PromptSubmission.studentId s = studentId cookies)))
             shown)
  /\ Forall (fun e => Images.ownedByCurrentUser e = true
                      <-> truthy (studentId cookies) = true
                          /\ PromptSubmission.studentId (Images.submission e)
                             = studentId cookies)
            (Images.submissions reply).
Proof.
  intros Hrun Htruthy Hactive sid shown. rewrite listing_run in Hrun by done.
  cbn zeta in Hrun. fold sid in Hrun. injection Hrun as <- <-.
  subst shown. cbn [Images.submissions]. rewrite submission_enrich.
  unfold prismaPromptSubmission.findMany, orderByCreatedAtDesc.
  set (admitted := List.filter _ (promptSubmissions st)).
  assert (forall s, s ∈ admitted <->
                    s ∈ promptSubmissions st
                    /\ Images.visible sid (role cookies) (studentId cookies) s = true) as Hadm.
  { intros s. subst admitted. rewrite list_elem_of_In, List.filter_In.
    by rewrite (list_elem_of_In (promptSubmissions st) s). }
  split; [done|]. split; [apply merge_sort_Permutation|].
  split; [apply Sorted_merge_sort; apply _|]. split; [|split].
  - intros Hteacher s Hs Hsession. rewrite merge_sort_Permutation. apply Hadm.
    split; [done|]. unfold Images.visible.
    rewrite (bool_decide_eq_true_2 (PromptSubmission.sessionId s = sid)) by done.
    by rewrite (bool_decide_eq_true_2 (role cookies = Some "teacher")) by done.
  - intros Hother. apply Forall_forall. intros s Hs.
    rewrite merge_sort_Permutation in Hs. apply Hadm in Hs as [_ Hvisible].
    unfold Images.visible in Hvisible. rewrite (bool_decide_eq_false_2 (role cookies = _)) in Hvisible by done.
    cbn [orb] in Hvisible.
    apply andb_true_iff in Hvisible as [Hsession%bool_decide_eq_true Hrest].
    apply andb_true_iff in Hrest as [Hstatus%bool_decide_eq_true Hrest].
    split; [done|]. split; [done|].
    apply orb_true_iff in Hrest as [Hshared|Hown]; [by left|right].
    apply andb_true_iff in Hown as [Hstu Hown%bool_decide_eq_true]. done.
  - rewrite Forall_fmap. apply Forall_forall. intros s _. cbn.
    destruct (truthy (studentId cookies)); [|by split; [|intros []]].
    rewrite bool_decide_eq_true. by split; [|intros []].
Qed.

Lemma listing_shows_visible_newest_first_witness :
  Images.submission <$> Images.submissions
    (Images.mkReply
       [Images.mkEnriched kite "cimage1" 2%Z false (Some "ABabABd2")] (Some "student"))
  ≡ₚ List.filter (Images.visible "csession1" (Some "student") (Some "cstudent1"))
                 (promptSubmissions classroom).
Proof.
  refine (proj1 (proj2 (listing_shows_visible_newest_first cookiesB classroom
            (Images.mkReply [Images.mkEnriched kite "cimage1" 2%Z false (Some "ABabABd2")]
                            (Some "student"))
            classroom _ _ _))); concrete.
Defined.

Section RemainingEdits.
Context `{Libraries}.

Lemma settled_counts_agree rootId st :
  Forall settled (promptSubmissions st) ->
  specSuccessCount rootId st = specChainCount rootId st.
Proof.
  intros Hsettled. unfold specSuccessCount, specChainCount. f_equal.
  apply List.filter_ext_in. intros s Hs%list_elem_of_In.
  unfold specChain in Hs. apply list_elem_of_In, List.filter_In in Hs as [Hs%list_elem_of_In _].
  rewrite Forall_forall in Hsettled. specialize (Hsettled _ Hs). unfold settled in Hsettled.
  by destruct (PromptSubmission.status s).
Qed.

Lemma findUnique_member rows (s : PromptSubmission.t) :
  NoDup (PromptSubmission.id <$> rows) -> s ∈ rows ->
  findUnique PromptSubmission.id (PromptSubmission.id s) rows = Some s.
Proof.
  intros Hnodup Hs.
  destruct (findUnique PromptSubmission.id (PromptSubmission.id s) rows) as [r|] eqn:Hfind.
  - apply findUnique_Some in Hfind as [Hr Hid]. f_equal. by eapply same_id_same_row.
  - apply findUnique_None in Hfind. destruct Hfind. by apply list_elem_of_fmap_2.
Qed.

End RemainingEdits.

(** X11. Between requests, the remaining edits the listing shows to the
    teacher, or to a student for a submission of the student's own, are
    the budget the refinement gate works with: three less the number of
    PENDING or SUCCESS members of the chain, never negative.  For the
    owner of a listed submission with image data, the listing shows 0
    exactly when a refinement request on it would be refused with "This
    image has no refinements remaining." *)
Theorem remaining_edits_match_gate `{Libraries} cookies st reply st' e :
  reachable st ->
  runHandler (Images.GET cookies) st = (Json200 reply, st') ->
  e ∈ Images.submissions reply ->
  role cookies = Some "teacher"
  \/ (truthy (studentId cookies) = true
      /\ PromptSubmission.studentId (Images.submission e) = studentId cookies) ->
  Images.remainingEdits e = (3 - Z.of_nat (specChainCount (Images.rootId e) st))%Z
  /\ (0 <= Images.remainingEdits e <= 3)%Z
  /\ (forall sid stu,
        sessionId cookies = Some sid -> studentId cookies = Some stu ->
        PromptSubmission.studentId (Images.submission e) = Some stu ->
        truthy (PromptSubmission.imageData (Images.submission e)) = true ->
        Images.remainingEdits e = 0%Z
        <-> ImagesGenerate.lineage sid stu (PromptSubmission.id (Images.submission e)) st
            = inl (JsonError 400 "This image has no refinements remaining.")).
Proof.
  intros Hst Hrun He Hcaller.
  pose proof (reachable_submissionsOk _ Hst) as (Hchains & Hcap & Hsettled & _).
  pose proof (listing_counts_visible _ _ _ _ Hrun) as Hvisible. cbn zeta in Hvisible.
  pose proof (listing_counts_chain _ _ _ _ Hrun Hchains) as Hchain.
  rewrite Forall_forall in Hvisible, Hchain.
  destruct (Hvisible _ He) as (Hin & Hshown & HrootId & _).
  specialize (Hchain _ He Hcaller). rewrite settled_counts_agree in Hchain by done.
  rewrite HrootId. specialize (Hcap (Images.rootOf (Images.submission e))).
  assert (Images.remainingEdits e
          = (3 - Z.of_nat (specChainCount (Images.rootOf (Images.submission e)) st))%Z)
    as Hedits by lia.
  split; [done|]. split; [lia|].
  intros sid stu Hsid Hstu Howner Himage.
  assert (PromptSubmission.sessionId (Images.submission e) = sid) as Hsession.
  { unfold Images.visible in Hshown. rewrite Hsid in Hshown. cbn in Hshown.
    by apply andb_true_iff in Hshown as [?%bool_decide_eq_true _]. }
  rewrite (lineage_eval sid stu _ st (Images.submission e)); try done.
  - case_bool_decide; split; try done; lia.
  - destruct Hchains as [Hnodup _]. by apply findUnique_member.
Qed.

Lemma remaining_edits_match_gate_witness :
  Images.remainingEdits (Images.mkEnriched tailedKite "cimage1" 0%Z true (Some "ABabABd2"))
  = (3 - Z.of_nat (specChainCount "cimage1" classroomFull))%Z
  /\ ImagesGenerate.lineage "csession1" "cstudent0" "cimage3" classroomFull
     = inl (JsonError 400 "This image has no refinements remaining.").
Proof.
  pose proof (remaining_edits_match_gate (H := testLibraries) cookiesA classroomFull
                (Images.mkReply
                   [Images.mkEnriched tailedKite "cimage1" 0%Z true (Some "ABabABd2");
                    Images.mkEnriched blueKite "cimage1" 0%Z true (Some "ABabABd2");
                    Images.mkEnriched kite "cimage1" 0%Z true (Some "ABabABd2")]
                   (Some "student"))
                classroomFull
                (Images.mkEnriched tailedKite "cimage1" 0%Z true (Some "ABabABd2"))
                classroomFull_reachable eq_refl)
    as Hthm.
  destruct Hthm as (Hedits & _ & Hgate).
  - left.
  - right. split; reflexivity.
  - split; [exact Hedits|].
    apply (Hgate "csession1" "cstudent0"); reflexivity.
Defined.

(** *** Image generation *)

(** X12. createSubmission checks before it stores.  Without a session
    or role cookie it answers 401; with another role than student, or
    without a student cookie, 403; a body that is not JSON escapes as an
    unhandled error; a prompt whose length (in UTF-16 code units, as
    zod counts it) is below 5 gives 400 with the schema's message,
    whether or not the session is still active; a valid request for a
    session that is not active gives 403.  In all of these the store is
    unchanged, and whenever the answer is neither 200 nor 502 nothing
    was stored. *)
Theorem generation_is_gated `{Libraries} cookies body remote newId created st :
  let run := runHandler (ImagesGenerate.POST cookies body remote newId created) st in
  (truthy (sessionId cookies) = false \/ truthy (role cookies) = false ->
   run = (JsonError 401 "Join the classroom session before generating images.", st))
  /\ (truthy (sessionId cookies) = true -> truthy (role cookies) = true ->
      role cookies <> Some "student" \/ truthy (studentId cookies) = false ->
      run = (JsonError 403 "Only students can generate images in this view.", st))
  /\ (forall sid stu,
        cookies = mkCookies (Some sid) (Some "student") (Some stu) ->
        sid <> "" -> stu <> "" ->
        (body = None -> run = (Unhandled SyntaxError, st))
        /\ (forall fields prompt,
              body = Some (JObject fields) ->
              field "prompt" (JObject fields) = Some (JString prompt) ->
              jsLength prompt < 5 ->
              run = (JsonError 400 "Please write a longer prompt to help the AI.", st))
        /\ (forall json parsed,
              body = Some json ->
              ImagesGenerate.bodySchema json = inr parsed ->
              ~ Exists (fun s => Session.id s = sid /\ Session.isActive s) (sessions st) ->
              run = (JsonError 403 "Session expired. Please ask the teacher to restart.", st)))
  /\ ((forall reply, run.1 <> Json200 reply) ->
      (forall message, run.1 <> JsonError 502 message) ->
      run.2 = st).
Proof.
  intros run. subst run. split; [|split; [|split]].
  - intros Hmissing. unfold ImagesGenerate.POST. run_handler.
    destruct Hmissing as [-> | ->]; by rewrite ?orb_true_r.
  - intros Hsid Hrole Hother. unfold ImagesGenerate.POST. run_handler.
    rewrite Hsid, Hrole. cbn [negb orb].
    destruct Hother as [Hother | ->]; [|by rewrite orb_true_r].
    by rewrite (bool_decide_eq_false_2 (role cookies = _)).
  - intros sid stu -> Hsid Hstu. split; [|split].
    + intros ->. unfold ImagesGenerate.POST. run_handler. cbn.
      by rewrite !bool_decide_eq_true_2.
    + intros fields prompt -> Hfield Hshort.
      assert (ImagesGenerate.bodySchema (JObject fields)
              = inl (ZodError "Please write a longer prompt to help the AI.")) as Hbody.
      { unfold ImagesGenerate.bodySchema. rewrite Hfield.
        by rewrite bool_decide_eq_false_2 by lia. }
      revert Hbody. generalize (JObject fields). intros json Hbody.
      unfold ImagesGenerate.POST. run_handler. cbn.
      rewrite !bool_decide_eq_true_2 by done. cbn. by rewrite Hbody.
    + intros json parsed -> Hbody Hnone. unfold ImagesGenerate.POST. run_handler. cbn.
      rewrite !bool_decide_eq_true_2 by done. cbn. rewrite Hbody.
      unfold prismaSession.findFirst.
      destruct (List.find _ (sessions st)) as [s|] eqn:Hfind; [|done].
      apply List.find_some in Hfind as [Hin [Hid%bool_decide_eq_true Hact]%andb_true_iff].
      destruct Hnone. apply Exists_exists. exists s.
      split; [by apply list_elem_of_In|]. by rewrite Hact.
  - intros Hno200 Hno502.
    destruct (runHandler _ st) as [r st'] eqn:Hrun. cbn in *.
    destruct (images_generate_shape _ _ _ _ _ _ _ _ Hrun)
      as [[-> _]|(sid & stu & prompt & parentOpt & chain & _ & _ & _ & _ & _ & Hfinal)];
      [done|].
    destruct Hfinal as [(imageData & mimeType & _ & -> & _)|(message & _ & -> & _)].
    + exfalso. by eapply Hno200.
    + exfalso. by eapply Hno502.
Qed.

Lemma generation_is_gated_witness :
  runHandler (ImagesGenerate.POST (H := testLibraries) (mkCookies None None None)
                (Some (promptBody "a red kite" None)) remoteOk "cimage9" 190%Z) classroom
  = (JsonError 401 "Join the classroom session before generating images.", classroom)
  /\ runHandler (ImagesGenerate.POST (H := testLibraries) teacherCookies
                   (Some (promptBody "a red kite" None)) remoteOk "cimage9" 190%Z) classroom
     = (JsonError 403 "Only students can generate images in this view.", classroom)
  /\ runHandler (ImagesGenerate.POST (H := testLibraries) cookiesA None remoteOk
                   "cimage9" 190%Z) classroom
     = (Unhandled SyntaxError, classroom)
  /\ runHandler (ImagesGenerate.POST (H := testLibraries) cookiesA
                   (Some (JObject [("prompt", JString "日本語")])) remoteOk "cimage9" 190%Z)
                storeStarted2
     = (JsonError 400 "Please write a longer prompt to help the AI.", storeStarted2)
  /\ runHandler (ImagesGenerate.POST (H := testLibraries) cookiesA
                   (Some (promptBody "a red kite" None)) remoteOk "cimage9" 190%Z)
                storeStarted2
     = (JsonError 403 "Session expired. Please ask the teacher to restart.", storeStarted2).
Proof.
  split; [|split; [|split; [|split]]].
  - refine (proj1 (generation_is_gated (H := testLibraries) (mkCookies None None None)
              (Some (promptBody "a red kite" None)) remoteOk "cimage9" 190%Z classroom) _).
    by left.
  - refine (proj1 (proj2 (generation_is_gated (H := testLibraries) teacherCookies
              (Some (promptBody "a red kite" None)) remoteOk "cimage9" 190%Z classroom))
              _ _ _); [reflexivity|reflexivity|by left].
  - refine (proj1 (proj1 (proj2 (proj2 (generation_is_gated (H := testLibraries) cookiesA None
              remoteOk "cimage9" 190%Z classroom)))
              "csession1" "cstudent0" _ _ _) _); concrete.
  - refine (proj1 (proj2 (proj1 (proj2 (proj2 (generation_is_gated (H := testLibraries) cookiesA
              (Some (JObject [("prompt", JString "日本語")])) remoteOk "cimage9" 190%Z
              storeStarted2)))
              "csession1" "cstudent0" _ _ _)) [("prompt", JString "日本語")] "日本語" _ _ _);
      concrete.
  - refine (proj2 (proj2 (proj1 (proj2 (proj2 (generation_is_gated (H := testLibraries) cookiesA
              (Some (promptBody "a red kite" None)) remoteOk "cimage9" 190%Z
              storeStarted2)))
              "csession1" "cstudent0" _ _ _)) (promptBody "a red kite" None)
              (ImagesGenerate.mkBody "a red kite" None) _ _ _); concrete.
Defined.

(** X13. A request without a parent starts a chain.  In an active
    session, with a valid prompt and a remote call that succeeds, the
    handler answers 200 and stores one new submission: an original
    (no root, no parent, revisionIndex 0) of the caller, SUCCESS, with
    the image the remote call returned, not shared.  The remote call
    gets no base image.  The reply names the submission itself as the
    root of its chain, the chain holds just this submission, and the
    remaining edits of it are 2. *)
Theorem original_submission_starts_chain `{Libraries} sid stu json prompt remote newId created
    imageData mimeType st :
  sid <> "" -> stu <> "" ->
  ImagesGenerate.bodySchema json = inr (ImagesGenerate.mkBody prompt None) ->
  Exists (fun s => Session.id s = sid /\ Session.isActive s) (sessions st) ->
  chainsConsistent st ->
  newId ∉ PromptSubmission.id <$> promptSubmissions st ->
  stu ∈ Student.id <$> students st ->
  remote prompt None = inr (imageData, mimeType) ->
  let row := PromptSubmission.mk newId sid prompt "STUDENT" created (Some stu) None None 0
               SUCCESS (Some imageData) (Some mimeType) None false in
  runHandler (ImagesGenerate.POST (mkCookies (Some sid) (Some "student") (Some stu))
                (Some json) remote newId created) st
  = (Json200 (ImagesGenerate.replyOf row), appended st row)
  /\ ImagesGenerate.rootSubmissionId (ImagesGenerate.replyOf row) = newId
  /\ specChain newId (appended st row) = [row]
  /\ getSubmissionWithRemainingEdits newId (appended st row) = Some (row, 2%Z).
Proof.
  intros Hsid Hstu Hbody Hactive Hchains Hfresh Hstudent Hremote row.
  assert (specChain newId (appended st row) = [row]) as Hchain.
  { pose proof (specChainCount_fresh newId st Hchains Hfresh) as Hnone.
    unfold specChainCount in Hnone. unfold specChain in *. cbn [appended promptSubmissions].
    rewrite List.filter_app. cbn.
    rewrite bool_decide_eq_true_2 by done. cbn.
    destruct (List.filter _ (promptSubmissions st)) as [|x rest] eqn:Hold; [done|].
    exfalso.
    assert (x ∈ x :: rest) as Hx by left. rewrite <- Hold in Hx.
    apply list_elem_of_In, List.filter_In in Hx as [Hx%list_elem_of_In Hmember].
    apply orb_true_iff in Hmember as [Hid%bool_decide_eq_true|Hroot%bool_decide_eq_true].
    - apply Hfresh. rewrite <- Hid. by apply list_elem_of_fmap_2.
    - destruct Hchains as [_ Hroots]. rewrite Forall_forall in Hroots.
      specialize (Hroots _ Hx). unfold rootAgrees in Hroots. rewrite Hroot in Hroots.
      apply Exists_exists in Hroots as (p & Hp & Hpid & _).
      apply Hfresh. rewrite <- Hpid. by apply list_elem_of_fmap_2. }
  split; [|split; [done|split; [done|]]].
  - rewrite (generate_run sid stu json prompt None) by done.
    cbn [truthy ImagesGenerate.baseImageDataUrl]. cbn zeta.
    unfold prismaPromptSubmission.create, pendingRow. cbn.
    rewrite (proj2 (hasId_false _ _ _)) by done.
    assert (hasId Session.id sid (sessions st) = true) as ->.
    { apply hasId_true. apply Exists_exists in Hactive as (s & Hs & <- & _).
      by apply list_elem_of_fmap_2. }
    rewrite (proj2 (hasId_true _ _ _) Hstudent). cbn. by rewrite Hremote.
  - unfold getSubmissionWithRemainingEdits, prismaPromptSubmission.findUnique.
    cbn [appended promptSubmissions].
    rewrite (findUnique_appended _ row newId) by done.
    cbn [PromptSubmission.rootSubmissionId PromptSubmission.id default from_option row].
    unfold prismaPromptSubmission.count.
    rewrite <- (filter_filter_and
                  (fun s => bool_decide (PromptSubmission.status s = SUCCESS))
                  (fun s => bool_decide (PromptSubmission.id s = newId)
                            || bool_decide (PromptSubmission.rootSubmissionId s = Some newId))).
    fold (specChain newId (appended st row)). by rewrite Hchain.
Qed.

Lemma original_submission_starts_chain_witness :
  runHandler (ImagesGenerate.POST (H := testLibraries) cookiesA
                (Some (promptBody "a red kite" None)) remoteOk "cimage1" 120%Z)
             classroomWithStudents
  = (Json200 (ImagesGenerate.mkReply "cimage1" "a red kite" 120%Z (Some "QUJD")
                (Some "image/png") 0 None "cimage1" false),
     classroomWithRoot).
Proof.
  refine (proj1 (original_submission_starts_chain (H := testLibraries)
            "csession1" "cstudent0" (promptBody "a red kite" None) "a red kite" remoteOk
            "cimage1" 120%Z "QUJD" "image/png" classroomWithStudents _ _ _ _ _ _ _ _));
    concrete.
Defined.

(** X14. Only a generation that succeeds uses up a refinement.  When
    the request ends with 502 (the remote call failed), the count of
    PENDING or SUCCESS members is the same as before for every chain:
    the ERROR row that is kept does not count.  When it ends with 200,
    the chain named in the reply has exactly one member more, and no
    other chain changes. *)
Theorem only_successful_generation_uses_budget `{Libraries} cookies body remote newId created
    st r st' :
  runHandler (ImagesGenerate.POST cookies body remote newId created) st = (r, st') ->
  chainsConsistent st ->
  (forall message, r = JsonError 502 message ->
     forall rootId, specChainCount rootId st' = specChainCount rootId st)
  /\ (forall reply, r = Json200 reply ->
        specChainCount (ImagesGenerate.rootSubmissionId reply) st'
        = specChainCount (ImagesGenerate.rootSubmissionId reply) st + 1
        /\ forall rootId,
             rootId <> ImagesGenerate.rootSubmissionId reply ->
             rootId <> ImagesGenerate.id reply ->
             specChainCount rootId st' = specChainCount rootId st).
Proof.
  intros Hrun Hchains.
  destruct (images_generate_shape _ _ _ _ _ _ _ _ Hrun)
    as [(-> & Hno200 & Hno502)
       |(sid & stu & prompt & parentOpt & chain & _ & _ & _ & Hchain & Hfresh & Hfinal)].
  { split; [intros message ->; by destruct (Hno502 message)
           |intros reply ->; by destruct (Hno200 reply)]. }
  destruct Hfinal as [(imageData & mimeType & _ & -> & ->)|(message & _ & -> & ->)].
  - split; [done|]. intros reply [= <-].
    cbn [ImagesGenerate.replyOf ImagesGenerate.rootSubmissionId ImagesGenerate.id
         ImagesGenerate.markSuccess pendingRow PromptSubmission.id
         PromptSubmission.rootSubmissionId].
    split.
    + rewrite specChainCount_appended. cbn.
      destruct (ImagesGenerate.lineageRoot chain) as [root|]; cbn;
        rewrite ?(bool_decide_eq_true_2 (newId = newId)) by done;
        rewrite ?(bool_decide_eq_true_2 (Some root = Some root)) by done;
        by rewrite ?orb_true_r.
    + intros rootId Hroot Hid. rewrite specChainCount_appended. cbn.
      rewrite (bool_decide_eq_false_2 (newId = rootId)) by done.
      rewrite bool_decide_eq_false_2; [cbn; lia|].
      intros Heq. rewrite Heq in Hroot. by cbn in Hroot.
  - split; [|done]. intros message' _ rootId. rewrite specChainCount_appended. cbn.
    rewrite andb_false_r. lia.
Qed.

Lemma only_successful_generation_uses_budget_witness :
  specChainCount "cimage1" classroomFull = specChainCount "cimage1" classroom + 1
  /\ forall rootId, specChainCount rootId classroomWithError = specChainCount rootId classroom.
Proof.
  assert (chainsConsistent classroom) as Hchains by by_evaluation.
  split.
  - assert (runHandler (ImagesGenerate.POST (H := testLibraries) cookiesA
                          (Some (promptBody "add a long tail" (Some "cimage2"))) remoteOk
                          "cimage3" 140%Z) classroom
            = (Json200 (ImagesGenerate.mkReply "cimage3" "add a long tail" 140%Z (Some "QUJD")
                          (Some "image/png") 2 (Some "cimage2") "cimage1" false),
               classroomFull)) as Hrun by (vm_compute; reflexivity).
    exact (proj1 (proj2 (only_successful_generation_uses_budget (H := testLibraries)
                           _ _ _ _ _ _ _ _ Hrun Hchains) _ eq_refl)).
  - assert (runHandler (ImagesGenerate.POST (H := testLibraries) cookiesA
                          (Some (promptBody "a green boat" None)) remoteDown
                          "cimage4" 150%Z) classroom
            = (JsonError 502 "Provider returned error", classroomWithError)) as Hrun
      by (vm_compute; reflexivity).
    exact (proj1 (only_successful_generation_uses_budget (H := testLibraries)
                    _ _ _ _ _ _ _ _ Hrun Hchains) _ eq_refl).
Defined.

(** *** Session lifecycle *)

Section SessionEffects.
Context `{Libraries}.

Lemma no_active_session st :
  activeSessions st = [] ->
  getActiveSession st = None
  /\ forall sid, prismaSession.findFirst
                   (fun s => bool_decide (Session.id s = sid) && Session.isActive s) st = None.
Proof.
  unfold activeSessions, getActiveSession, prismaSession.findFirstLatest,
    prismaSession.findFirst.
  intros Hnone. rewrite Hnone. split; [done|]. intros sid.
  destruct (List.find _ (sessions st)) as [s|] eqn:Hfind; [|done].
  apply List.find_some in Hfind as [Hin [_ Hactive]%andb_true_iff].
  assert (In s (List.filter Session.isActive (sessions st))) as Hs
    by (apply List.filter_In; by split).
  by rewrite Hnone in Hs.
Qed.

Lemma only_active_session sid st :
  atMostOneActive st -> sid ∈ Session.id <$> activeSessions st ->
  forall s, s ∈ sessions st -> Session.isActive s = true -> Session.id s = sid.
Proof.
  unfold atMostOneActive, activeSessions.
  intros Hone (s0 & -> & Hs0)%list_elem_of_fmap s Hs Hactive.
  assert (s ∈ List.filter Session.isActive (sessions st)) as Hs'
    by (apply list_elem_of_In, List.filter_In; split; [by apply list_elem_of_In|done]).
  destruct (List.filter Session.isActive (sessions st)) as [|x [|y rest]]; cbn in Hone;
    [by apply elem_of_nil in Hs0| |lia].
  apply list_elem_of_singleton in Hs0, Hs'. congruence.
Qed.

Lemma listing_empty_without_active st cookies :
  activeSessions st = [] ->
  runHandler (Images.GET cookies) st = (Json200 (Images.mkReply [] None), st).
Proof.
  intros Hnone. unfold Images.GET, prismaSession.findUnique. run_handler.
  destruct (truthy (sessionId cookies)); [|done]. cbn [negb].
  destruct (no_active_session _ Hnone) as [_ Hfirst].
  unfold prismaSession.findFirst in Hfirst. by rewrite Hfirst.
Qed.

Lemma latestBy_singleton {A} (time : A -> DateTime) (r : A) : latestBy time [r] = Some r.
Proof. done. Qed.

End SessionEffects.

(** X15. Ending the running session closes it for everyone.  When the
    teacher's cookie names the active session, endSession answers 200,
    marks that session inactive with endedAt = now, and leaves no active
    session; from then on joinSession answers 404 (for every valid
    body), listSubmissions shows an empty list to every caller, and a
    student of the session who asks for an image gets 403 "Session
    expired". *)
Theorem ended_session_is_closed `{Libraries} sid other now st :
  sid <> "" ->
  atMostOneActive st ->
  sid ∈ Session.id <$> activeSessions st ->
  let run := runHandler (SessionEnd.POST (mkCookies (Some sid) (Some "teacher") other) now) st in
  run.1 = Json200 tt
  /\ activeSessions run.2 = []
  /\ (forall s, s ∈ sessions run.2 -> Session.id s = sid ->
        Session.isActive s = false /\ Session.endedAt s = Some now)
  /\ (forall json parsed key,
        SessionJoin.bodySchema json = inr parsed ->
        runHandler (SessionJoin.POST (Some json) key) run.2
        = (JsonError 404 "No active session. Please ask the teacher to start one.", run.2))
  /\ (forall cookies,
        runHandler (Images.GET cookies) run.2 = (Json200 (Images.mkReply [] None), run.2))
  /\ (forall stu json parsed remote newId created,
        stu <> "" ->
        ImagesGenerate.bodySchema json = inr parsed ->
        runHandler (ImagesGenerate.POST (mkCookies (Some sid) (Some "student") (Some stu))
                      (Some json) remote newId created) run.2
        = (JsonError 403 "Session expired. Please ask the teacher to restart.", run.2)).
Proof.
  intros Hsid Hone Hactive run.
  destruct (runHandler _ st) as [r st'] eqn:Hrun. subst run. cbn [fst snd].
  destruct (session_end_shape _ _ _ _ _ Hrun)
    as [(_ & _ & [Hbad|Hbad])|(sid' & [= <-] & _ & _ & -> & ->)].
  { cbn in Hbad. by rewrite bool_decide_eq_true_2 in Hbad. }
  { by destruct Hbad. }
  assert (activeSessions (endedById st sid now) = []) as Hnone.
  { unfold activeSessions, endedById. cbn. apply filter_none.
    intros s' (s & -> & Hs)%list_elem_of_fmap.
    case_bool_decide as Hid; [done|].
    destruct (Session.isActive s) eqn:Hs_active; [|done].
    destruct Hid. by eapply only_active_session. }
  destruct (no_active_session _ Hnone) as [Hlatest Hfirst].
  split; [done|]. split; [done|]. split; [|split; [|split]].
  - intros s' (s & -> & Hs)%list_elem_of_fmap Hid'.
    case_bool_decide as Hid; [done|]. by destruct Hid.
  - intros json parsed key Hbody. unfold SessionJoin.POST. run_handler.
    by rewrite Hbody, Hlatest.
  - intros cookies. by apply listing_empty_without_active.
  - intros stu json parsed remote newId created Hstu Hbody.
    unfold ImagesGenerate.POST. run_handler. cbn.
    rewrite !bool_decide_eq_true_2 by done. cbn. rewrite Hbody.
    by rewrite Hfirst.
Qed.

Lemma ended_session_is_closed_witness :
  activeSessions (runHandler (SessionEnd.POST teacherCookies 400%Z) classroom).2 = []
  /\ runHandler (Images.GET cookiesA) (runHandler (SessionEnd.POST teacherCookies 400%Z) classroom).2
     = (Json200 (Images.mkReply [] None),
        (runHandler (SessionEnd.POST teacherCookies 400%Z) classroom).2).
Proof.
  pose proof (ended_session_is_closed (H := testLibraries) "csession1" None 400%Z classroom)
    as Hthm.
  destruct Hthm as (_ & Hnone & _ & _ & Hlist & _); [concrete..|].
  split; [exact Hnone|exact (Hlist cookiesA)].
Defined.

(** X16. startSession validates before it ends anything: a password
    whose length (in UTF-16 code units, as zod counts it) is below 4 is
    refused with 400 and the running session stays as it is.  When it succeeds, the new session is the active
    one, stored with the hash of the given password, and joinSession as
    a student then checks the offered password against that hash: 200
    with the new session's id when the hash accepts it, 401 when not. *)
Theorem start_session_replaces_the_session `{Libraries} body salt newId now created st :
  let run := runHandler (SessionStart.POST body salt newId now created) st in
  (forall fields password,
     body = Some (JObject fields) ->
     field "password" (JObject fields) = Some (JString password) ->
     jsLength password < 4 ->
     run = (JsonError 400 "Password must be at least 4 characters", st))
  /\ (forall reply, run.1 = Json200 reply ->
      exists password,
        (exists json, body = Some json /\ SessionStart.bodySchema json = inr password)
        /\ SessionStart.sessionId reply = newId
        /\ getActiveSession run.2
           = Some (Session.mk newId (hashPassword password salt) true created None)
        /\ forall json' parsed key,
             SessionJoin.bodySchema json' = inr parsed ->
             SessionJoin.role parsed = "student" ->
             runHandler (SessionJoin.POST (Some json') key) run.2
             = (if verifyPassword (SessionJoin.password parsed) (hashPassword password salt)
                then Json200 (SessionJoin.mkReply newId "student" created)
                else JsonError 401 "Incorrect password. Try again.",
                run.2)).
Proof.
  intros run. subst run. split.
  - intros fields password -> Hfield Hshort.
    assert (SessionStart.bodySchema (JObject fields)
            = inl (ZodError "Password must be at least 4 characters")) as Hbody.
    { unfold SessionStart.bodySchema. rewrite Hfield.
      by rewrite bool_decide_eq_false_2 by lia. }
    revert Hbody. generalize (JObject fields). intros json Hbody.
    unfold SessionStart.POST. run_handler. by rewrite Hbody.
  - intros reply Hreply.
    destruct (runHandler _ st) as [r st'] eqn:Hrun. cbn [fst snd] in *. subst r.
    destruct (session_start_shape _ _ _ _ _ _ _ _ Hrun)
      as [[_ Hno]|[[_ Hno]|(password & Hbody & Hfresh & [= ->] & ->)]];
      [by destruct (Hno reply)..|].
    exists password. split; [done|]. split; [done|].
    assert (getActiveSession
              (withSession (ended st now)
                 (Session.mk newId (hashPassword password salt) true created None))
            = Some (Session.mk newId (hashPassword password salt) true created None))
      as Hactive.
    { unfold getActiveSession, prismaSession.findFirstLatest, withSession, ended. cbn.
      by rewrite filter_active_app, endActive_inactive. }
    split; [done|].
    intros json' parsed key Hbody' Hrole. unfold SessionJoin.POST. run_handler.
    rewrite Hbody', Hactive. cbn [Session.passwordHash Session.id Session.createdAt].
    destruct (verifyPassword _ _); [|done]. cbn [negb]. rewrite Hrole. done.
Qed.

Lemma start_session_replaces_the_session_witness :
  runHandler (SessionStart.POST (H := testLibraries) (startBody "日本語") "salt" "csession2"
                200%Z 200%Z) storeStarted1
  = (JsonError 400 "Password must be at least 4 characters", storeStarted1)
  /\ exists password,
       (exists json, startBody "crocus" = Some json
                     /\ SessionStart.bodySchema (H := testLibraries) json = inr password)
       /\ "csession2" = "csession2"
       /\ getActiveSession storeStarted2
          = Some (Session.mk "csession2" (hashPassword (H := testLibraries) password "salt")
                    true 200%Z None)
       /\ forall json' parsed key,
            SessionJoin.bodySchema (H := testLibraries) json' = inr parsed ->
            SessionJoin.role parsed = "student" ->
            runHandler (SessionJoin.POST (H := testLibraries) (Some json') key) storeStarted2
            = (if verifyPassword (H := testLibraries) (SessionJoin.password parsed)
                    (hashPassword (H := testLibraries) password "salt")
               then Json200 (SessionJoin.mkReply "csession2" "student" 200%Z)
               else JsonError 401 "Incorrect password. Try again.",
               storeStarted2).
Proof.
  split.
  - refine (proj1 (start_session_replaces_the_session (H := testLibraries) (startBody "日本語")
              "salt" "csession2" 200%Z 200%Z storeStarted1)
              [("password", JString "日本語")] "日本語" _ _ _); concrete.
  - exact (proj2 (start_session_replaces_the_session (H := testLibraries) (startBody "crocus")
              "salt" "csession2" 200%Z 200%Z storeStarted1)
              (SessionStart.mkReply "csession2" 200%Z) eq_refl).
Defined.

(** X17. joinSession hands out the teacher role only with the
    dashboard key.  With the session password accepted: a student joins
    whatever key is sent; a teacher joins when no key is configured
    (unset, or blank after trimming, which strips every white space
    character of JavaScript), and with a configured key exactly when
    the key sent equals the configured key trimmed, getting 403
    "Teacher dashboard key is invalid." otherwise.  A password the hash
    rejects gives 401 for either role, whatever the key.  The store is
    never changed. *)
Theorem teacher_join_requires_key `{Libraries} json parsed key active st :
  SessionJoin.bodySchema json = inr parsed ->
  getActiveSession st = Some active ->
  let run := runHandler (SessionJoin.POST (Some json) key) st in
  let accepted := verifyPassword (SessionJoin.password parsed) (Session.passwordHash active) in
  let joined := Json200 (SessionJoin.mkReply (Session.id active) (SessionJoin.role parsed)
                           (Session.createdAt active)) in
  (SessionJoin.role parsed = "student" \/ SessionJoin.role parsed = "teacher")
  /\ run.2 = st
  /\ (accepted = false -> run.1 = JsonError 401 "Incorrect password. Try again.")
  /\ (accepted = true -> SessionJoin.role parsed = "student" -> run.1 = joined)
  /\ (accepted = true -> SessionJoin.role parsed = "teacher" ->
      truthy (trim <$> key) = false -> run.1 = joined)
  /\ (accepted = true -> SessionJoin.role parsed = "teacher" ->
      truthy (trim <$> key) = true ->
      (SessionJoin.teacherKey parsed = (trim <$> key) -> run.1 = joined)
      /\ (SessionJoin.teacherKey parsed <> (trim <$> key) ->
          run.1 = JsonError 403 "Teacher dashboard key is invalid.")).
Proof.
  intros Hbody Hactive run accepted joined.
  assert (run = (if negb accepted then JsonError 401 "Incorrect password. Try again."
                 else if bool_decide (SessionJoin.role parsed = "teacher")
                         && truthy (trim <$> key)
                         && (negb (truthy (SessionJoin.teacherKey parsed))
                             || negb (bool_decide (SessionJoin.teacherKey parsed
                                                   = (trim <$> key))))
                      then JsonError 403 "Teacher dashboard key is invalid."
                      else joined, st)) as ->.
  { subst run. unfold SessionJoin.POST. run_handler. rewrite Hbody, Hactive.
    fold accepted. destruct accepted; cbn [negb]; [|done]. by destruct (_ && _). }
  split.
  { clear -Hbody. unfold SessionJoin.bodySchema, SessionJoin.roleSchema in Hbody.
    repeat (case_match; simplify_eq /=);
      try match goal with Hb : _ || _ = true |- _ =>
            apply orb_true_iff in Hb as [?%bool_decide_eq_true|?%bool_decide_eq_true] end;
      auto. }
  split; [done|]. cbn [fst].
  split; [by intros ->|]. split; [|split].
  - intros -> Hrole. cbn [negb]. by rewrite Hrole.
  - intros -> Hrole Hkey. cbn [negb]. by rewrite Hkey, andb_false_r.
  - intros -> Hrole Hkey. cbn [negb]. rewrite Hrole, Hkey. cbn [bool_decide andb].
    rewrite bool_decide_eq_true_2 by done. cbn [andb]. split.
    + intros Heq. rewrite Heq, Hkey. by rewrite bool_decide_eq_true_2.
    + intros Hne. rewrite (bool_decide_eq_false_2 _ Hne). by rewrite orb_true_r.
Qed.

Lemma teacher_join_requires_key_witness :
  (runHandler (SessionJoin.POST (H := testLibraries)
                 (Some (JObject [("password", JString "tulip"); ("role", JString "teacher");
                                 ("teacherKey", JString "open sesame")]))
                 (Some (nbsp +:+ "open sesame "))) storeStarted1).1
  = Json200 (SessionJoin.mkReply "csession1" "teacher" 100%Z)
  /\ (runHandler (SessionJoin.POST (H := testLibraries)
                    (Some (JObject [("password", JString "tulip"); ("role", JString "teacher")]))
                    (Some " open sesame ")) storeStarted1).1
     = JsonError 403 "Teacher dashboard key is invalid."
  /\ (runHandler (SessionJoin.POST (H := testLibraries)
                    (Some (JObject [("password", JString "tulip"); ("role", JString "teacher")]))
                    (Some (nbsp +:+ " "))) storeStarted1).1
     = Json200 (SessionJoin.mkReply "csession1" "teacher" 100%Z).
Proof.
  split; [|split].
  - destruct (teacher_join_requires_key (H := testLibraries)
                (JObject [("password", JString "tulip"); ("role", JString "teacher");
                          ("teacherKey", JString "open sesame")])
                (SessionJoin.mkBody "tulip" "teacher" (Some "open sesame"))
                (Some (nbsp +:+ "open sesame "))
                (Session.mk "csession1" "salt$tulip" true 100%Z None) storeStarted1)
      as (_ & _ & _ & _ & _ & Hkey); [concrete..|].
    apply Hkey; concrete.
  - destruct (teacher_join_requires_key (H := testLibraries)
                (JObject [("password", JString "tulip"); ("role", JString "teacher")])
                (SessionJoin.mkBody "tulip" "teacher" None)
                (Some " open sesame ")
                (Session.mk "csession1" "salt$tulip" true 100%Z None) storeStarted1)
      as (_ & _ & _ & _ & _ & Hkey); [concrete..|].
    apply Hkey; concrete.
  - destruct (teacher_join_requires_key (H := testLibraries)
                (JObject [("password", JString "tulip"); ("role", JString "teacher")])
                (SessionJoin.mkBody "tulip" "teacher" None)
                (Some (nbsp +:+ " "))
                (Session.mk "csession1" "salt$tulip" true 100%Z None) storeStarted1)
      as (_ & _ & _ & _ & Hblank & _); [concrete..|].
    apply Hblank; concrete.
Defined.

(** *** Chat *)

Section ChatEffects.
Context `{Libraries}.

Lemma messageSchema_bounds json content :
  ChatMessages.messageSchema json = inr content ->
  1 <= jsLength content <= 4000 /\ exists raw, content = trim raw.
Proof.
  unfold ChatMessages.messageSchema. intros Hparse.
  repeat (case_match; simplify_eq /=).
  repeat match goal with
         | Hb : negb _ = false |- _ => apply negb_false_iff in Hb
         | Hb : bool_decide _ = true |- _ => apply bool_decide_eq_true in Hb
         end.
  split; [lia|by eexists].
Qed.

Lemma findUnique_thread_update (f : ChatThread.t -> ChatThread.t) i rows thread :
  (forall r, ChatThread.id (f r) = ChatThread.id r) ->
  findUnique ChatThread.id i rows = Some thread ->
  findUnique ChatThread.id i
    (List.map (fun r => if bool_decide (ChatThread.id r = i) then f r else r) rows)
  = Some (f thread).
Proof.
  intros Hf. unfold findUnique. induction rows as [|r rows IH]; [done|]. cbn.
  destruct (bool_decide (ChatThread.id r = i)) eqn:E.
  - intros [= ->]. rewrite Hf, E. done.
  - rewrite E. apply IH.
Qed.

End ChatEffects.

Lemma chat_turn_appends `{Libraries} cookies threadId body remote i1 t1 i2 t2 now
    st sent st' :
  runHandler (ChatMessages.POST cookies threadId body remote i1 t1 i2 t2 now) st
  = (Json200 sent, st') ->
  exists thread content aiText,
    prismaChatThread.findUnique threadId st = Some thread
    /\ Some (ChatThread.sessionId thread) = sessionId cookies
    /\ Some (ChatThread.studentId thread) = studentId cookies
    /\ let studentMessage :=
         ChatMessage.mk i1 content STUDENT t1 threadId (studentId cookies) in
       let aiMessage := ChatMessage.mk i2 aiText AI t2 threadId None in
       chatMessages st' = chatMessages st ++ [studentMessage; aiMessage]
       /\ sent = [ChatMessages.sentOf studentMessage; ChatMessages.sentOf aiMessage]
       /\ prismaChatThread.findUnique threadId st' = Some (ChatMessages.touch now thread).
Proof.
  intros Hrun.
  destruct (chat_message_shape _ _ _ _ _ _ _ _ _ _ _ _ Hrun)
    as [[_ Hno]|(thread & content & Hthread & Hsession & Hstudent & _ & _ & _ & Hcases)];
    [by destruct (Hno sent)|].
  cbn zeta in Hcases.
  destruct Hcases as [[_ Hno]|(aiText & _ & _ & [= ->] & ->)]; [by destruct (Hno sent)|].
  exists thread, content, aiText. do 3 (split; [done|]).
  cbn zeta. split; [cbn; by rewrite <- app_assoc|]. split; [done|].
  unfold prismaChatThread.findUnique, touched. cbn.
  by apply findUnique_thread_update.
Qed.

(** X18. A chat turn that succeeds stores the whole exchange.  On 200
    the thread is the caller's own; the student's message (the content
    trimmed, of length 1 to 4000) and after it the AI's message (the
    text the remote call returned for the ordered history of the thread,
    the new message included) are appended to the chat messages; the
    reply lists the two in that order; the thread's updatedAt becomes
    now; nothing else in the store changes: every other thread, every
    other field of this thread and the other three tables are as
    before. *)
Theorem chat_exchange_is_stored `{Libraries} cookies threadId body remote i1 t1 i2 t2 now
    st sent st' :
  runHandler (ChatMessages.POST cookies threadId body remote i1 t1 i2 t2 now) st
  = (Json200 sent, st') ->
  exists thread content aiText,
    prismaChatThread.findUnique threadId st = Some thread
    /\ Some (ChatThread.sessionId thread) = sessionId cookies
    /\ Some (ChatThread.studentId thread) = studentId cookies
    /\ (exists json, body = Some json /\ ChatMessages.messageSchema json = inr content)
    /\ 1 <= jsLength content <= 4000
    /\ let studentMessage :=
         ChatMessage.mk i1 content STUDENT t1 threadId (studentId cookies) in
       let aiMessage := ChatMessage.mk i2 aiText AI t2 threadId None in
       remote ((fun m => (ChatMessage.sender m, ChatMessage.content m))
                 <$> orderedHistory threadId (withMessage st studentMessage))
       = inr aiText
       /\ chatMessages st' = chatMessages st ++ [studentMessage; aiMessage]
       /\ sent = [ChatMessages.sentOf studentMessage; ChatMessages.sentOf aiMessage]
       /\ prismaChatThread.findUnique threadId st' = Some (ChatMessages.touch now thread)
       /\ chatThreads st'
          = (fun t => if bool_decide (ChatThread.id t = threadId)
                      then ChatThread.mk (ChatThread.id t) (ChatThread.title t)
                             (ChatThread.createdAt t) now
                             (ChatThread.sessionId t) (ChatThread.studentId t)
                      else t) <$> chatThreads st
       /\ sessions st' = sessions st /\ students st' = students st
       /\ promptSubmissions st' = promptSubmissions st.
Proof.
  intros Hrun.
  destruct (chat_message_shape _ _ _ _ _ _ _ _ _ _ _ _ Hrun)
    as [[_ Hno]|(thread & content & Hthread & Hsession & Hstudent & _ & Hbody & _ & Hcases)];
    [by destruct (Hno sent)|].
  cbn zeta in Hcases.
  destruct Hcases as [[_ Hno]|(aiText & Hremote & _ & [= ->] & ->)]; [by destruct (Hno sent)|].
  exists thread, content, aiText. do 4 (split; [done|]).
  destruct Hbody as (json & _ & Hparse).
  split; [by apply messageSchema_bounds in Hparse as [? _]|].
  cbn zeta. split; [done|]. split; [cbn; by rewrite <- app_assoc|]. split; [done|].
  split.
  { unfold prismaChatThread.findUnique, touched. cbn.
    by apply findUnique_thread_update. }
  split; [|done]. reflexivity.
Qed.

Lemma chat_exchange_is_stored_witness :
  chatMessages
    (runHandler (ChatMessages.POST (H := testLibraries) cookiesA "cthread1"
                   (Some (JObject [("content", JString " What is a kite? ")]))
                   chatOk "cmessage1" 300%Z "cmessage2" 301%Z 302%Z)
                (classroomWithThreads 1)).2
  = [question;
     ChatMessage.mk "cmessage2" "You said: What is a kite?" AI 301%Z "cthread1" None].
Proof.
  destruct (chat_exchange_is_stored (H := testLibraries) cookiesA "cthread1"
              (Some (JObject [("content", JString " What is a kite? ")]))
              chatOk "cmessage1" 300%Z "cmessage2" 301%Z 302%Z (classroomWithThreads 1)
              [ChatMessages.mkSent "cmessage1" "What is a kite?" STUDENT 300%Z;
               ChatMessages.mkSent "cmessage2" "You said: What is a kite?" AI 301%Z]
              (runHandler (ChatMessages.POST (H := testLibraries) cookiesA "cthread1"
                   (Some (JObject [("content", JString " What is a kite? ")]))
                   chatOk "cmessage1" 300%Z "cmessage2" 301%Z 302%Z)
                (classroomWithThreads 1)).2)
    as (thread & content & aiText & _ & _ & _ & _ & _ & _ & Hmessages & _).
  - vm_compute. reflexivity.
  - vm_compute. reflexivity.
Defined.

Section HistoryWindow.

#[local] Instance olderFirst_flip {A} (time : A -> DateTime) :
  subrelation (flip (newerFirst time)) (olderFirst time).
Proof. by intros a b. Qed.

Lemma Sorted_subrelation {A} (R R' : relation A) l :
  (forall a b, R a b -> R' a b) -> Sorted R l -> Sorted R' l.
Proof.
  intros Hsub. induction 1 as [|x l _ IH Hhd]; constructor; [done|].
  destruct Hhd; constructor; auto.
Qed.

Lemma StronglySorted_take {A} (R : relation A) n l :
  StronglySorted R l -> StronglySorted R (take n l).
Proof.
  intros Hl. rewrite <- (take_drop n l) in Hl. by apply StronglySorted_app_1_l in Hl.
Qed.

End HistoryWindow.

(** X19. The history a chat turn sends to the remote call is the
    newest window of the thread: at most 20 messages (all of them when
    the thread has no more), all of that thread, oldest first, and no
    message left out is newer than one that is sent.  It ends with the
    message just stored whenever that one is newer than all the others. *)
Theorem history_is_newest_window threadId st :
  let history := orderedHistory threadId st in
  let inThread := List.filter (fun m => bool_decide (ChatMessage.threadId m = threadId))
                              (chatMessages st) in
  length history = min ChatMessages.MAX_HISTORY_MESSAGES (length inThread)
  /\ Sorted (olderFirst ChatMessage.createdAt) history
  /\ (exists leftOut,
        leftOut ++ history ≡ₚ inThread
        /\ forall old m, old ∈ leftOut -> m ∈ history ->
                         (ChatMessage.createdAt old <= ChatMessage.createdAt m)%Z)
  /\ (forall st0 new,
        st = withMessage st0 new ->
        ChatMessage.threadId new = threadId ->
        (forall m, m ∈ chatMessages st0 -> ChatMessage.threadId m = threadId ->
                   (ChatMessage.createdAt m < ChatMessage.createdAt new)%Z) ->
        last history = Some new).
Proof.
  intros history inThread. subst history.
  unfold orderedHistory, prismaChatMessage.findMany, orderByCreatedAtDesc. fold inThread.
  set (sorted := merge_sort (newerFirst ChatMessage.createdAt) inThread).
  assert (sorted ≡ₚ inThread) as Hperm by apply merge_sort_Permutation.
  assert (StronglySorted (newerFirst ChatMessage.createdAt) sorted) as Hsorted
    by (apply StronglySorted_merge_sort; apply _).
  change (firstn ?n ?l) with (take n l).
  split; [|split; [|split]].
  - rewrite length_rev, length_take, <- (Permutation_length Hperm). done.
  - rewrite rev_alt. fold (reverse (take ChatMessages.MAX_HISTORY_MESSAGES sorted)).
    eapply (Sorted_subrelation (flip (newerFirst ChatMessage.createdAt))); [by intros a b|].
    apply Sorted_reverse, StronglySorted_Sorted. by apply StronglySorted_take.
  - exists (drop ChatMessages.MAX_HISTORY_MESSAGES sorted). split.
    + etrans; [|exact Hperm]. etrans; [apply Permutation_app_comm|].
      etrans; [apply Permutation_app_tail; symmetry; apply Permutation_rev|].
      by rewrite take_drop.
    + intros old m Hold Hm. apply list_elem_of_In in Hm. rewrite <- List.in_rev in Hm.
      apply list_elem_of_In in Hm.
      rewrite <- (take_drop ChatMessages.MAX_HISTORY_MESSAGES sorted) in Hsorted.
      by apply (StronglySorted_app_1_elem_of _ _ _ m old) in Hsorted.
  - intros st0 new -> Hthread Hnewest.
    assert (new ∈ sorted) as Hnew.
    { rewrite Hperm. subst inThread. cbn. rewrite List.filter_app. cbn.
      rewrite bool_decide_eq_true_2 by done. apply elem_of_app. right. left. }
    destruct sorted as [|h rest] eqn:Hs; [by apply elem_of_nil in Hnew|].
    assert (h = new) as ->.
    { assert (h ∈ inThread) as Hh by (rewrite <- Hperm; left).
      subst inThread. cbn in Hh. rewrite List.filter_app in Hh. cbn in Hh.
      rewrite bool_decide_eq_true_2 in Hh by done.
      apply elem_of_app in Hh as [Hh|Hh%list_elem_of_singleton]; [|done].
      apply list_elem_of_In, List.filter_In in Hh as [Hh%list_elem_of_In Hhthread].
      apply bool_decide_eq_true in Hhthread.
      specialize (Hnewest _ Hh Hhthread).
      apply elem_of_cons in Hnew as [->|Hnew]; [done|].
      apply StronglySorted_inv in Hsorted as [_ Hall]. rewrite Forall_forall in Hall.
      specialize (Hall _ Hnew). unfold newerFirst in Hall. lia. }
    cbn. by rewrite last_snoc.
Qed.

(** X20. A chat turn is refused before anything is stored unless the
    caller is a student writing in a thread of their own: without the
    student cookies the answer is 403; for a thread that does not exist,
    or belongs to another student or session, 404 "Chat not found.",
    whatever the body; for a message that is blank after trimming
    (made of JavaScript's white space characters only), 400 "Message
    cannot be empty".  So every message a request adds belongs
    to the thread named in the request, and that thread is the caller's. *)
Theorem chat_only_in_own_thread `{Libraries} cookies threadId body remote i1 t1 i2 t2 now st :
  let run := runHandler (ChatMessages.POST cookies threadId body remote i1 t1 i2 t2 now) st in
  (truthy (sessionId cookies) = false \/ role cookies <> Some "student"
   \/ truthy (studentId cookies) = false ->
   run = (JsonError 403 "Student access required.", st))
  /\ (forall sid stu,
        cookies = mkCookies (Some sid) (Some "student") (Some stu) -> sid <> "" -> stu <> "" ->
        (~ (exists thread, prismaChatThread.findUnique threadId st = Some thread
                           /\ ChatThread.sessionId thread = sid
                           /\ ChatThread.studentId thread = stu) ->
         run = (JsonError 404 "Chat not found.", st))
        /\ (forall thread fields raw,
              prismaChatThread.findUnique threadId st = Some thread ->
              ChatThread.sessionId thread = sid -> ChatThread.studentId thread = stu ->
              body = Some (JObject fields) ->
              field "content" (JObject fields) = Some (JString raw) ->
              trim raw = "" ->
              run = (JsonError 400 "Message cannot be empty", st)))
  /\ (forall m, m ∈ chatMessages run.2 -> m ∉ chatMessages st ->
        ChatMessage.threadId m = threadId
        /\ exists thread,
             prismaChatThread.findUnique threadId st = Some thread
             /\ Some (ChatThread.sessionId thread) = sessionId cookies
             /\ Some (ChatThread.studentId thread) = studentId cookies).
Proof.
  intros run. subst run. split; [|split].
  - intros Hgate. unfold ChatMessages.POST. run_handler.
    destruct Hgate as [-> | [Hrole | ->]]; [done| |by rewrite !orb_true_r].
    rewrite (bool_decide_eq_false_2 (role cookies = _)) by done. by rewrite orb_true_r.
  - intros sid stu -> Hsid Hstu. split.
    + intros Hnone. unfold ChatMessages.POST. run_handler. cbn.
      rewrite !bool_decide_eq_true_2 by done. cbn.
      destruct (prismaChatThread.findUnique threadId st) as [thread|] eqn:Hfind; [|done].
      destruct (decide (ChatThread.sessionId thread = sid)) as [Hs|Hs];
        [|by rewrite (bool_decide_eq_false_2 (Some _ = Some sid)) by congruence].
      destruct (decide (ChatThread.studentId thread = stu)) as [Ht|Ht];
        [|rewrite (bool_decide_eq_false_2 (Some _ = Some stu)) by congruence;
          by rewrite orb_true_r].
      destruct Hnone. by exists thread.
    + intros thread fields raw Hfind Hs Ht -> Hfield Hblank.
      assert (ChatMessages.messageSchema (JObject fields)
              = inl (ZodError "Message cannot be empty")) as Hbody.
      { unfold ChatMessages.messageSchema. rewrite Hfield, Hblank. done. }
      revert Hbody. generalize (JObject fields). intros json Hbody.
      unfold ChatMessages.POST. run_handler. cbn.
      rewrite !bool_decide_eq_true_2 by done. cbn. rewrite Hfind, Hs, Ht.
      rewrite !bool_decide_eq_true_2 by done. cbn. by rewrite Hbody.
  - intros m Hm Hnew.
    destruct (runHandler _ st) as [r st'] eqn:Hrun. cbn [snd] in Hm.
    destruct (chat_message_shape _ _ _ _ _ _ _ _ _ _ _ _ Hrun)
      as [[-> _]|(thread & content & Hthread & Hsession & Hstudent & _ & _ & _ & Hcases)];
      [done|].
    cbn zeta in Hcases.
    assert (ChatMessage.threadId m = threadId) as Hin.
    { destruct Hcases as [[-> _]|(aiText & _ & _ & _ & ->)]; cbn in Hm.
      - apply elem_of_app in Hm as [Hm|Hm%list_elem_of_singleton]; [done|by subst].
      - apply elem_of_app in Hm as [Hm|Hm%list_elem_of_singleton]; [|by subst].
        apply elem_of_app in Hm as [Hm|Hm%list_elem_of_singleton]; [done|by subst]. }
    split; [done|]. by exists thread.
Qed.

Lemma chat_only_in_own_thread_witness :
  runHandler (ChatMessages.POST (H := testLibraries) cookiesB "cthread1"
                (Some (JObject [("content", JString "What is a kite?")]))
                chatOk "cmessage1" 300%Z "cmessage2" 301%Z 302%Z) (classroomWithThreads 1)
  = (JsonError 404 "Chat not found.", classroomWithThreads 1)
  /\ runHandler (ChatMessages.POST (H := testLibraries) cookiesA "cthread1"
                   (Some (JObject [("content", JString (" " +:+ nbsp +:+ " "))]))
                   chatOk "cmessage1" 300%Z "cmessage2" 301%Z 302%Z) (classroomWithThreads 1)
     = (JsonError 400 "Message cannot be empty", classroomWithThreads 1).
Proof.
  split.
  - destruct (chat_only_in_own_thread (H := testLibraries) cookiesB "cthread1"
                (Some (JObject [("content", JString "What is a kite?")]))
                chatOk "cmessage1" 300%Z "cmessage2" 301%Z 302%Z (classroomWithThreads 1))
      as (_ & Hgate & _).
    destruct (Hgate "csession1" "cstudent1") as [Hmissing _]; [concrete..|].
    apply Hmissing. intros (thread & Hfind & _ & Howner).
    vm_compute in Hfind. injection Hfind as <-. discriminate Howner.
  - destruct (chat_only_in_own_thread (H := testLibraries) cookiesA "cthread1"
                (Some (JObject [("content", JString (" " +:+ nbsp +:+ " "))]))
                chatOk "cmessage1" 300%Z "cmessage2" 301%Z 302%Z (classroomWithThreads 1))
      as (_ & Hgate & _).
    destruct (Hgate "csession1" "cstudent0") as [_ Hblank]; [concrete..|].
    apply (Hblank firstThread [("content", JString (" " +:+ nbsp +:+ " "))] (" " +:+ nbsp +:+ " ")); concrete.
Defined.

(** *** Credentials *)

Section CredentialContents.
Context `{Libraries}.
Import TeacherStudentsGenerate.

Lemma createStudents_credentials sid n :
  forall i used tape salts ids created creds st creds' st',
    createStudents sid n i used tape salts ids created creds st = Some (inr creds', st') ->
    exists made news,
      creds' = creds ++ made
      /\ st' = withStudents st news
      /\ Forall2 (fun c s => exists k,
                    i <= k < i + n
                    /\ s = Student.mk (ids k) (username c)
                             (hashPassword (password c) (salts k)) (created k) sid)
                 made news
      /\ Forall (fun c => (exists b, b ∈ tape /\ username c = randomCode b)
                          /\ (exists b, b ∈ tape /\ password c = randomCode b)) made.
Proof.
  induction n as [|n IH]; intros i used tape salts ids created creds st creds' st' Hrun.
  - cbn in Hrun. simplify_eq. exists [], []. rewrite app_nil_r.
    split; [done|]. split; [unfold withStudents; rewrite app_nil_r; by destruct st'|].
    split; constructor.
  - cbn in Hrun.
    destruct (drawUsername used tape) as [[u tape1]|] eqn:Hdraw; [|done].
    apply drawUsername_inv in Hdraw as (junk & bytes & -> & _ & -> & _).
    destruct tape1 as [|pbytes tape2]; [done|].
    unfold prismaStudent.create in Hrun. cbn in Hrun.
    repeat (case_match; simplify_eq /=).
    apply IH in Hrun as (made & news & -> & -> & Hrows & Htape).
    eexists (_ :: made), (_ :: news). split; [by rewrite <- app_assoc|].
    split; [unfold withStudents; cbn; by rewrite <- app_assoc|]. split.
    + constructor.
      * exists i. split; [lia|done].
      * eapply Forall2_impl; [exact Hrows|]. cbn. intros c s (k & Hk & ->).
        exists k. split; [lia|done].
    + constructor.
      * cbn. split; eexists; (split; [|reflexivity]);
          rewrite elem_of_app, !elem_of_cons; auto.
      * eapply Forall_impl; [exact Htape|]. cbn.
        intros c [(b & Hb & ->) (b' & Hb' & ->)].
        split; eexists; (split; [|reflexivity]); rewrite elem_of_app, !elem_of_cons; auto.
Qed.

Lemma bodySchema_count json count :
  bodySchema json = inr count -> 1 <= count <= 50.
Proof.
  unfold bodySchema. intros Hparse. repeat (case_match; simplify_eq /=).
  repeat match goal with
         | Hb : bool_decide _ = false |- _ => apply bool_decide_eq_false in Hb
         end.
  lia.
Qed.

End CredentialContents.

(** X21. Credential generation is all or nothing, and what it hands
    out is what it stores.  Unless the answer is 200 the store is
    unchanged, also when a row of the batch could not be inserted.  On
    200 the count is between 1 and 50, exactly that many students of the
    teacher's session are appended, and credential k and student k have
    the same username, the student's password hash being the hash of
    credential k's password; every username and password is the code of
    one buffer of random bytes. *)
Theorem credentials_are_all_or_nothing `{Libraries} cookies body tape salts ids created
    st r st' :
  TeacherStudentsGenerate.POST cookies body tape salts ids created st = Some (r, st') ->
  ((forall credentials, r <> Json200 credentials) -> st' = st)
  /\ (forall credentials, r = Json200 credentials ->
      exists sid count news,
        sessionId cookies = Some sid /\ role cookies = Some "teacher"
        /\ (exists json, body = Some json
                         /\ TeacherStudentsGenerate.bodySchema json = inr count)
        /\ 1 <= count <= 50
        /\ length credentials = count
        /\ st' = withStudents st news
        /\ Forall2 (fun c s => exists k,
                      k < count
                      /\ s = Student.mk (ids k) (TeacherStudentsGenerate.username c)
                               (hashPassword (TeacherStudentsGenerate.password c) (salts k))
                               (created k) sid)
                   credentials news
        /\ Forall (fun c =>
                     (exists b, b ∈ tape /\ TeacherStudentsGenerate.username c
                                           = TeacherStudentsGenerate.randomCode b)
                     /\ (exists b, b ∈ tape /\ TeacherStudentsGenerate.password c
                                              = TeacherStudentsGenerate.randomCode b))
                  credentials).
Proof.
  intros Hrun.
  destruct (students_generate_shape _ _ _ _ _ _ _ _ _ Hrun)
    as [[-> Hno]|(sid & count & credentials & news & Hsid & _ & Hrole & Hbody & Hloop
                  & Hlen & -> & ->)].
  { split; [done|]. intros credentials ->. by destruct (Hno credentials). }
  split; [intros Hno; by destruct (Hno credentials)|].
  intros credentials' [= <-].
  destruct (createStudents_credentials _ _ _ _ _ _ _ _ _ _ _ _ Hloop)
    as (made & news' & -> & Hstore & Hrows & Htape).
  assert (news' = news) as ->.
  { unfold withStudents in Hstore. injection Hstore as Hstore. by apply app_inv_head in Hstore. }
  exists sid, count, news. split; [done|]. split; [done|]. split; [done|].
  destruct Hbody as (json & -> & Hparse).
  split; [by eapply bodySchema_count|].
  split; [cbn; apply Forall2_length in Hrows; lia|]. split; [done|]. split; [|done].
  eapply Forall2_impl; [exact Hrows|]. cbn. intros c s (k & Hk & ->). exists k.
  split; [lia|done].
Qed.

Lemma credentials_are_all_or_nothing_witness :
  exists sid count news,
    sessionId teacherCookies = Some sid /\ role teacherCookies = Some "teacher"
    /\ (exists json, Some (JObject (countBody 2)) = Some json
                     /\ TeacherStudentsGenerate.bodySchema (H := testLibraries) json = inr count)
    /\ 1 <= count <= 50
    /\ length twoCredentials = count
    /\ classroomWithStudents = withStudents storeStarted1 news
    /\ Forall2 (fun c s => exists k,
                  k < count
                  /\ s = Student.mk (studentIds k) (TeacherStudentsGenerate.username c)
                           (hashPassword (H := testLibraries)
                              (TeacherStudentsGenerate.password c) "salt")
                           (studentTimes k) sid)
               twoCredentials news
    /\ Forall (fun c =>
                 (exists b, b ∈ tapeOf twoStudents
                            /\ TeacherStudentsGenerate.username c
                               = TeacherStudentsGenerate.randomCode b)
                 /\ (exists b, b ∈ tapeOf twoStudents
                               /\ TeacherStudentsGenerate.password c
                                  = TeacherStudentsGenerate.randomCode b))
              twoCredentials.
Proof.
  refine (proj2 (credentials_are_all_or_nothing (H := testLibraries) teacherCookies
                   (Some (JObject (countBody 2))) (tapeOf twoStudents) (fun _ => "salt")
                   studentIds studentTimes storeStarted1 (Json200 twoCredentials)
                   classroomWithStudents _) twoCredentials eq_refl).
  vm_compute. reflexivity.
Defined.

(** *** The random codes *)

Section RandomCodes.
Import TeacherStudentsGenerate.

Lemma list_ascii_of_string_app (s1 s2 : string) :
  String.list_ascii_of_string (s1 +:+ s2) = String.list_ascii_of_string s1 ++ String.list_ascii_of_string s2.
Proof.
  induction s1 as [|a s1 IH]; [done|].
  change (String a s1 +:+ s2) with (String a (s1 +:+ s2)). cbn. by rewrite IH.
Qed.

Lemma get_in_range n (s : string) :
  n < String.length s ->
  exists a, String.get n s = Some a /\ a ∈ String.list_ascii_of_string s.
Proof.
  revert n. induction s as [|a s IH]; intros n Hn; cbn in Hn; [lia|].
  destruct n as [|n]; cbn.
  - exists a. split; [done|left].
  - destruct (IH n) as (a' & Hget & Hin); [lia|]. exists a'. split; [done|by right].
Qed.

Lemma charAt_chars b :
  exists a, charAt chars (Byte.to_nat b mod String.length chars) = String a EmptyString
            /\ a ∈ String.list_ascii_of_string chars.
Proof.
  destruct (get_in_range (Byte.to_nat b mod String.length chars) chars) as (a & Hget & Hin).
  { apply Nat.mod_upper_bound. by vm_compute. }
  exists a. unfold charAt. by rewrite Hget.
Qed.

Lemma randomCode_from acc bytes :
  String.list_ascii_of_string
    (foldl (fun result b => result +:+ charAt chars (Byte.to_nat b mod String.length chars))
           acc bytes)
  = String.list_ascii_of_string acc
    ++ ((fun b => default "?"%char
                    (String.get (Byte.to_nat b mod String.length chars) chars)) <$> bytes).
Proof.
  revert acc. induction bytes as [|b bytes IH]; intros acc; cbn [foldl fmap list_fmap].
  - by rewrite app_nil_r.
  - rewrite IH, list_ascii_of_string_app, <- app_assoc. f_equal.
    destruct (charAt_chars b) as (a & Hchar & _). rewrite Hchar.
    unfold charAt in Hchar.
    destruct (String.get (Byte.to_nat b mod String.length chars) chars) as [a'|]; [|done].
    by injection Hchar as ->.
Qed.

End RandomCodes.

(** X22. A random code has one character for each random byte, every
    character is taken from the 57-character alphabet (the index never
    leaves it), and so none is one of the look-alikes I, O, l, 0, 1:
    this holds for every username and password handed out. *)
Theorem random_codes_use_the_alphabet bytes :
  let code := TeacherStudentsGenerate.randomCode bytes in
  String.length code = length bytes
  /\ Forall (fun a => a ∈ String.list_ascii_of_string TeacherStudentsGenerate.chars)
            (String.list_ascii_of_string code)
  /\ Forall (fun a => a ∉ lookAlikes) (String.list_ascii_of_string code).
Proof.
  intros code. subst code. unfold TeacherStudentsGenerate.randomCode.
  assert (forall s, String.length s = length (String.list_ascii_of_string s)) as Hlen
    by (intros s; induction s; cbn; congruence).
  rewrite Hlen, randomCode_from. cbn [String.list_ascii_of_string app].
  assert (Forall (fun a => a ∈ String.list_ascii_of_string TeacherStudentsGenerate.chars)
            ((fun b => default "?"%char
                (String.get (Byte.to_nat b mod String.length TeacherStudentsGenerate.chars)
                   TeacherStudentsGenerate.chars)) <$> bytes)) as Halphabet.
  { rewrite Forall_fmap. apply Forall_forall. intros b _. unfold compose.
    destruct (charAt_chars b) as (a & Hchar & Hin).
    unfold TeacherStudentsGenerate.charAt in Hchar.
    destruct (String.get _ TeacherStudentsGenerate.chars) as [a'|]; [|done].
    by injection Hchar as ->. }
  split; [by rewrite length_fmap|]. split; [done|].
  eapply Forall_impl; [exact Halphabet|]. intros a Ha Hlook.
  assert (Forall (fun a => a ∉ lookAlikes)
            (String.list_ascii_of_string TeacherStudentsGenerate.chars)) as Hnone
    by (apply (bool_decide_unpack _); vm_compute; exact I).
  rewrite Forall_forall in Hnone. by apply (Hnone a).
Qed.

Ltac run_response :=
  cbv beta iota delta [runResponse runHandler tryCatch bind ret throw getStore parse requestJson
    awaitRemote getSessionFromCookies] in *.

(** *** Student login *)

Section Login.
Context `{Libraries}.
Import TeacherStudentsGenerate.

Lemma find_app_none {A} (f : A -> bool) (l l' : list A) :
  (forall x, x ∈ l -> f x = false) -> List.find f (l ++ l') = List.find f l'.
Proof.
  induction l as [|x l IH]; [done|]. intros Hall. cbn.
  rewrite (Hall x) by left. apply IH. intros y Hy. apply Hall. by right.
Qed.

Lemma find_unique_match {A} (f : A -> bool) (l : list A) x :
  x ∈ l -> f x = true -> (forall y, y ∈ l -> f y = true -> y = x) -> List.find f l = Some x.
Proof.
  intros Hin Hx Huniq. destruct (List.find f l) as [y|] eqn:Hfind.
  - apply List.find_some in Hfind as [Hy%list_elem_of_In Hfy]. f_equal. by apply Huniq.
  - apply list_elem_of_In in Hin. eapply List.find_none in Hfind; [|exact Hin]. congruence.
Qed.

End Login.

(** X23. The credentials the teacher is handed work.  After a
    successful credential generation for the active session, a student
    who logs in with any of the generated username and password pairs
    (the hash accepting the password it was made from) is answered 200
    with the id of the student row that carries this username, and gets
    the session, role and student cookies of that row; the store is
    unchanged. *)
Theorem login_accepts_generated_credentials `{Libraries} cookies body tape salts ids created
    st credentials st' active c json :
  TeacherStudentsGenerate.POST cookies body tape salts ids created st
  = Some (Json200 credentials, st') ->
  getActiveSession st = Some active ->
  sessionId cookies = Some (Session.id active) ->
  c ∈ credentials ->
  StudentLogin.bodySchema json
  = inr (StudentLogin.mkBody (TeacherStudentsGenerate.username c)
                             (TeacherStudentsGenerate.password c)) ->
  (forall k, verifyPassword (TeacherStudentsGenerate.password c)
               (hashPassword (TeacherStudentsGenerate.password c) (salts k)) = true) ->
  exists student,
    student ∈ students st'
    /\ Student.username student = TeacherStudentsGenerate.username c
    /\ Student.sessionId student = Session.id active
    /\ runResponse (StudentLogin.POST (Some json)) st'
       = (mkResponse
            (Json200 (StudentLogin.mkReply (Session.id active) "student" (Student.id student)
                        (TeacherStudentsGenerate.username c)))
            [CookieSet sessionCookieName (Session.id active) StudentLogin.maxAge;
             CookieSet roleCookieName "student" StudentLogin.maxAge;
             CookieSet studentCookieName (Student.id student) StudentLogin.maxAge],
          st').
Proof.
  intros Hrun Hactive Hcookie Hc Hbody Hbcrypt.
  destruct (students_generate_shape _ _ _ _ _ _ _ _ _ Hrun)
    as [[_ Hno]|(sid & count & credentials' & news & Hsid & _ & _ & _ & Hloop & _
                 & [= <-] & ->)];
    [by destruct (Hno credentials)|].
  rewrite Hcookie in Hsid. injection Hsid as <-.
  destruct (createStudents_credentials _ _ _ _ _ _ _ _ _ _ _ _ Hloop)
    as (made & news' & Hmade & Hstore & Hrows & _). cbn in Hmade. subst made.
  assert (news' = news) as ->.
  { unfold withStudents in Hstore. injection Hstore as Hstore. by apply app_inv_head in Hstore. }
  destruct (createStudents_spec _ _ _ _ _ _ _ _ _ _ _ _ Hloop)
    as (news'' & Hstore' & _ & Hfresh & Hnodup & _).
  assert (news'' = news) as ->.
  { unfold withStudents in Hstore'. injection Hstore' as Hstore'.
    by apply app_inv_head in Hstore'. }
  apply list_elem_of_lookup in Hc as [n Hn].
  destruct (Forall2_lookup_l _ _ _ _ _ Hrows Hn) as (student & Hstudent & k & _ & Hrow).
  exists student.
  assert (student ∈ news) as Hin by (by eapply list_elem_of_lookup_2).
  split; [cbn; apply elem_of_app; by right|].
  split; [by rewrite Hrow|]. split; [by rewrite Hrow|].
  assert (StudentLogin.findStudent (TeacherStudentsGenerate.username c) (Session.id active)
            (withStudents st news) = Some student) as Hfound.
  { unfold StudentLogin.findStudent. cbn. rewrite find_app_none.
    - apply find_unique_match; [done|by rewrite Hrow; cbn; rewrite !bool_decide_eq_true_2|].
      intros other Hother [Hname%bool_decide_eq_true _]%andb_true_iff.
      apply list_elem_of_lookup in Hother as [m Hm].
      assert (m = n) as ->; [|congruence].
      eapply NoDup_lookup; [exact Hnodup| |].
      + by rewrite list_lookup_fmap, Hm.
      + rewrite list_lookup_fmap, Hstudent. cbn. rewrite Hname. by rewrite Hrow.
    - intros old Hold. apply andb_false_iff.
      destruct (decide (Student.username old = TeacherStudentsGenerate.username c)) as [Hname|];
        [right|left; by apply bool_decide_eq_false].
      apply bool_decide_eq_false. intros Hsession.
      rewrite Forall_forall in Hfresh. destruct (Hfresh _ Hin) as [_ Hnew].
      apply Hnew. rewrite Hrow. cbn. rewrite <- Hname.
      by apply (usedUsernames_covers (Session.id active) st old). }
  unfold StudentLogin.POST. run_response. rewrite Hbody.
  assert (prismaSession.findFirstLatest Session.isActive (withStudents st news) = Some active)
    as -> by exact Hactive.
  cbn [StudentLogin.username StudentLogin.password]. rewrite Hfound.
  subst student. cbn [Student.passwordHash Student.id Student.username].
  by rewrite Hbcrypt.
Qed.

Lemma login_accepts_generated_credentials_witness :
  exists student,
    student ∈ students classroomWithStudents
    /\ Student.username student = "ABabABd2"
    /\ Student.sessionId student = "csession1"
    /\ runResponse (StudentLogin.POST (H := testLibraries)
                      (Some (JObject [("username", JString "ABabABd2");
                                      ("password", JString "FGHJKLMN")])))
                   classroomWithStudents
       = (mkResponse
            (Json200 (StudentLogin.mkReply "csession1" "student" (Student.id student)
                        "ABabABd2"))
            [CookieSet sessionCookieName "csession1" StudentLogin.maxAge;
             CookieSet roleCookieName "student" StudentLogin.maxAge;
             CookieSet studentCookieName (Student.id student) StudentLogin.maxAge],
          classroomWithStudents).
Proof.
  refine (login_accepts_generated_credentials (H := testLibraries) teacherCookies
            (Some (JObject (countBody 2))) (tapeOf twoStudents) (fun _ => "salt")
            studentIds studentTimes storeStarted1 twoCredentials classroomWithStudents
            (Session.mk "csession1" "salt$tulip" true 100%Z None)
            (TeacherStudentsGenerate.mkCredential "ABabABd2" "FGHJKLMN")
            (JObject [("username", JString "ABabABd2"); ("password", JString "FGHJKLMN")])
            _ _ _ _ _ _).
  - vm_compute. reflexivity.
  - reflexivity.
  - reflexivity.
  - left.
  - reflexivity.
  - intros _. reflexivity.
Defined.

#[global] Instance olderFirst_total {A} (time : A -> DateTime) : Total (olderFirst time).
Proof. intros a b. unfold olderFirst. lia. Qed.

#[global] Instance olderFirst_transitive {A} (time : A -> DateTime) :
  Transitive (olderFirst time).
Proof. intros a b c. unfold olderFirst. lia. Qed.

(** *** Session lookup *)

(** X24. The session lookup never changes the store and never answers
    with an error.  It reports a session only when the session cookie
    names a stored session that is active, and a student only when the
    student cookie names a stored student of that very session; the role
    is the role cookie as it came.  Whenever it reports no session
    although a session cookie was sent (the session is unknown or ended,
    or the student is not one of the session), it deletes all three
    cookies; otherwise it touches none. *)
Theorem session_lookup_is_safe cookies st :
  let run := runResponse (SessionLookup.GET cookies) st in
  run.2 = st
  /\ (exists body, answer run.1 = Json200 body)
  /\ (forall info,
        answer run.1 = Json200 (Some info) ->
        cookieOps run.1 = []
        /\ SessionLookup.infoRole info = role cookies
        /\ exists session,
             session ∈ sessions st
             /\ Some (Session.id session) = sessionId cookies
             /\ Session.isActive session = true
             /\ SessionLookup.sessionId info = Session.id session
             /\ SessionLookup.createdAt info = Session.createdAt session
             /\ match SessionLookup.student info with
                | None => truthy (studentId cookies) = false
                | Some s =>
                    exists record,
                      record ∈ students st
                      /\ Some (Student.id record) = studentId cookies
                      /\ Student.sessionId record = Session.id session
                      /\ s = SessionLookup.mkStudentInfo (Student.id record)
                             (Student.username record)
                end)
  /\ (answer run.1 = Json200 None ->
      cookieOps run.1 = if truthy (sessionId cookies) then clearCookies else []).
Proof.
  intros run. subst run.
  destruct (runResponse (SessionLookup.GET cookies) st) as [r st'] eqn:Hrun.
  cbn [fst snd]. revert Hrun. unfold SessionLookup.GET, prismaStudent.findUnique.
  run_response. intros Hrun.
  repeat (case_match; simplify_eq /=).
  all: repeat match goal with
         | Hf : findUnique _ _ _ = Some _ |- _ => apply findUnique_Some in Hf as [? ?]
         | Hb : negb _ = false |- _ => apply negb_false_iff in Hb
         | Hb : negb _ = true |- _ => apply negb_true_iff in Hb
         end.
  all: split; [done|]; split; [by eexists|]; split; [|done].
  all: try (by intros info [= ?]).
  all: intros info [= <-]; cbn; split; [done|]; split; [done|].
  all: destruct (sessionId cookies) as [sid|] eqn:Hsid; [|done]; cbn in *.
  all: eexists; split; [eassumption|]; split; [by f_equal|]; split; [done|].
  all: split; [done|]; split; [done|]; try done.
  all: destruct (studentId cookies) as [stu|] eqn:Hstu; [|done]; cbn in *.
  all: eexists; split; [eassumption|]; split; [by f_equal|]; split; [|done].
  all: by match goal with Hb : bool_decide _ = true |- _ => apply bool_decide_eq_true in Hb end.
Qed.

(** *** Chat listings *)

(** X25. Reading a thread shows its owner the whole conversation in
    order.  The handler never changes the store; it answers 403 without
    the student cookies and 404 "Chat not found." unless the thread
    exists and belongs to the caller's session and student.  On 200 the
    messages are exactly the stored messages of that thread, each once,
    oldest first.  After a chat turn that succeeded they are the
    messages from before and the two of that turn. *)
Theorem thread_messages_are_listed `{Libraries} cookies threadId st :
  let run := runHandler (ChatMessagesList.GET cookies threadId) st in
  let ofThread := fun m => bool_decide (ChatMessage.threadId m = threadId) in
  run.2 = st
  /\ (truthy (sessionId cookies) = false \/ role cookies <> Some "student"
      \/ truthy (studentId cookies) = false ->
      run.1 = JsonError 403 "Student access required.")
  /\ (forall reply,
        run.1 = Json200 reply ->
        exists thread rows,
          prismaChatThread.findUnique threadId st = Some thread
          /\ Some (ChatThread.sessionId thread) = sessionId cookies
          /\ Some (ChatThread.studentId thread) = studentId cookies
          /\ ChatMessagesList.thread reply
             = ChatMessagesList.mkThreadInfo (ChatThread.id thread) (ChatThread.title thread)
                 (ChatThread.createdAt thread) (ChatThread.updatedAt thread)
          /\ ChatMessagesList.messages reply = ChatMessages.sentOf <$> rows
          /\ rows ≡ₚ List.filter ofThread (chatMessages st)
          /\ Sorted (olderFirst ChatMessage.createdAt) rows)
  /\ (truthy (sessionId cookies) = true -> role cookies = Some "student" ->
      truthy (studentId cookies) = true ->
      ~ (exists thread,
           prismaChatThread.findUnique threadId st = Some thread
           /\ Some (ChatThread.sessionId thread) = sessionId cookies
           /\ Some (ChatThread.studentId thread) = studentId cookies) ->
      run.1 = JsonError 404 "Chat not found.")
  /\ (forall body remote i1 t1 i2 t2 now sent st0,
        runHandler (ChatMessages.POST cookies threadId body remote i1 t1 i2 t2 now) st0
        = (Json200 sent, st) ->
        exists reply rows first second,
          run.1 = Json200 reply
          /\ ChatMessagesList.messages reply = ChatMessages.sentOf <$> rows
          /\ sent = [ChatMessages.sentOf first; ChatMessages.sentOf second]
          /\ rows ≡ₚ List.filter ofThread (chatMessages st0) ++ [first; second]).
Proof.
  intros run ofThread.
  assert (forall thread,
            prismaChatThread.findUnique threadId st = Some thread ->
            List.filter (fun m => bool_decide (ChatMessage.threadId m = ChatThread.id thread))
                        (chatMessages st)
            = List.filter ofThread (chatMessages st)) as Hfilter.
  { intros thread [_ ->]%findUnique_Some. done. }
  assert (run.2 = st) as Hsame.
  { subst run. unfold ChatMessagesList.GET. run_handler.
    repeat (case_match; simplify_eq /=); done. }
  split; [done|]. split; [|split; [|split]].
  - intros Hgate. subst run. unfold ChatMessagesList.GET. run_handler.
    destruct Hgate as [-> | [Hrole | ->]]; [done| |by rewrite !orb_true_r].
    rewrite (bool_decide_eq_false_2 (role cookies = _)) by done. by rewrite orb_true_r.
  - intros reply. subst run. unfold ChatMessagesList.GET. run_handler.
    destruct (negb _ || negb _ || negb _); [done|].
    destruct (prismaChatThread.findUnique threadId st) as [thread|] eqn:Hfind; [|done].
    destruct (negb (bool_decide (Some (ChatThread.sessionId thread) = sessionId cookies)))
      eqn:Hs; [done|].
    destruct (negb (bool_decide (Some (ChatThread.studentId thread) = studentId cookies)))
      eqn:Ht; [done|].
    apply negb_false_iff, bool_decide_eq_true in Hs, Ht.
    cbn. intros [= <-]. eexists thread, _. cbn.
    split; [done|]. split; [done|]. split; [done|]. split; [done|]. split; [reflexivity|].
    rewrite (Hfilter thread) by done. unfold orderByAsc.
    split; [apply merge_sort_Permutation|]. apply Sorted_merge_sort; apply _.
  - intros Hsid Hrole Hstu Hnone. subst run. unfold ChatMessagesList.GET. run_handler.
    rewrite Hsid, Hstu, Hrole. rewrite bool_decide_eq_true_2 by done. cbn [negb orb].
    destruct (prismaChatThread.findUnique threadId st) as [thread|] eqn:Hfind; [|done].
    destruct (decide (Some (ChatThread.sessionId thread) = sessionId cookies)) as [Hs|Hs];
      [|by rewrite (bool_decide_eq_false_2 _ Hs)].
    destruct (decide (Some (ChatThread.studentId thread) = studentId cookies)) as [Ht|Ht];
      [|rewrite (bool_decide_eq_false_2 _ Ht); by rewrite orb_true_r].
    destruct Hnone. by exists thread.
  - intros body remote i1 t1 i2 t2 now sent st0 Hturn.
    destruct (chat_turn_appends _ _ _ _ _ _ _ _ _ _ _ _ Hturn)
      as (thread & content & aiText & Hfind0 & Hs & Ht & Hrest).
    cbn zeta in Hrest. destruct Hrest as (Hmessages & Hsent & Hthread).
    destruct (chat_message_shape _ _ _ _ _ _ _ _ _ _ _ _ Hturn)
      as [[_ Hno]|(_ & _ & _ & _ & _ & Hrole & _)]; [by destruct (Hno sent)|].
    assert (truthy (sessionId cookies) = true /\ truthy (studentId cookies) = true)
      as [Hsid Hstu].
    { revert Hturn. unfold ChatMessages.POST. run_handler.
      destruct (truthy (sessionId cookies)), (truthy (studentId cookies)); try done;
        cbn; rewrite ?orb_true_r; done. }
    subst run. unfold ChatMessagesList.GET. run_handler.
    rewrite Hsid, Hstu, Hrole. rewrite bool_decide_eq_true_2 by done. cbn [negb orb].
    rewrite Hthread. cbn [ChatMessages.touch ChatThread.sessionId ChatThread.studentId].
    rewrite !bool_decide_eq_true_2 by done. cbn [negb orb fst].
    eexists _, _, _, _. split; [reflexivity|]. cbn [ChatMessagesList.messages].
    split; [reflexivity|]. split; [exact Hsent|].
    unfold orderByAsc. rewrite merge_sort_Permutation. cbn [ChatThread.id ChatMessages.touch].
    pose proof Hfind0 as [_ Hid]%findUnique_Some. rewrite Hid. subst ofThread.
    rewrite Hmessages, List.filter_app. cbn [List.filter ChatMessage.threadId].
    by rewrite !bool_decide_eq_true_2.
Qed.

Lemma session_lookup_is_safe_witness :
  cookieOps (runResponse (SessionLookup.GET teacherCookies) storeStarted2).1 = clearCookies
  /\ answer (runResponse (SessionLookup.GET cookiesA) classroom).1
     = Json200 (Some (SessionLookup.mkInfo "csession1" 100%Z (Some "student")
                        (Some (SessionLookup.mkStudentInfo "cstudent0" "ABabABd2")))).
Proof.
  split.
  - apply (proj2 (proj2 (proj2 (session_lookup_is_safe teacherCookies storeStarted2)))).
    reflexivity.
  - destruct (proj1 (proj2 (session_lookup_is_safe cookiesA classroom))) as [body Hbody].
    rewrite Hbody. vm_compute in Hbody. by injection Hbody as <-.
Defined.

Lemma thread_messages_are_listed_witness :
  (runHandler (ChatMessagesList.GET cookiesB "cthread1") (classroomWithThreads 1)).1
  = JsonError 404 "Chat not found.".
Proof.
  apply (proj1 (proj2 (proj2 (proj2 (thread_messages_are_listed (H := testLibraries)
           cookiesB "cthread1" (classroomWithThreads 1)))))); try reflexivity.
  intros (thread & Hfind & _ & Howner).
  vm_compute in Hfind. injection Hfind as <-. discriminate Howner.
Defined.

Section ThreadItems.

Lemma latest_of_thread (rows : list ChatMessage.t) :
  match head (List.firstn 1 (orderByCreatedAtDesc ChatMessage.createdAt rows)) with
  | None => rows = []
  | Some m =>
      m ∈ rows
      /\ forall m', m' ∈ rows -> (ChatMessage.createdAt m' <= ChatMessage.createdAt m)%Z
  end.
Proof.
  unfold orderByCreatedAtDesc.
  pose proof (merge_sort_Permutation (newerFirst ChatMessage.createdAt) rows) as Hperm.
  assert (StronglySorted (newerFirst ChatMessage.createdAt)
            (merge_sort (newerFirst ChatMessage.createdAt) rows)) as Hsorted
    by (apply StronglySorted_merge_sort; apply _).
  destruct (merge_sort (newerFirst ChatMessage.createdAt) rows) as [|m rest]; cbn.
  - by apply Permutation_nil_l in Hperm.
  - split; [rewrite <- Hperm; left|].
    intros m' Hm'. rewrite <- Hperm in Hm'.
    apply elem_of_cons in Hm' as [->|Hm']; [done|].
    apply StronglySorted_inv in Hsorted as [_ Hall]. rewrite Forall_forall in Hall.
    by apply Hall.
Qed.

End ThreadItems.

(** X26. The thread list shows a student their own threads and
    nothing else.  The handler never changes the store and answers 403
    without the student cookies.  On 200 the threads are exactly the
    stored threads of the caller's session and student, each once, most
    recently updated first, never more than 5 in a reachable store; each
    comes with the number of its stored messages and, as latest message,
    the content of a message of the thread than which none is newer
    (nothing when the thread is empty). *)
Theorem thread_list_shows_own_threads `{Libraries} cookies st :
  let run := runHandler (ChatThreadsList.GET cookies) st in
  run.2 = st
  /\ (truthy (sessionId cookies) = false \/ role cookies <> Some "student"
      \/ truthy (studentId cookies) = false ->
      run.1 = JsonError 403 "Student access required.")
  /\ (forall reply,
        run.1 = Json200 reply ->
        ChatThreadsList.limit reply = 5
        /\ exists sid stu rows,
             sessionId cookies = Some sid /\ studentId cookies = Some stu
             /\ ChatThreadsList.threads reply = ChatThreadsList.itemOf st <$> rows
             /\ rows ≡ₚ List.filter (fun t => bool_decide (ChatThread.sessionId t = sid)
                                              && bool_decide (ChatThread.studentId t = stu))
                                    (chatThreads st)
             /\ Sorted (newerFirst ChatThread.updatedAt) rows
             /\ (reachable st -> length (ChatThreadsList.threads reply) <= 5)
             /\ Forall
                  (fun item =>
                     let ofThread :=
                       fun m => bool_decide (ChatMessage.threadId m = ChatThreadsList.id item) in
                     ChatThreadsList.messageCount item
                     = length (List.filter ofThread (chatMessages st))
                     /\ match ChatThreadsList.latestMessage item with
                        | None => ChatThreadsList.messageCount item = 0
                        | Some content =>
                            exists m,
                              m ∈ chatMessages st
                              /\ ChatMessage.threadId m = ChatThreadsList.id item
                              /\ ChatMessage.content m = content
                              /\ forall m', m' ∈ chatMessages st ->
                                   ChatMessage.threadId m' = ChatThreadsList.id item ->
                                   (ChatMessage.createdAt m' <= ChatMessage.createdAt m)%Z
                        end)
                  (ChatThreadsList.threads reply)).
Proof.
  intros run.
  assert (run.2 = st) as Hsame.
  { subst run. unfold ChatThreadsList.GET. run_handler.
    repeat (case_match; simplify_eq /=); done. }
  split; [done|]. split.
  - intros Hgate. subst run. unfold ChatThreadsList.GET. run_handler.
    destruct Hgate as [-> | [Hrole | ->]]; [done| |by rewrite !orb_true_r].
    rewrite (bool_decide_eq_false_2 (role cookies = _)) by done. by rewrite orb_true_r.
  - intros reply. subst run. unfold ChatThreadsList.GET. run_handler.
    destruct (truthy (sessionId cookies)) eqn:Hsid; [|done].
    destruct (bool_decide (role cookies = Some "student")); [|done].
    destruct (truthy (studentId cookies)) eqn:Hstu; [|done].
    cbn [negb orb fst]. intros [= <-]. cbn [ChatThreadsList.limit ChatThreadsList.threads].
    split; [done|].
    destruct (sessionId cookies) as [sid|]; [|done].
    destruct (studentId cookies) as [stu|]; [|done]. cbn [default from_option].
    exists sid, stu. eexists. split; [done|]. split; [done|]. split; [reflexivity|].
    split; [apply merge_sort_Permutation|].
    split; [apply Sorted_merge_sort; apply _|]. split.
    + intros Hst. rewrite length_fmap, (Permutation_length (merge_sort_Permutation _ _)).
      exact (reachable_threads_capped _ Hst sid stu).
    + rewrite Forall_fmap. apply Forall_forall. intros thread _. cbn.
      split; [done|]. unfold prismaChatMessage.findMany.
      pose proof (latest_of_thread
                    (List.filter
                       (fun m => bool_decide (ChatMessage.threadId m = ChatThread.id thread))
                       (chatMessages st))) as Hlatest.
      destruct (head (List.firstn 1 _)) as [m|]; cbn.
      * destruct Hlatest as [Hm Hnewest].
        apply list_elem_of_In, List.filter_In in Hm as [Hm%list_elem_of_In Hthread].
        apply bool_decide_eq_true in Hthread.
        exists m. repeat (split; [done|]). intros m' Hm' Hthread'. apply Hnewest.
        apply list_elem_of_In, List.filter_In. split; [by apply list_elem_of_In|].
        by apply bool_decide_eq_true.
      * by rewrite Hlatest.
Qed.

Lemma thread_list_shows_own_threads_witness :
  (runHandler (ChatThreadsList.GET teacherCookies) (classroomWithThreads 2)).1
  = JsonError 403 "Student access required."
  /\ ChatThreadsList.title <$>
       match (runHandler (ChatThreadsList.GET cookiesA) (classroomWithThreads 2)).1 with
       | Json200 reply => ChatThreadsList.threads reply
       | _ => []
       end
     = ["Conversation 2"; "Conversation 1"].
Proof.
  split; [|reflexivity].
  apply (proj1 (proj2 (thread_list_shows_own_threads (H := testLibraries) teacherCookies
                         (classroomWithThreads 2)))).
  right. by left.
Defined.

(** *** The teacher's export and activity view *)

(** X27. The export and the activity view are for the teacher and show
    the whole session, ended or not.  Without a session cookie and the
    teacher role both answer 403, for a session that is not stored 404;
    neither changes the store.  Otherwise the export lists every
    submission of the session once, oldest first, whatever its status or
    share flag, with hasImage telling whether image data is stored (the
    data itself is not exported); the activity view lists the same
    submissions newest first.  Between requests an exported entry with
    an image is SUCCESS and an ERROR entry has no image and has an error
    message. *)
Theorem export_lists_the_whole_session `{Libraries} cookies st :
  let export := runHandler (TeacherExport.GET cookies) st in
  let activity := runHandler (TeacherActivity.GET cookies) st in
  let sid := default "" (sessionId cookies) in
  let ofSession := List.filter (fun s => bool_decide (PromptSubmission.sessionId s = sid))
                               (promptSubmissions st) in
  export.2 = st /\ activity.2 = st
  /\ (truthy (sessionId cookies) = false \/ role cookies <> Some "teacher" ->
      export.1 = JsonError 403 "Teacher access only."
      /\ activity.1 = JsonError 403 "Teacher access only.")
  /\ (truthy (sessionId cookies) = true -> role cookies = Some "teacher" ->
      match findUnique Session.id sid (sessions st) with
      | None =>
          export.1 = JsonError 404 "Session not found."
          /\ activity.1 = JsonError 404 "Session not found."
      | Some session =>
          exists oldestFirst newestFirst,
            export.1
            = Json200 (TeacherExport.mkReply
                         (TeacherExport.mkSessionInfo sid (Session.createdAt session)
                            (Session.endedAt session) (Session.isActive session))
                         (TeacherExport.entryOf st <$> oldestFirst)
                         ("session-" +:+ sid +:+ ".json"))
            /\ activity.1
               = Json200 (TeacherActivity.mkReply
                            (TeacherActivity.mkSessionInfo sid (Session.createdAt session)
                               (Session.isActive session))
                            ((fun s => (s, usernameOf st s)) <$> newestFirst))
            /\ oldestFirst ≡ₚ ofSession /\ newestFirst ≡ₚ ofSession
            /\ Sorted (olderFirst PromptSubmission.createdAt) oldestFirst
            /\ Sorted (newerFirst PromptSubmission.createdAt) newestFirst
            /\ (reachable st ->
                Forall (fun e =>
                          TeacherExport.status e <> PENDING
                          /\ (TeacherExport.hasImage e = true ->
                              TeacherExport.status e = SUCCESS)
                          /\ (TeacherExport.status e = ERROR ->
                              TeacherExport.hasImage e = false
                              /\ is_Some (TeacherExport.errorMessage e)))
                       (TeacherExport.entryOf st <$> oldestFirst))
      end).
Proof.
  intros export activity sid ofSession.
  assert (export.2 = st) as Hexport.
  { subst export. unfold TeacherExport.GET. run_handler.
    repeat (case_match; simplify_eq /=); done. }
  assert (activity.2 = st) as Hactivity.
  { subst activity. unfold TeacherActivity.GET. run_handler.
    repeat (case_match; simplify_eq /=); done. }
  split; [done|]. split; [done|]. split.
  - intros Hgate. subst export activity. unfold TeacherExport.GET, TeacherActivity.GET.
    run_handler.
    destruct Hgate as [-> | Hrole]; [done|].
    rewrite (bool_decide_eq_false_2 (role cookies = _)) by done. by rewrite orb_true_r.
  - intros Hsid Hrole. subst export activity. unfold TeacherExport.GET, TeacherActivity.GET.
    run_handler. rewrite Hsid, Hrole. rewrite bool_decide_eq_true_2 by done.
    cbn [negb orb]. fold sid.
    destruct (findUnique Session.id sid (sessions st)) as [session|] eqn:Hsession; [|done].
    pose proof Hsession as [_ Hid]%findUnique_Some. rewrite Hid. fold ofSession.
    eexists _, _. cbn [fst]. split; [reflexivity|]. split; [reflexivity|].
    unfold orderByAsc, orderByCreatedAtDesc.
    split; [apply merge_sort_Permutation|]. split; [apply merge_sort_Permutation|].
    split; [apply Sorted_merge_sort; apply _|].
    split; [apply Sorted_merge_sort; apply _|].
    + intros Hst. pose proof (reachable_submissionsOk _ Hst) as (_ & _ & Hsettled & _).
      rewrite Forall_fmap. apply Forall_forall. intros s Hs.
      rewrite merge_sort_Permutation in Hs.
      apply list_elem_of_In, List.filter_In in Hs as [Hs%list_elem_of_In _].
      rewrite Forall_forall in Hsettled. specialize (Hsettled _ Hs).
      unfold settled in Hsettled. cbn.
      destruct (PromptSubmission.status s); [done| |].
      * split; [done|]. split; [done|]. done.
      * destruct Hsettled as (Hnone & _ & Herror). rewrite Hnone. cbn.
        split; [done|]. split; [done|]. done.
Qed.

Lemma export_lists_the_whole_session_witness :
  TeacherExport.entryId <$>
    match (runHandler (TeacherExport.GET (mkCookies (Some "csession1") (Some "teacher") None))
             (runHandler (SessionEnd.POST teacherCookies 400%Z) classroomWithError).2).1 with
    | Json200 reply => TeacherExport.entries reply
    | _ => []
    end
  = ["cimage1"; "cimage2"; "cimage4"]
  /\ (runHandler (TeacherExport.GET cookiesA) classroom).1
     = JsonError 403 "Teacher access only.".
Proof.
  split; [reflexivity|].
  apply (proj1 (proj2 (proj2 (export_lists_the_whole_session (H := testLibraries) cookiesA
                                classroom)))).
  by right.
Defined.

(** ** The calls to OpenRouter *)

Section Skip.
Variables (one : ascii -> bool) (two : ascii -> ascii -> bool)
  (three : ascii -> ascii -> ascii -> bool).

Lemma skipSpaces_eq l :
  skipSpaces one two three l
  = match l with
    | [] => []
    | a :: r1 =>
        if one a then skipSpaces one two three r1
        else
          match r1 with
          | b :: r2 =>
              if two a b then skipSpaces one two three r2
              else
                match r2 with
                | c :: r3 => if three a b c then skipSpaces one two three r3 else l
                | [] => l
                end
          | [] => l
          end
    end.
Proof. by destruct l. Qed.

Ltac skip_cases l IH E1 E2 E3 :=
  induction l as [l IH] using (induction_ltof1 _ (@length ascii)); unfold ltof in IH;
  rewrite (skipSpaces_eq l);
  destruct l as [|?a ?r1]; [|destruct (one _) eqn:E1; [|
    destruct r1 as [|?b ?r2]; [|destruct (two _ _) eqn:E2; [|
      destruct r2 as [|?c ?r3]; [|destruct (three _ _ _) eqn:E3]]]]].

Lemma skipSpaces_length l : length (skipSpaces one two three l) <= length l.
Proof.
skip_cases l IH E1 E2 E3; try done; (etrans; [apply IH|]; cbn; lia).
Qed.

Lemma skipSpaces_suffix l : skipSpaces one two three l `suffix_of` l.
Proof.
skip_cases l IH E1 E2 E3; try done; repeat apply suffix_cons_r; apply IH; cbn; lia.
Qed.

Lemma skipSpaces_fixed l :
  skipSpaces one two three (skipSpaces one two three l) = skipSpaces one two three l.
Proof.
skip_cases l IH E1 E2 E3; try done; try (apply IH; cbn; lia);
  rewrite skipSpaces_eq, ?E1, ?E2, ?E3; done.
Qed.

Lemma skipSpaces_stuck l :
  skipSpaces one two three l = l ->
  match l with
  | [] => True
  | a :: r1 =>
      one a = false
      /\ match r1 with
         | [] => True
         | b :: r2 =>
             two a b = false
             /\ match r2 with
                | [] => True
                | c :: _ => three a b c = false
                end
         end
  end.
Proof.
intros Hl. pose proof (skipSpaces_length) as Hlen.
rewrite skipSpaces_eq in Hl.
destruct l as [|a r1]; [done|]. destruct (one a) eqn:E1.
{ pose proof (Hlen r1) as Hq. rewrite Hl in Hq. cbn in Hq. lia. }
split; [done|]. destruct r1 as [|b r2]; [done|]. destruct (two a b) eqn:E2.
{ pose proof (Hlen r2) as Hq. rewrite Hl in Hq. cbn in Hq. lia. }
split; [done|]. destruct r2 as [|c r3]; [done|]. destruct (three a b c) eqn:E3; [|done].
pose proof (Hlen r3) as Hq. rewrite Hl in Hq. cbn in Hq. lia.
Qed.

Lemma skipSpaces_prefix l p :
  skipSpaces one two three l = l -> p `prefix_of` l -> skipSpaces one two three p = p.
Proof.
intros Hl%skipSpaces_stuck [q ->]. rewrite skipSpaces_eq.
destruct p as [|a [|b [|c r3]]]; [done|..]; cbn in Hl.
- by destruct Hl as [-> _].
- by destruct Hl as (-> & -> & _).
- by destruct Hl as (-> & -> & ->).
Qed.

End Skip.

Lemma trim_idempotent s : trim (trim s) = trim s.
Proof.
unfold trim, trimEnd, trimStart.
rewrite !String.list_ascii_of_string_of_list_ascii.
set (t := skipSpaces isSpace isSpace2 isSpace3 (String.list_ascii_of_string s)).
set (R := skipSpaces isSpace _ _).
assert (skipSpaces isSpace isSpace2 isSpace3 (rev (R (rev t))) = rev (R (rev t))) as ->.
{ apply (skipSpaces_prefix _ _ _ t); [apply skipSpaces_fixed|].
  destruct (skipSpaces_suffix isSpace (fun b a => isSpace2 a b) (fun c b a => isSpace3 a b c) (rev t))
    as [k Hk]. fold R in Hk.
  exists (rev k). apply rev_inj. rewrite rev_app_distr, !rev_involutive. exact Hk. }
rewrite rev_involutive. unfold R. by rewrite skipSpaces_fixed.
Qed.

Section ChatReplies.
Context `{Runtime}.
Import ChatCompletion.

Lemma extractText_trimmed message text :
  extractTextFromChoiceMessage message = Some text -> trim text = text.
Proof.
unfold extractTextFromChoiceMessage. intros Hx.
repeat (case_match; simplify_eq /=); by rewrite trim_idempotent.
Qed.

Lemma callChatCompletion_inr env fetch history text :
  callChatCompletion env fetch history = inr text ->
  text <> "" /\ trim text = text
  /\ truthy (OPENROUTER_API_KEY env) = true
  /\ exists response,
       fetch (requestOf env (default "" (OPENROUTER_API_KEY env)) history) = inr response
       /\ ok response = true.
Proof.
unfold callChatCompletion. intros Hcall.
destruct (truthy (OPENROUTER_API_KEY env)) eqn:Hkey; [|done]. cbn [negb] in Hcall.
destruct (fetch _) as [|response] eqn:Hfetch; [done|].
destruct (json response) as [|result]; [done|].
destruct (ok response) eqn:Hok; [|done]. cbn [negb] in Hcall.
destruct (extractTextFromChoiceMessage _) as [aiText|] eqn:Hx; [|done].
case_bool_decide as Hlen; [done|]. simplify_eq.
split_and!; [by intros ->| by eapply extractText_trimmed | done | by exists response].
Qed.

Context `{Libraries}.

(** X28. No message of a chat exchange is blank.  When the message
    handler, calling OpenRouter's chat completion, answers 200, the API
    key was set and OpenRouter answered the request with an ok status;
    the reply lists the student's message and then the AI's, and the
    content of each is not empty and is left as it is by trim: it has
    none of JavaScript's white space characters at either end. *)
Theorem exchange_messages_are_never_blank env fetch cookies threadId body i1 t1 i2 t2 now
    st sent st' :
  runHandler (ChatMessages.POST cookies threadId body (remote env fetch) i1 t1 i2 t2 now) st
  = (Json200 sent, st') ->
  truthy (OPENROUTER_API_KEY env) = true
  /\ (exists history response,
        fetch (requestOf env (default "" (OPENROUTER_API_KEY env)) history) = inr response
        /\ ok response = true)
  /\ ChatMessages.sentSender <$> sent = [STUDENT; AI]
  /\ Forall (fun m => ChatMessages.sentContent m <> ""
                      /\ trim (ChatMessages.sentContent m) = ChatMessages.sentContent m)
            sent.
Proof.
intros Hrun.
destruct (chat_message_shape _ _ _ _ _ _ _ _ _ _ _ _ Hrun)
  as [[_ Hno]|(thread & content & _ & _ & _ & _ & (json & _ & Hparse) & _ & Hcases)];
  [by destruct (Hno sent)|].
cbn zeta in Hcases.
destruct Hcases as [[_ Hno]|(aiText & Hremote & _ & [= ->] & _)]; [by destruct (Hno sent)|].
unfold remote in Hremote.
destruct (callChatCompletion _ _ _) as [|text] eqn:Hcall; [done|]. simplify_eq.
apply callChatCompletion_inr in Hcall as (Hne & Htrim & Hkey & response & Hfetch & Hok).
apply messageSchema_bounds in Hparse as [Hlen [raw ->]].
split_and!; [done|by eexists _, response|done|].
repeat constructor; cbn; try done.
- intros Heq. rewrite Heq in Hlen. cbn in Hlen. lia.
- apply trim_idempotent.
Qed.

End ChatReplies.

Lemma exchange_messages_are_never_blank_witness :
  let fetch := fetchText (nbsp +:+ " A kite flies on the wind. " +:+ nbsp) in
  let sent := [ChatMessages.mkSent "cmessage1" "What is a kite?" STUDENT 300%Z;
               ChatMessages.mkSent "cmessage2" "A kite flies on the wind." AI 301%Z] in
  (runHandler (ChatMessages.POST (H := testLibraries) cookiesA "cthread1"
                 (Some (JObject [("content", JString " What is a kite? ")]))
                 (ChatCompletion.remote (H := testLibraries) (H0 := testRuntime) envWithKey fetch)
                 "cmessage1" 300%Z "cmessage2" 301%Z 302%Z)
              (classroomWithThreads 1)).1 = Json200 sent
  /\ Forall (fun m => ChatMessages.sentContent m <> ""
                      /\ trim (ChatMessages.sentContent m) = ChatMessages.sentContent m)
            sent.
Proof.
intros fetch sent.
assert (Hrun : runHandler (ChatMessages.POST (H := testLibraries) cookiesA "cthread1"
                 (Some (JObject [("content", JString " What is a kite? ")]))
                 (ChatCompletion.remote (H := testLibraries) (H0 := testRuntime) envWithKey fetch)
                 "cmessage1" 300%Z "cmessage2" 301%Z 302%Z)
              (classroomWithThreads 1)
              = (Json200 sent,
                 (runHandler (ChatMessages.POST (H := testLibraries) cookiesA "cthread1"
                    (Some (JObject [("content", JString " What is a kite? ")]))
                    (ChatCompletion.remote (H := testLibraries) (H0 := testRuntime) envWithKey fetch)
                    "cmessage1" 300%Z "cmessage2" 301%Z 302%Z)
                  (classroomWithThreads 1)).2)) by (vm_compute; reflexivity).
split; [by rewrite Hrun|].
exact (proj2 (proj2 (proj2
  (exchange_messages_are_never_blank (H := testRuntime) (H0 := testLibraries)
     _ _ _ _ _ _ _ _ _ _ _ _ _ Hrun)))).
Defined.

Lemma app_cons a s t : String a s +:+ t = String a (s +:+ t).
Proof. reflexivity. Qed.

Lemma app_empty t : "" +:+ t = t.
Proof. reflexivity. Qed.

Lemma prefix_app s t : String.prefix s (s +:+ t) = true.
Proof.
induction s as [|a s IH]; [by destruct t|].
rewrite app_cons. cbn. by destruct (Ascii.ascii_dec a a).
Qed.

Lemma includes_app needle before after :
  includes needle (before +:+ needle +:+ after) = true.
Proof.
induction before as [|a s IH].
- rewrite app_empty. destruct (needle +:+ after) eqn:E; cbn [includes];
    rewrite <- E, prefix_app; done.
- rewrite app_cons. cbn [includes]. rewrite IH. apply orb_true_r.
Qed.

Lemma includes_cons needle a s :
  includes needle s = true -> includes needle (String a s) = true.
Proof. intros Hs. cbn [includes]. rewrite Hs. apply orb_true_r. Qed.

Lemma span_app p s b t :
  forallb p (String.list_ascii_of_string s) = true -> p b = false ->
  OpenRouterImage.span p (s +:+ String b t) = (s, String b t).
Proof.
intros Hs Hb. induction s as [|a s IH].
- rewrite app_empty. cbn. by rewrite Hb.
- rewrite app_cons. cbn in Hs. apply andb_true_iff in Hs as [Ha Hs].
  cbn [OpenRouterImage.span]. rewrite Ha, (IH Hs). done.
Qed.

Section DataUrl.
Context `{Runtime}.
Import OpenRouterImage.

Lemma matchDataUrl_base64 mime data :
  forallb plainChar (String.list_ascii_of_string mime) = true ->
  data <> "" ->
  noLineEnd data = true ->
  matchDataUrl ("data:" +:+ mime +:+ ";base64," +:+ data)
  = Some (if bool_decide (mime = "") then None else Some mime, data).
Proof.
intros Hmime Hdata Hline. unfold matchDataUrl.
rewrite prefix_app. cbn [negb].
rewrite !app_cons, app_empty. cbn [skip].
rewrite (span_app _ mime ";" _ Hmime eq_refl).
cbn [String.prefix skip]. repeat (destruct (Ascii.ascii_dec _ _); [|done]).
cbn [skip]. rewrite !app_empty, Hline, bool_decide_eq_true_2 by done. done.
Qed.

Lemma fetchImageAsBase64_dataUrl fetch mime data :
  mime <> "" ->
  forallb plainChar (String.list_ascii_of_string mime) = true ->
  data <> "" ->
  noLineEnd data = true ->
  fetchImageAsBase64 fetch ("data:" +:+ mime +:+ ";base64," +:+ data) = inr (data, mime).
Proof.
intros Hne Hmime Hdata Hline. unfold fetchImageAsBase64.
rewrite prefix_app, matchDataUrl_base64 by done.
assert (includes ";base64," ("data:" +:+ mime +:+ ";base64," +:+ data) = true) as ->.
{ do 5 (rewrite app_cons; apply includes_cons). rewrite app_empty. apply includes_app. }
rewrite bool_decide_eq_false_2 by done.
unfold truthy. cbn. by rewrite bool_decide_eq_true_2.
Qed.

End DataUrl.

Section ImageCall.
Context `{Runtime}.
Import OpenRouterImage.

(** X29. The base image of a refinement reads back as the parent's
    picture.  When the generate handler's parent checks pass, the data
    URL it hands to the generation call is one that
    [fetchImageAsBase64] decodes, without any download, to the parent's
    stored image data and mime type (image/png when none is stored),
    provided the mime type is not empty and has no semicolon or comma
    and the data has no line terminator (U+000A, U+000D, U+2028,
    U+2029). *)
Theorem base_image_round_trip `{Libraries} fetch sid stu pid st chain parent :
  ImagesGenerate.lineage sid stu pid st = inr chain ->
  prismaPromptSubmission.findUnique pid st = Some parent ->
  let mime := default "image/png" (PromptSubmission.imageMimeType parent) in
  let data := default "" (PromptSubmission.imageData parent) in
  mime <> "" ->
  forallb plainChar (String.list_ascii_of_string mime) = true ->
  noLineEnd data = true ->
  data <> ""
  /\ exists url,
       ImagesGenerate.baseImageDataUrl chain = Some url
       /\ fetchImageAsBase64 fetch url = inr (data, mime).
Proof.
intros Hlineage Hfind mime data Hne Hmime Hline.
destruct (lineage_inv _ _ _ _ _ Hlineage)
  as (parent' & Hfind' & _ & _ & Htruthy & _ & ->).
simplify_eq.
assert (Hdata : data <> "").
{ unfold data. destruct (PromptSubmission.imageData parent) as [d|]; [|done].
  by apply bool_decide_eq_true in Htruthy. }
split; [done|]. exists (ImagesGenerate.dataUrl parent). split; [done|].
by apply fetchImageAsBase64_dataUrl.
Qed.

Lemma fetchImageAsBase64_ext fetch fetch' u :
  (forall link, fetch' (mkRequest link "GET" [] None) = fetch (mkRequest link "GET" [] None)) ->
  fetchImageAsBase64 fetch' u = fetchImageAsBase64 fetch u.
Proof. intros Hget. unfold fetchImageAsBase64. by rewrite Hget. Qed.

(** X30. The base image reaches chat models only.  With a model that
    [isChatModel] rejects (the default openai/gpt-image-1 is one) the
    generation call never uses the base image of a refinement and never
    contacts the chat endpoint: its outcome is that of the call without
    a base image, and depends on the outside world only through the
    answer to the one request {model, prompt} to the image endpoint and
    the downloads of image links. *)
Theorem base_image_reaches_chat_models_only env fetch fetch' prompt base :
  isChatModel (modelOf env) = false ->
  fetch' (imageRequest env prompt) = fetch (imageRequest env prompt) ->
  (forall link, fetch' (mkRequest link "GET" [] None) = fetch (mkRequest link "GET" [] None)) ->
  callOpenRouter env fetch' prompt base = callOpenRouter env fetch prompt None.
Proof.
intros Hmodel Hpost Hget. unfold callOpenRouter.
destruct (truthy (OPENROUTER_API_KEY env)); [|done]. cbn [negb].
rewrite Hmodel, Hpost.
destruct (fetch _) as [|response]; [done|].
destruct (json response) as [|result]; [done|].
repeat (case_match; try done).
by rewrite (fetchImageAsBase64_ext fetch fetch').
Qed.

End ImageCall.

Lemma base_image_round_trip_witness :
  ImagesGenerate.lineage "csession1" "cstudent0" "cimage1" classroomWithRoot
  = inr (ImagesGenerate.mkLineage (Some "cimage1") 1 (Some "data:image/png;base64,QUJD"))
  /\ OpenRouterImage.fetchImageAsBase64 (H := testRuntime) fetchPicture
       "data:image/png;base64,QUJD" = inr ("QUJD", "image/png").
Proof.
split; [reflexivity|].
destruct (base_image_round_trip (H := testRuntime) (H0 := testLibraries) fetchPicture
            "csession1" "cstudent0" "cimage1" classroomWithRoot
            (ImagesGenerate.mkLineage (Some "cimage1") 1 (Some "data:image/png;base64,QUJD"))
            (PromptSubmission.mk "cimage1" "csession1" "a red kite" "STUDENT" 120%Z
               (Some "cstudent0") None None 0 SUCCESS (Some "QUJD") (Some "image/png")
               None false))
  as (_ & url & Hurl & Hfetch); [concrete..|].
cbn in Hurl. by simplify_eq.
Defined.

Lemma base_image_reaches_chat_models_only_witness :
  OpenRouterImage.isChatModel (H := testRuntime) (OpenRouterImage.modelOf envWithKey) = false
  /\ OpenRouterImage.callOpenRouter (H := testRuntime) envWithKey fetchPicture
       "make the kite blue" (Some "data:image/png;base64,QUJD")
     = inr (JsString "QUJD", JsString "image/png").
Proof.
split; [reflexivity|].
rewrite (base_image_reaches_chat_models_only (H := testRuntime) envWithKey fetchPicture
           fetchPicture "make the kite blue" (Some "data:image/png;base64,QUJD")
           eq_refl eq_refl (fun _ => eq_refl)).
reflexivity.
Defined.
